(** * XSBH fragment viewer: the scene-management layer of [frontend/src/main.ts]

    A shallow embedding of the control logic of class [FragmentViewer]:
    camera framing ([fitCameraToModels], [fitAllModelsToView]), the
    model-readiness wait ([waitForModelReady]), category visibility
    ([toggleCategoryVisibility], [toggleCategoryVisibilityFallback]) and the
    click handler installed by [setupPicking].

    Conventions of the embedding.
    - A JavaScript [number] is an exact rational ([Q]); equalities between
      computed numbers are stated with [==].  Non-finite values ([NaN],
      [Infinity]) are outside the model.  Module [Binary64] repeats the
      arithmetic of the close and far fit on IEEE 754 doubles, to check the
      concrete scenarios against the rounding of the source.
    - Handles of the rendering engine ([any] in the source) are records whose
      optional capabilities are [option] fields; a call that may throw
      returns an [outcome].
    - [console] output is a list of structured entries, oldest first. *)

From Stdlib Require Import ZArith QArith Qminmax Lia Lqa List String Ascii Bool.
From Stdlib Require Import Floats.
From stdpp Require Import base option list gmap sets strings.

Local Open Scope Q_scope.

(** ** Numbers *)

(** [a > b] on JavaScript numbers. *)
Definition Qgtb (a b : Q) : bool := negb (Qle_bool a b).

(** [a < b] on JavaScript numbers. *)
Definition Qltb (a b : Q) : bool := Qgtb b a.

(** ** The part of THREE the viewer uses *)

Record Vector3 := mkVector3 { v_x : Q; v_y : Q; v_z : Q }.

Definition veq (a b : Vector3) : Prop :=
  v_x a == v_x b /\ v_y a == v_y b /\ v_z a == v_z b.

Definition vmin (a b : Vector3) : Vector3 :=
  mkVector3 (Qmin (v_x a) (v_x b)) (Qmin (v_y a) (v_y b)) (Qmin (v_z a) (v_z b)).

Definition vmax (a b : Vector3) : Vector3 :=
  mkVector3 (Qmax (v_x a) (v_x b)) (Qmax (v_y a) (v_y b)) (Qmax (v_z a) (v_z b)).

(** [THREE.Box3].  [new THREE.Box3()] has corners at plus and minus infinity;
    it is the constructor [emptyBox]. *)
Inductive Box3 :=
| emptyBox
| box (lo hi : Vector3).

(** [Box3.isEmpty]: some upper coordinate lies below the lower one. *)
Definition isEmpty (b : Box3) : bool :=
  match b with
  | emptyBox => true
  | box lo hi =>
      Qltb (v_x hi) (v_x lo) || Qltb (v_y hi) (v_y lo) || Qltb (v_z hi) (v_z lo)
  end.

(** [Box3.union]: componentwise minimum and maximum of the corners. *)
Definition union (a b : Box3) : Box3 :=
  match a, b with
  | emptyBox, _ => b
  | _, emptyBox => a
  | box lo hi, box lo' hi' => box (vmin lo lo') (vmax hi hi')
  end.

(** [Box3.getCenter]: the origin for an empty box. *)
Definition getCenter (b : Box3) : Vector3 :=
  match b with
  | box lo hi =>
      if isEmpty b then mkVector3 0 0 0
      else mkVector3 ((v_x lo + v_x hi) * 0.5) ((v_y lo + v_y hi) * 0.5)
                     ((v_z lo + v_z hi) * 0.5)
  | emptyBox => mkVector3 0 0 0
  end.

(** [Box3.getSize]: zero for an empty box. *)
Definition getSize (b : Box3) : Vector3 :=
  match b with
  | box lo hi =>
      if isEmpty b then mkVector3 0 0 0
      else mkVector3 (v_x hi - v_x lo) (v_y hi - v_y lo) (v_z hi - v_z lo)
  | emptyBox => mkVector3 0 0 0
  end.

(** [Math.max(size.x, size.y, size.z)]. *)
Definition maxDimOf (size : Vector3) : Q :=
  Qmax (Qmax (v_x size) (v_y size)) (v_z size).

(** ** Engine handles *)

(** Result of a call into the engine that may throw (or, for a promise,
    reject). *)
Inductive outcome (A : Type) :=
| Ok (a : A)
| Throws.
Arguments Ok {A} a.
Arguments Throws {A}.

(** A child of [model.object]: [positionCount] is
    [child.geometry.attributes.position.count] when the whole chain exists. *)
Record Mesh := mkMesh { positionCount : option Z }.

(** [model.object]: what [Box3.setFromObject] computes for it, and its
    children. *)
Record Object3D := mkObject3D {
  bounds : Box3;
  children : list Mesh
}.

(** What [model.boundingBoxes.getMergedBox(model)] does: the promise is
    fulfilled with a box or with [null], or it is rejected, or the call itself
    throws (the facility is there but cannot be called). *)
Inductive MergedBox :=
| MergedBoxResolves (b : option Box3)
| MergedBoxRejects
| MergedBoxThrows.

(** Component data as the property lookups return it: keys in order, a value
    being [None] when it is undefined, null, the empty string or a function,
    and otherwise its string form. *)
Definition Properties := list (string * option string).

(** What [model.raycast] resolves to: [null]/[undefined], or an object whose
    [localId] may be undefined. *)
Record RayHit := mkRayHit { localId : option Z }.

(** A fragment model handle.  Every capability is probed before use in the
    source, hence the options.  [hiddenItems] is the engine-side visibility
    state the visibility primitives act on. *)
Record Model := mkModel {
  modelId : string;
  object : option Object3D;
  boundingBoxes : option MergedBox;
  getItemsOfCategories : option (string -> outcome (list Z));
  getItemsData : option (Z -> outcome (option Properties));
  getProperties : option (Z -> outcome (option Properties));
  setVisible : bool;
  isVisible : bool;
  toggleVisible : bool;
  raycast : option (Q * Q -> outcome (option RayHit));
  hiddenItems : gset Z
}.

Record LoadedModel := mkLoaded { model : Model; fileName : string }.

(** ** Camera settings *)

Record CameraSettings := mkCameraSettings {
  nearPlane : Q;
  farPlane : Q;
  closeFitMultiplier : Q;
  farFitMultiplier : Q;
  closeHeightOffset : Q;
  farHeightOffset : Q;
  minimumDistance : Q;
  mediumModelThreshold : Q;
  largeModelThreshold : Q;
  veryLargeModelThreshold : Q
}.

(** The initial value of [FragmentViewer.cameraSettings]. *)
Definition defaultCameraSettings : CameraSettings :=
  {| nearPlane := 0.1;
     farPlane := 50000;
     closeFitMultiplier := 5.0;
     farFitMultiplier := 8.0;
     closeHeightOffset := 2.0;
     farHeightOffset := 3.0;
     minimumDistance := 200;
     mediumModelThreshold := 100;
     largeModelThreshold := 500;
     veryLargeModelThreshold := 1000 |}.

(** ** Close and far fit: the locals of [fitCameraToModels] *)

(** The [forEach] that accumulates [combinedBox] and [hasBox]. *)
Definition combineBoxes (models : list LoadedModel) : Box3 * bool :=
  fold_left
    (fun (acc : Box3 * bool) (lm : LoadedModel) =>
       match object (model lm) with
       | Some o =>
           let b := bounds o in
           if isEmpty b then acc else (union (fst acc) b, true)
       | None => acc
       end)
    models (emptyBox, false).

Definition distanceMultiplier (s : CameraSettings) (wide : bool) : Q :=
  if wide then farFitMultiplier s else closeFitMultiplier s.

Definition cameraOffset (s : CameraSettings) (wide : bool) : Q :=
  if wide then farHeightOffset s else closeHeightOffset s.

Definition baseDistance (s : CameraSettings) (wide : bool) (maxDim : Q) : Q :=
  Qmax (maxDim * distanceMultiplier s wide) (minimumDistance s).

(** The three sequential [if] statements on [modelScale]. *)
Definition modelScale (s : CameraSettings) (maxDim : Q) : Q :=
  let modelScale := 1.0 in
  let modelScale :=
    if Qgtb maxDim (mediumModelThreshold s) then 2.0 else modelScale in
  let modelScale :=
    if Qgtb maxDim (largeModelThreshold s) then 3.0 else modelScale in
  let modelScale :=
    if Qgtb maxDim (veryLargeModelThreshold s) then 4.0 else modelScale in
  modelScale.

Definition finalDistance (s : CameraSettings) (wide : bool) (maxDim : Q) : Q :=
  baseDistance s wide maxDim * modelScale s maxDim.

Definition cameraPosition (s : CameraSettings) (wide : bool)
    (center : Vector3) (maxDim : Q) : Vector3 :=
  let finalDistance := finalDistance s wide maxDim in
  mkVector3 (v_x center + finalDistance * 0.9)
            (v_y center + finalDistance * cameraOffset s wide)
            (v_z center + finalDistance * 0.8).

(** ** The same arithmetic on doubles *)

Module Binary64.

(** [Math.max] of two numbers, neither of them [NaN]. *)
Definition max (a b : float) : float :=
  if PrimFloat.ltb a b then b else a.

Definition maxDimOf (sizeX sizeY sizeZ : float) : float :=
  max (max sizeX sizeY) sizeZ.

Definition baseDistance (distanceMultiplier minimumDistance maxDim : float) : float :=
  max (maxDim * distanceMultiplier)%float minimumDistance.

Definition modelScale (medium large veryLarge maxDim : float) : float :=
  let modelScale := 1.0%float in
  let modelScale := if PrimFloat.ltb medium maxDim then 2.0%float else modelScale in
  let modelScale := if PrimFloat.ltb large maxDim then 3.0%float else modelScale in
  let modelScale := if PrimFloat.ltb veryLarge maxDim then 4.0%float else modelScale in
  modelScale.

(** The coordinate [center + finalDistance * factor] of [cameraPosition]. *)
Definition offset (center finalDistance factor : float) : float :=
  (center + finalDistance * factor)%float.

(** A coordinate of [Box3.getCenter]. *)
Definition centerOf (lo hi : float) : float := ((lo + hi) * 0.5)%float.

End Binary64.

(** ** Viewer state

    A [Viewer] is the state of an initialised [FragmentViewer]: [this.world]
    and [this.world.camera] exist.  [hiddenCategories] is the item of that
    name in [localStorage], already parsed ([None]: no such item);
    [propertiesContent] is the content of the properties panel ([None]: the
    panel element does not exist). *)

Record Camera := mkCamera {
  position : Vector3;
  target : Vector3;
  isPerspective : bool;
  fov : Q;
  hasControls : bool;
  near : Q;
  far : Q;
  projectionMatrixUpdates : nat
}.

Inductive LogEntry :=
| LogCameraFit (maxDim finalDistance : Q) (wide : bool)
| LogUsedSettings (distanceMultiplier cameraOffset modelScale : Q)
| LogClippingPlanes (near far : Q)
| LogFarPlaneUpdated (far : Q)
| LogFitted (models : nat) (distance : Q)
| WarnNoCameraOrModels
| WarnBoundsFailed
| WarnNoValidBoxes
| WarnCombinedEmpty
| LogToggling (category : string)
| LogFound (totalItems : nat) (category : string)
| LogCurrentlyHidden (category : string) (hidden : bool)
| LogShowed (totalItems : nat) (category : string)
| LogHid (totalItems : nat) (category : string)
| WarnNoItems (category : string)
| ErrorToggleFailed (category : string)
| LogTryingFallback (category : string)
| LogFallbackSucceeded (variation : string)
| WarnFallbackVariationFailed
| LogForcedRender
| WarnRendererUnavailable
| LogRaycastFailed (fileName : string).

(** What the properties panel shows. *)
Inductive PanelContent :=
| PanelInitial
| PanelEmptySelection
| PanelComponent (localId : Z) (fileName : string)
    (rows : option (list (string * string))).

Record Viewer := mkViewer {
  loadedModels : list LoadedModel;
  cameraSettings : CameraSettings;
  camera : Camera;
  fragmentsReady : bool;
  rendererAvailable : bool;
  propertiesContent : option PanelContent;
  hiddenCategories : option (gmap string bool);
  renders : nat;
  console : list LogEntry
}.

Definition withModels (ms : list LoadedModel) (v : Viewer) : Viewer :=
  mkViewer ms (cameraSettings v) (camera v) (fragmentsReady v)
    (rendererAvailable v) (propertiesContent v) (hiddenCategories v)
    (renders v) (console v).

Definition withSettings (s : CameraSettings) (v : Viewer) : Viewer :=
  mkViewer (loadedModels v) s (camera v) (fragmentsReady v)
    (rendererAvailable v) (propertiesContent v) (hiddenCategories v)
    (renders v) (console v).

Definition withCamera (c : Camera) (v : Viewer) : Viewer :=
  mkViewer (loadedModels v) (cameraSettings v) c (fragmentsReady v)
    (rendererAvailable v) (propertiesContent v) (hiddenCategories v)
    (renders v) (console v).

Definition withPanel (p : PanelContent) (v : Viewer) : Viewer :=
  mkViewer (loadedModels v) (cameraSettings v) (camera v) (fragmentsReady v)
    (rendererAvailable v) (Some p) (hiddenCategories v) (renders v) (console v).

Definition withHiddenCategories (r : gmap string bool) (v : Viewer) : Viewer :=
  mkViewer (loadedModels v) (cameraSettings v) (camera v) (fragmentsReady v)
    (rendererAvailable v) (propertiesContent v) (Some r) (renders v) (console v).

Definition rendered (n : nat) (v : Viewer) : Viewer :=
  mkViewer (loadedModels v) (cameraSettings v) (camera v) (fragmentsReady v)
    (rendererAvailable v) (propertiesContent v) (hiddenCategories v)
    (n + renders v) (console v).

Definition logged (es : list LogEntry) (v : Viewer) : Viewer :=
  mkViewer (loadedModels v) (cameraSettings v) (camera v) (fragmentsReady v)
    (rendererAvailable v) (propertiesContent v) (hiddenCategories v)
    (renders v) (console v ++ es).

(** Moving the camera: [controls.setLookAt(...)], or [position.copy] and
    [lookAt] when there are no controls. *)
Definition setLookAt (p t : Vector3) (c : Camera) : Camera :=
  mkCamera p t (isPerspective c) (fov c) (hasControls c) (near c) (far c)
    (projectionMatrixUpdates c).

(** Assigning [camera.near] and [camera.far], then
    [camera.updateProjectionMatrix()]. *)
Definition setClipping (n f : Q) (c : Camera) : Camera :=
  mkCamera (position c) (target c) (isPerspective c) (fov c) (hasControls c)
    n f (S (projectionMatrixUpdates c)).

(** [this.world.renderer?.three.render(...)]. *)
Definition renderOnce (v : Viewer) : Viewer :=
  if rendererAvailable v then rendered 1 v else v.

(** [fitCameraToModels(wide)]. *)
Definition fitCameraToModels (wide : bool) (v : Viewer) : Viewer :=
  match loadedModels v with
  | [] => v
  | _ =>
      let '(combinedBox, hasBox) := combineBoxes (loadedModels v) in
      if negb hasBox then v
      else
        let s := cameraSettings v in
        let center := getCenter combinedBox in
        let size := getSize combinedBox in
        let maxDim := maxDimOf size in
        let cameraPosition := cameraPosition s wide center maxDim in
        logged
          [LogCameraFit maxDim (finalDistance s wide maxDim) wide;
           LogUsedSettings (distanceMultiplier s wide) (cameraOffset s wide)
                           (modelScale s maxDim)]
          (renderOnce (withCamera (setLookAt cameraPosition center (camera v)) v))
  end.

(** [updateCameraSettings(newSettings)], given the settings that
    [Object.assign] produces. *)
Definition updateCameraSettings (merged : CameraSettings) (v : Viewer) : Viewer :=
  let v := withSettings merged v in
  let v :=
    if isPerspective (camera v) then
      logged [LogClippingPlanes (nearPlane merged) (farPlane merged)]
        (withCamera (setClipping (nearPlane merged) (farPlane merged) (camera v)) v)
    else v in
  fitCameraToModels false v.

(** ** Fit all models: [fitAllModelsToView] *)

(** The bounds one model contributes: the merged box of its [boundingBoxes]
    facility when it has one (a [null] box is skipped), otherwise
    [setFromObject(model.object)], kept only when not empty.  [Throws] is the
    path into the inner [catch]. *)
Definition modelBounds (m : Model) : outcome (option Box3) :=
  match boundingBoxes m with
  | Some (MergedBoxResolves b) => Ok b
  | Some MergedBoxRejects => Throws
  | Some MergedBoxThrows => Throws
  | None =>
      match object m with
      | Some o => if isEmpty (bounds o) then Ok None else Ok (Some (bounds o))
      | None => Throws
      end
  end.

(** The loop that fills [boxes], with its warnings. *)
Fixpoint collectBoxes (models : list LoadedModel) : list Box3 * list LogEntry :=
  match models with
  | [] => ([], [])
  | lm :: rest =>
      let '(boxes, warnings) := collectBoxes rest in
      match modelBounds (model lm) with
      | Ok (Some b) => (b :: boxes, warnings)
      | Ok None => (boxes, warnings)
      | Throws => (boxes, WarnBoundsFailed :: warnings)
      end
  end.

Section FitAll.

(** [tanHalf fov] stands for [Math.tan((fov * Math.PI) / 360)]. *)
Variable tanHalf : Q -> Q.

(** [distance] of [fitAllModelsToView]. *)
Definition fitAllDistance (c : Camera) (maxDim : Q) : Q :=
  let fov := if isPerspective c then fov c else 60 in
  let baseFitDistance := maxDim / (2 * tanHalf fov) in
  let safetyMargin := 1.5 in
  baseFitDistance * safetyMargin.

(** The block under "Ensure camera far plane can handle the model". *)
Definition ensureFarPlane (s : CameraSettings) (distance maxDim : Q)
    (c : Camera) : Camera * list LogEntry :=
  if isPerspective c then
    let requiredFarPlane := distance + maxDim in
    if Qltb (far c) requiredFarPlane then
      let far' := Qmax (requiredFarPlane * 1.2) (farPlane s) in
      (setClipping (near c) far' c, [LogFarPlaneUpdated far'])
    else (c, [])
  else (c, []).

(** [fitAllModelsToView()].  Where [maxDim] is zero the source divides by
    zero in [offsetMultiplier]; [Q] division gives 0 there, which only
    affects the camera position of that degenerate case. *)
Definition fitAllModelsToView (v : Viewer) : Viewer :=
  match loadedModels v with
  | [] => logged [WarnNoCameraOrModels] v
  | _ =>
      let '(boxes, warnings) := collectBoxes (loadedModels v) in
      let v := logged warnings v in
      match boxes with
      | [] => logged [WarnNoValidBoxes] v
      | first :: others =>
          let combinedBox := fold_left union others first in
          if isEmpty combinedBox then logged [WarnCombinedEmpty] v
          else
            let size := getSize combinedBox in
            let center := getCenter combinedBox in
            let maxDim := maxDimOf size in
            let distance := fitAllDistance (camera v) maxDim in
            let '(c, farLog) :=
              ensureFarPlane (cameraSettings v) distance maxDim (camera v) in
            let offsetMultiplier := Qmax 1.0 (distance / maxDim) in
            let cameraPosition :=
              mkVector3 (v_x center + distance * 0.7 * offsetMultiplier)
                        (v_y center + distance * 0.8 * offsetMultiplier)
                        (v_z center + distance * 0.7 * offsetMultiplier) in
            let c := if hasControls c then setLookAt cameraPosition center c
                     else c in
            logged (farLog ++ [LogFitted (length (loadedModels v)) distance])
                   (withCamera c v)
      end
  end.

End FitAll.

(** ** Model readiness: [waitForModelReady] *)

(** What the wait does, in order.  [Poll e] marks one run of [checkReady]
    with [elapsedTime = e]; [Resolve] is a call of the promise's [resolve]
    (only the first one settles the promise). *)
Inductive ReadyEvent :=
| Poll (elapsedTime : Z)
| WarnTimedOut (maxWaitTime : Z)
| LogGeometryReady (elapsedTime : Z)
| WarnReadinessError
| Resolve.

(** The environment of one wait: the two kinds of [Date.now()] readings and
    the model handle as each poll finds it. *)
Record WaitEnv := mkWaitEnv {
  startTime : Z;
  clock : nat -> Z;
  handle : nat -> Model
}.

Definition checkInterval : Z := 50.

(** [model.object.children.some(child => ... position.count > 0)], false
    when the object, its children or the geometry chain are missing. *)
Definition hasValidGeometry (m : Model) : bool :=
  match object m with
  | Some o =>
      existsb (fun child =>
                 match positionCount child with
                 | Some count => (0 <? count)%Z
                 | None => false
                 end)
              (children o)
  | None => false
  end.

(** The "alternative check for bounding boxes" of one poll: what it adds to
    the trace.  A merged box that is there and not empty logs and resolves
    from the promise callback, that is after the poll itself has gone on to
    arm the next timer; a call that throws lands in the [catch]. *)
Definition mergedBoxCheck (m : Model) (elapsedTime : Z) : list ReadyEvent :=
  match boundingBoxes m with
  | Some (MergedBoxResolves (Some b)) =>
      if isEmpty b then [] else [LogGeometryReady elapsedTime; Resolve]
  | Some (MergedBoxResolves None) => []
  | Some MergedBoxRejects => []
  | Some MergedBoxThrows => [WarnReadinessError]
  | None => []
  end.

(** [checkReady], run for the [i]-th time.  [fuel] bounds the number of runs
    the model follows; the boolean tells whether the chain of timers ended
    within it. *)
Fixpoint checkReady (env : WaitEnv) (maxWaitTime : Z) (fuel i : nat)
    : list ReadyEvent * bool :=
  match fuel with
  | O => ([], false)
  | S fuel' =>
      let elapsedTime := (clock env i - startTime env)%Z in
      if (elapsedTime >? maxWaitTime)%Z then
        ([Poll elapsedTime; WarnTimedOut maxWaitTime; Resolve], true)
      else if hasValidGeometry (handle env i) then
        ([Poll elapsedTime; LogGeometryReady elapsedTime; Resolve], true)
      else
        let '(later, ended) := checkReady env maxWaitTime fuel' (S i) in
        (Poll elapsedTime :: mergedBoxCheck (handle env i) elapsedTime ++ later,
         ended)
  end.

(** [waitForModelReady(model, maxWaitTime)]. *)
Definition waitForModelReady (env : WaitEnv) (maxWaitTime : Z) (fuel : nat)
    : list ReadyEvent * bool :=
  checkReady env maxWaitTime fuel 0.

Definition defaultMaxWaitTime : Z := 5000.

(** The events up to the first [Resolve], when there is one: how the promise
    was settled. *)
Fixpoint settledBy (events : list ReadyEvent) : option (list ReadyEvent) :=
  match events with
  | [] => None
  | Resolve :: _ => Some []
  | e :: rest => option_map (cons e) (settledBy rest)
  end.

Definition isPoll (e : ReadyEvent) : bool :=
  match e with Poll _ => true | _ => false end.

Definition isTimeoutWarning (e : ReadyEvent) : bool :=
  match e with WarnTimedOut _ => true | _ => false end.

(** Timers fire no earlier than asked: the first poll runs no earlier than
    the wait started, each later one at least [checkInterval] after the one
    before. *)
Definition timersFireLate (env : WaitEnv) : Prop :=
  (startTime env <= clock env 0)%Z /\
  forall i, (clock env i + checkInterval <= clock env (S i))%Z.

(** Geometry is there at poll [i], by either check. *)
Definition geometryPresent (m : Model) : bool :=
  hasValidGeometry m ||
  match boundingBoxes m with
  | Some (MergedBoxResolves (Some b)) => negb (isEmpty b)
  | _ => false
  end.

(** Number of polls that always suffices. *)
Definition pollBound (maxWaitTime : Z) : nat :=
  Z.to_nat (maxWaitTime / checkInterval) + 2.

(** ** Category visibility *)

(** The engine's visibility primitives on a model handle, acting on
    [hiddenItems]. *)
Definition withHiddenItems (h : gset Z) (m : Model) : Model :=
  mkModel (modelId m) (object m) (boundingBoxes m) (getItemsOfCategories m)
    (getItemsData m) (getProperties m) (setVisible m) (isVisible m)
    (toggleVisible m) (raycast m) h.

Module Fragments.

Definition isVisible (m : Model) (id : Z) : bool :=
  bool_decide (id ∉ hiddenItems m).

Definition setVisible (m : Model) (itemIds : list Z) (visible : bool) : Model :=
  if visible then withHiddenItems (hiddenItems m ∖ list_to_set itemIds) m
  else withHiddenItems (hiddenItems m ∪ list_to_set itemIds) m.

Definition toggleVisible (m : Model) (itemIds : list Z) : Model :=
  let ids : gset Z := list_to_set itemIds in
  withHiddenItems ((hiddenItems m ∖ ids) ∪ (ids ∖ hiddenItems m)) m.

End Fragments.

(** The two services obtained from [this.components]: [Classifier.find] for
    one entity name, giving item ids per model id, and whether [Hider.set]
    throws for given arguments. *)
Record Components := mkComponents {
  classifierFind : string -> outcome (gmap string (gset Z));
  hiderThrows : bool -> gmap string (gset Z) -> bool
}.

(** The effect of [hider.set(visible, result)] on the loaded models. *)
Definition hiderSet (visible : bool) (result : gmap string (gset Z))
    (models : list LoadedModel) : list LoadedModel :=
  map (fun lm =>
         match result !! modelId (model lm) with
         | Some itemIds =>
             mkLoaded (Fragments.setVisible (model lm) (elements itemIds) visible)
                      (fileName lm)
         | None => lm
         end)
      models.

(** The [for ... in result] loop that sums the sizes. *)
Definition totalItemsOf (result : gmap string (gset Z)) : nat :=
  map_fold (fun (_ : string) (itemIds : gset Z) (totalItems : nat) =>
              (totalItems + size itemIds)%nat)
           0%nat result.

(** [JSON.parse(localStorage.getItem('hiddenCategories') || '{}')].  The
    object is a finite map of its own keys to the truth value of what is
    stored under them; keys inherited from [Object.prototype] are outside the
    model. *)
Definition readHiddenCategories (v : Viewer) : gmap string bool :=
  default ∅ (hiddenCategories v).

(** [hiddenCategories[category] || false]. *)
Definition categoryCurrentlyHidden (v : Viewer) (category : string) : bool :=
  default false (readHiddenCategories v !! category).

(** [forceRenderUpdate()]: three render passes when the renderer is there.
    The refresh calls on the models and the engine leave no trace in the
    state modelled here; the whole body sits in a [try], so nothing escapes
    it. *)
Definition forceRenderUpdate (v : Viewer) : Viewer :=
  if rendererAvailable v then logged [LogForcedRender] (rendered 3 v) else v.

(** *** Strings *)

Definition lowerAscii (c : ascii) : ascii :=
  let n := nat_of_ascii c in
  if (65 <=? n)%nat && (n <=? 90)%nat then ascii_of_nat (n + 32) else c.

(** [String.prototype.toLowerCase], on ASCII letters. *)
Fixpoint toLowerCase (s : string) : string :=
  match s with
  | EmptyString => EmptyString
  | String c rest => String (lowerAscii c) (toLowerCase rest)
  end.

Fixpoint dropChars (n : nat) (s : string) : string :=
  match n, s with
  | O, _ => s
  | S n', String _ rest => dropChars n' rest
  | S _, EmptyString => EmptyString
  end.

(** [s.replace(pattern, replacement)] with a string pattern: the first
    occurrence only. *)
Fixpoint replace (pattern replacement s : string) : string :=
  if String.prefix pattern s then
    String.append replacement (dropChars (String.length pattern) s)
  else
    match s with
    | EmptyString => EmptyString
    | String c rest => String c (replace pattern replacement rest)
    end.

(** *** The fallback *)

(** The array [variations]. *)
Definition variations (category : string) : list string :=
  [category;
   toLowerCase category;
   replace "IFC" "" category;
   toLowerCase (replace "IFC" "" category)].

(** The body of [if (itemIds.length > 0)] up to the log line. *)
Definition flipItems (m : Model) (itemIds : list Z) (first : Z) : Model :=
  if setVisible m then
    let isVisible :=
      if isVisible m then Fragments.isVisible m first else true in
    Fragments.setVisible m itemIds (negb isVisible)
  else if toggleVisible m then Fragments.toggleVisible m itemIds
  else m.

(** How the inner loop over [variations] ends for one model. *)
Inductive Attempt :=
| Matched (variation : string) (m : Model)
| NoMatch
| Failed.

Fixpoint tryVariations (m : Model) (vs : list string) : Attempt :=
  match vs with
  | [] => NoMatch
  | variation :: rest =>
      match getItemsOfCategories m with
      | Some getItems =>
          match getItems variation with
          | Ok itemIds =>
              match itemIds with
              | first :: _ => Matched variation (flipItems m itemIds first)
              | [] => tryVariations m rest
              end
          | Throws => Failed
          end
      | None => tryVariations m rest
      end
  end.

(** The outer loop of [toggleCategoryVisibilityFallback]: the models gone
    through, the console lines, and whether the function returned from
    inside the loop. *)
Fixpoint fallbackLoop (category : string) (models : list LoadedModel)
    : list LoadedModel * list LogEntry * bool :=
  match models with
  | [] => ([], [], false)
  | lm :: rest =>
      match tryVariations (model lm) (variations category) with
      | Matched variation m' =>
          (mkLoaded m' (fileName lm) :: rest,
           [LogFallbackSucceeded variation], true)
      | NoMatch =>
          let '(rest', lines, returned) := fallbackLoop category rest in
          (lm :: rest', lines, returned)
      | Failed =>
          let '(rest', lines, returned) := fallbackLoop category rest in
          (lm :: rest', WarnFallbackVariationFailed :: lines, returned)
      end
  end.

(** [toggleCategoryVisibilityFallback(category)]. *)
Definition toggleCategoryVisibilityFallback (category : string) (v : Viewer)
    : Viewer :=
  let '(models, lines, returned) := fallbackLoop category (loadedModels v) in
  let v := logged lines (withModels models v) in
  if returned then forceRenderUpdate v else v.

(** *** The toggle *)

(** The value a call evaluates to (for an [async] function, the value its
    promise is fulfilled with). *)
Inductive JSValue :=
| undefined
| number (n : nat).

(** The [try] block of [toggleCategoryVisibility]: the state it leaves and
    whether it threw, in which case the [catch] carries on from that state. *)
Definition toggleCategoryPrimary (cmp : Components) (category : string)
    (v : Viewer) : Viewer * bool :=
  let v := logged [LogToggling category] v in
  match classifierFind cmp category with
  | Throws => (v, true)
  | Ok result =>
      let totalItems := totalItemsOf result in
      let v := logged [LogFound totalItems category] v in
      if (0 <? totalItems)%nat then
        let categoryCurrentlyHidden := categoryCurrentlyHidden v category in
        let v := logged [LogCurrentlyHidden category categoryCurrentlyHidden] v in
        if categoryCurrentlyHidden then
          if hiderThrows cmp true result then (v, true)
          else
            let v := withModels (hiderSet true result (loadedModels v)) v in
            let hiddenCategories := readHiddenCategories v in
            let v := withHiddenCategories (delete category hiddenCategories) v in
            let v := logged [LogShowed totalItems category] v in
            (forceRenderUpdate v, false)
        else
          if hiderThrows cmp false result then (v, true)
          else
            let v := withModels (hiderSet false result (loadedModels v)) v in
            let hiddenCategories := readHiddenCategories v in
            let v := withHiddenCategories (<[category := true]> hiddenCategories) v in
            let v := logged [LogHid totalItems category] v in
            (forceRenderUpdate v, false)
      else
        let v := logged [WarnNoItems category] v in
        (toggleCategoryVisibilityFallback category v, false)
  end.

(** [toggleCategoryVisibility(category)]: the value the call evaluates to
    (the function has no [return] with a value) and the state after it. *)
Definition toggleCategoryVisibility (cmp : Components) (category : string)
    (v : Viewer) : JSValue * Viewer :=
  match loadedModels v with
  | [] => (undefined, v)
  | _ =>
      let '(v, threw) := toggleCategoryPrimary cmp category v in
      if threw then
        let v := logged [ErrorToggleFailed category;
                         LogTryingFallback category] v in
        (undefined, toggleCategoryVisibilityFallback category v)
      else (undefined, v)
  end.

(** ** Picking *)

(** The cut at 100 characters. *)
Definition displayValue (value : string) : string :=
  if (100 <? String.length value)%nat
  then String.append (substring 0 100 value) "..."
  else value.

(** [propertiesToShow] with the values as they are displayed. *)
Definition propertyRows (componentData : Properties) : list (string * string) :=
  omap (fun kv : string * option string =>
          match snd kv with
          | Some value => Some (fst kv, displayValue value)
          | None => None
          end)
       componentData.

(** The two property lookups of [displayComponentProperties]. *)
Definition componentDataOf (m : Model) (localId : Z) : option Properties :=
  let componentData :=
    match getItemsData m with
    | Some getItemsData =>
        match getItemsData localId with
        | Ok itemsData => itemsData
        | Throws => None
        end
    | None => None
    end in
  match componentData, getProperties m with
  | None, Some getProperties =>
      match getProperties localId with
      | Ok data => data
      | Throws => None
      end
  | _, _ => componentData
  end.

(** [displayComponentProperties(model, localId, fileName)]; the selection
    of the dropdown is not part of the state. *)
Definition displayComponentProperties (m : Model) (localId : Z)
    (fileName : string) (v : Viewer) : Viewer :=
  match propertiesContent v with
  | None => v
  | Some _ =>
      withPanel
        (PanelComponent localId fileName
           (option_map propertyRows (componentDataOf m localId)))
        v
  end.

(** The loop of the click handler over the loaded models, and what follows
    it when no model reported a hit. *)
Fixpoint pickLoop (mouse : Q * Q) (models : list LoadedModel) (v : Viewer)
    : Viewer :=
  match models with
  | [] =>
      match propertiesContent v with
      | Some _ => withPanel PanelEmptySelection v
      | None => v
      end
  | lm :: rest =>
      match raycast (model lm) with
      | None => pickLoop mouse rest v
      | Some raycast =>
          if negb (rendererAvailable v) then
            pickLoop mouse rest (logged [WarnRendererUnavailable] v)
          else
            match raycast mouse with
            | Ok (Some (mkRayHit (Some localId))) =>
                displayComponentProperties (model lm) localId (fileName lm) v
            | Ok _ => pickLoop mouse rest v
            | Throws =>
                pickLoop mouse rest (logged [LogRaycastFailed (fileName lm)] v)
            end
      end
  end.

(** The click listener installed by [setupPicking]. *)
Definition onClick (mouse : Q * Q) (v : Viewer) : Viewer :=
  if negb (fragmentsReady v) then v
  else
    match loadedModels v with
    | [] => v
    | models => pickLoop mouse models v
    end.

(** A model reports a hit for a pointer position: it can raycast, the call
    does not throw, and the result carries a [localId]. *)
Definition reportsHit (mouse : Q * Q) (m : Model) : bool :=
  match raycast m with
  | Some raycast =>
      match raycast mouse with
      | Ok (Some (mkRayHit (Some _))) => true
      | _ => false
      end
  | None => false
  end.

(** [clearAllFragments()]: the models go, the camera is reset; the
    properties panel is not touched. *)
Definition clearAllFragments (v : Viewer) : Viewer :=
  let v := withModels [] v in
  if hasControls (camera v)
  then withCamera (setLookAt (mkVector3 10 10 10) (mkVector3 0 0 0) (camera v)) v
  else v.

(** ** Preset views: [setCameraPreset] *)

Inductive View := top | front | side | isometric.

(** How a call of [setCameraPreset] ends: by one of its two silent
    [return]s, by the line "Set camera to ... view", or in the [catch]. *)
Inductive PresetOutcome := PresetSkipped | PresetSet | PresetFailed.

(** The loop that fills [boxes]: [setFromObject(model.object)] is called on
    every model, and throws on a model without object. *)
Fixpoint presetBoxes (models : list LoadedModel) : outcome (list Box3) :=
  match models with
  | [] => Ok []
  | lm :: rest =>
      match object (model lm) with
      | None => Throws
      | Some o =>
          match presetBoxes rest with
          | Throws => Throws
          | Ok boxes =>
              Ok (if isEmpty (bounds o) then boxes else bounds o :: boxes)
          end
      end
  end.

(** The [switch] on the view. *)
Definition presetPosition (view : View) (center : Vector3) (distance : Q) : Vector3 :=
  match view with
  | top => mkVector3 (v_x center) (v_y center + distance) (v_z center)
  | front => mkVector3 (v_x center) (v_y center) (v_z center + distance)
  | side => mkVector3 (v_x center + distance) (v_y center) (v_z center)
  | isometric =>
      mkVector3 (v_x center + distance * 0.7) (v_y center + distance * 0.7)
                (v_z center + distance * 0.7)
  end.

(** [setCameraPreset(view)]. *)
Definition setCameraPreset (view : View) (v : Viewer) : Viewer * PresetOutcome :=
  match loadedModels v with
  | [] => (v, PresetSkipped)
  | _ =>
      match presetBoxes (loadedModels v) with
      | Throws => (v, PresetFailed)
      | Ok [] => (v, PresetSkipped)
      | Ok (first :: others) =>
          let combinedBox := fold_left union others first in
          let center := getCenter combinedBox in
          let size := getSize combinedBox in
          let maxDim := maxDimOf size in
          let distance := maxDim * 2 in
          let cameraPosition := presetPosition view center distance in
          (if hasControls (camera v)
           then withCamera (setLookAt cameraPosition center (camera v)) v
           else v,
           PresetSet)
      end
  end.

(** ** Show all and hide all: [showAllElements], [hideAllElements] *)

(** The lines the two bulk operations write to the console, beside their
    opening line. *)
Inductive BulkLine :=
| BulkNoModels
| BulkProcessing (models : nat)
| BulkUnsupported
| BulkMadeVisible (items : nat)
| BulkNoHiddenItems
| BulkHid (items : nat)
| BulkFailed.

Section Bulk.

(** [model.getItemsByVisibility], by model id: [None] when the handle lacks
    the method, [Some Throws] when a call throws, and otherwise the items of
    the model, from which the engine answers [getItemsByVisibility(visible)]
    with those whose visibility is the one asked for. *)
Variable itemsOf : string -> option (outcome (gset Z)).

Definition getItemsByVisibility (m : Model) (items : gset Z) (visible : bool)
    : list Z :=
  if visible then elements (items ∖ hiddenItems m)
  else elements (items ∩ hiddenItems m).

(** The loop of [showAllElements] over the models, inside the [try]: the
    models as the loop leaves them, its lines, and whether it threw. *)
Fixpoint showAllLoop (models : list LoadedModel)
    : list LoadedModel * list BulkLine * bool :=
  match models with
  | [] => ([], [], false)
  | lm :: rest =>
      let m := model lm in
      match itemsOf (modelId m), setVisible m with
      | Some answer, true =>
          match answer with
          | Throws => (lm :: rest, [], true)
          | Ok items =>
              let hiddenItems := getItemsByVisibility m items false in
              let '(lm', line) :=
                match hiddenItems with
                | _ :: _ =>
                    (mkLoaded (Fragments.setVisible m hiddenItems true) (fileName lm),
                     BulkMadeVisible (length hiddenItems))
                | [] => (lm, BulkNoHiddenItems)
                end in
              let '(rest', lines, threw) := showAllLoop rest in
              (lm' :: rest', line :: lines, threw)
          end
      | _, _ =>
          let '(rest', lines, threw) := showAllLoop rest in
          (lm :: rest', BulkUnsupported :: lines, threw)
      end
  end.

(** The loop of [hideAllElements]. *)
Fixpoint hideAllLoop (models : list LoadedModel)
    : list LoadedModel * list BulkLine * bool :=
  match models with
  | [] => ([], [], false)
  | lm :: rest =>
      let m := model lm in
      match itemsOf (modelId m), setVisible m with
      | Some answer, true =>
          match answer with
          | Throws => (lm :: rest, [], true)
          | Ok items =>
              let visibleItems := getItemsByVisibility m items true in
              let '(lm', line) :=
                match visibleItems with
                | _ :: _ =>
                    (mkLoaded (Fragments.setVisible m visibleItems false) (fileName lm),
                     [BulkHid (length visibleItems)])
                | [] => (lm, [])
                end in
              let '(rest', lines, threw) := hideAllLoop rest in
              (lm' :: rest', line ++ lines, threw)
          end
      | _, _ =>
          let '(rest', lines, threw) := hideAllLoop rest in
          (lm :: rest', BulkUnsupported :: lines, threw)
      end
  end.

(** What follows either loop: the forced render when the loop went through,
    the error line when it threw. *)
Definition afterBulk (v : Viewer)
    (looped : list LoadedModel * list BulkLine * bool) : Viewer * list BulkLine :=
  let '(models, lines, threw) := looped in
  let v' := withModels models v in
  if threw then (v', BulkProcessing (length (loadedModels v)) :: lines ++ [BulkFailed])
  else (forceRenderUpdate v', BulkProcessing (length (loadedModels v)) :: lines).

(** [showAllElements()]. *)
Definition showAllElements (v : Viewer) : Viewer * list BulkLine :=
  match loadedModels v with
  | [] => (v, [BulkNoModels])
  | models => afterBulk v (showAllLoop models)
  end.

(** [hideAllElements()]. *)
Definition hideAllElements (v : Viewer) : Viewer * list BulkLine :=
  match loadedModels v with
  | [] => (v, [BulkNoModels])
  | models => afterBulk v (hideAllLoop models)
  end.

End Bulk.

(** What [showAllElements] does to one model when nothing throws: a model
    with both methods has the items it reports removed from its hidden
    ones, any other model is left as it is. *)
Definition shownBy (itemsOf : string -> option (outcome (gset Z)))
    (lm lm' : LoadedModel) : Prop :=
  fileName lm' = fileName lm /\
  modelId (model lm') = modelId (model lm) /\
  setVisible (model lm') = setVisible (model lm) /\
  match itemsOf (modelId (model lm)), setVisible (model lm) with
  | Some (Ok items), true =>
      hiddenItems (model lm') = hiddenItems (model lm) ∖ items
  | _, _ => lm' = lm
  end.

(** What [hideAllElements] does to one model when nothing throws. *)
Definition hiddenBy (itemsOf : string -> option (outcome (gset Z)))
    (lm lm' : LoadedModel) : Prop :=
  fileName lm' = fileName lm /\
  modelId (model lm') = modelId (model lm) /\
  setVisible (model lm') = setVisible (model lm) /\
  match itemsOf (modelId (model lm)), setVisible (model lm) with
  | Some (Ok items), true =>
      hiddenItems (model lm') = hiddenItems (model lm) ∪ items
  | _, _ => lm' = lm
  end.

(** What [hider.set(visible, result)] does to one model. *)
Definition setBy (visible : bool) (result : gmap string (gset Z))
    (lm lm' : LoadedModel) : Prop :=
  fileName lm' = fileName lm /\
  modelId (model lm') = modelId (model lm) /\
  hiddenItems (model lm') =
    let found := default ∅ (result !! modelId (model lm)) in
    if visible then hiddenItems (model lm) ∖ found
    else hiddenItems (model lm) ∪ found.

(** ** Containment of boxes *)

(** [a.containsBox(b)] of THREE: the corners of [b] lie within those of
    [a]; with the infinite corners of [new THREE.Box3()] this makes the
    empty box contained in every box and containing no proper box. *)
Definition containsBox (a b : Box3) : Prop :=
  match a, b with
  | _, emptyBox => True
  | emptyBox, box _ _ => False
  | box lo hi, box lo' hi' =>
      (v_x lo <= v_x lo' /\ v_y lo <= v_y lo' /\ v_z lo <= v_z lo') /\
      (v_x hi' <= v_x hi /\ v_y hi' <= v_y hi /\ v_z hi' <= v_z hi)
  end.

(** The boxes [fitCameraToModels] takes into account: those of the models
    that have an object with bounds that are not empty. *)
Definition contributes (lm : LoadedModel) (b : Box3) : Prop :=
  exists o, object (model lm) = Some o /\ bounds o = b /\ isEmpty b = false.

(** The accumulation of [fitCameraToModels], from any accumulator. *)
Definition combineFrom (acc : Box3 * bool) (models : list LoadedModel) : Box3 * bool :=
  fold_left
    (fun (acc : Box3 * bool) (lm : LoadedModel) =>
       match object (model lm) with
       | Some o =>
           let b := bounds o in
           if isEmpty b then acc else (union (fst acc) b, true)
       | None => acc
       end)
    models acc.

(** ** Example scenes *)

(** The axis-aligned cube [[0, side]^3]. *)
Definition cube (side : Q) : Box3 :=
  box (mkVector3 0 0 0) (mkVector3 side side side).

(** A model handle with an object of the given bounds and none of the
    optional capabilities. *)
Definition plainModel (id : string) (b : Box3) : Model :=
  {| modelId := id;
     object := Some (mkObject3D b []);
     boundingBoxes := None;
     getItemsOfCategories := None;
     getItemsData := None;
     getProperties := None;
     setVisible := false;
     isVisible := false;
     toggleVisible := false;
     raycast := None;
     hiddenItems := ∅ |}.

(** The camera as [setupScene] leaves it. *)
Definition initialCamera (s : CameraSettings) : Camera :=
  {| position := mkVector3 50 50 50;
     target := mkVector3 0 0 0;
     isPerspective := true;
     fov := 60;
     hasControls := true;
     near := nearPlane s;
     far := farPlane s;
     projectionMatrixUpdates := 1 |}.

(** A viewer right after initialisation, with the given models loaded. *)
Definition viewerWith (s : CameraSettings) (models : list LoadedModel) : Viewer :=
  {| loadedModels := models;
     cameraSettings := s;
     camera := initialCamera s;
     fragmentsReady := true;
     rendererAvailable := true;
     propertiesContent := Some PanelInitial;
     hiddenCategories := None;
     renders := 0;
     console := [] |}.

(** One model reduced to the single point (7, 7, 7). *)
Definition pointScene : Viewer :=
  viewerWith defaultCameraSettings
    [mkLoaded (plainModel "point.frag" (box (mkVector3 7 7 7) (mkVector3 7 7 7)))
              "point.frag"].

Definition cubeScene (side : Q) : Viewer :=
  viewerWith defaultCameraSettings [mkLoaded (plainModel "cube.frag" (cube side)) "cube.frag"].

(** Settings with a negative close multiplier and a negative floor. *)
Definition negativeSettings : CameraSettings :=
  {| nearPlane := 0.1;
     farPlane := 50000;
     closeFitMultiplier := -1;
     farFitMultiplier := 8.0;
     closeHeightOffset := 2.0;
     farHeightOffset := 3.0;
     minimumDistance := -1000;
     mediumModelThreshold := 100;
     largeModelThreshold := 500;
     veryLargeModelThreshold := 1000 |}.

(** A handle whose object has one mesh with 36 positions. *)
Definition meshModel : Model :=
  {| modelId := "mesh.frag";
     object := Some (mkObject3D (cube 1) [mkMesh None; mkMesh (Some 36%Z)]);
     boundingBoxes := None;
     getItemsOfCategories := None;
     getItemsData := None;
     getProperties := None;
     setVisible := false;
     isVisible := false;
     toggleVisible := false;
     raycast := None;
     hiddenItems := ∅ |}.

(** A handle without meshes whose [boundingBoxes] facility answers with the
    given behaviour. *)
Definition boxedModel (answer : MergedBox) : Model :=
  {| modelId := "boxed.frag";
     object := Some (mkObject3D emptyBox []);
     boundingBoxes := Some answer;
     getItemsOfCategories := None;
     getItemsData := None;
     getProperties := None;
     setVisible := false;
     isVisible := false;
     toggleVisible := false;
     raycast := None;
     hiddenItems := ∅ |}.

(** A wait started at time 1000 whose timers fire exactly on time, on a
    handle that never changes. *)
Definition steadyEnv (m : Model) : WaitEnv :=
  {| startTime := 1000;
     clock := fun i => (1000 + 50 * Z.of_nat i)%Z;
     handle := fun _ => m |}.

(** A model "house.frag" with the visibility primitives and a raycast that
    hits item 42 wherever the pointer is. *)
Definition houseModel : Model :=
  {| modelId := "house.frag";
     object := Some (mkObject3D (cube 100) [mkMesh (Some 36%Z)]);
     boundingBoxes := None;
     getItemsOfCategories := None;
     getItemsData := None;
     getProperties := None;
     setVisible := true;
     isVisible := true;
     toggleVisible := true;
     raycast := Some (fun _ => Ok (Some (mkRayHit (Some 42%Z))));
     hiddenItems := ∅ |}.

Definition houseScene : Viewer :=
  viewerWith defaultCameraSettings [mkLoaded houseModel "house.frag"].

(** Twelve walls. *)
Definition wallIds : gset Z :=
  list_to_set [1; 2; 3; 4; 5; 6; 7; 8; 9; 10; 11; 12]%Z.

(** A classifier that knows the twelve walls of "house.frag" under
    "IFCWALL" and nothing else, and a hider that never throws. *)
Definition wallComponents : Components :=
  {| classifierFind := fun category =>
       if String.eqb category "IFCWALL"
       then Ok {[ "house.frag"%string := wallIds ]}
       else Ok ∅;
     hiderThrows := fun _ _ => false |}.

(** A classifier that finds nothing and a hider that never throws. *)
Definition silentComponents : Components :=
  {| classifierFind := fun _ => Ok ∅;
     hiderThrows := fun _ _ => false |}.

(** A model whose own category query knows items 1 and 2 as "IFCWALL" and
    item 3 as "ifcwall". *)
Definition namedModel (id : string) : Model :=
  {| modelId := id;
     object := Some (mkObject3D (cube 100) [mkMesh (Some 36%Z)]);
     boundingBoxes := None;
     getItemsOfCategories := Some (fun variation =>
       if String.eqb variation "IFCWALL" then Ok [1; 2]%Z
       else if String.eqb variation "ifcwall" then Ok [3]%Z
       else Ok []);
     getItemsData := None;
     getProperties := None;
     setVisible := true;
     isVisible := true;
     toggleVisible := false;
     raycast := None;
     hiddenItems := ∅ |}.

(** A model whose raycast throws. *)
Definition brokenRaycastModel : Model :=
  {| modelId := "broken.frag";
     object := Some (mkObject3D (cube 100) []);
     boundingBoxes := None;
     getItemsOfCategories := None;
     getItemsData := None;
     getProperties := None;
     setVisible := false;
     isVisible := false;
     toggleVisible := false;
     raycast := Some (fun _ => Throws);
     hiddenItems := ∅ |}.

(** Two models: the cube [[0,100]^3] and the box from (50,50,50) to
    (200,120,300). *)
Definition twoBoxModels : list LoadedModel :=
  [mkLoaded (plainModel "a.frag" (cube 100)) "a.frag";
   mkLoaded (plainModel "b.frag"
               (box (mkVector3 50 50 50) (mkVector3 200 120 300))) "b.frag"].

(** A model handle without object. *)
Definition bareModel (id : string) : Model :=
  {| modelId := id;
     object := None;
     boundingBoxes := None;
     getItemsOfCategories := None;
     getItemsData := None;
     getProperties := None;
     setVisible := false;
     isVisible := false;
     toggleVisible := false;
     raycast := None;
     hiddenItems := ∅ |}.

(** A wait started at time 1000 on a handle whose meshes arrive for the
    fourth poll, with timers of uneven pace. *)
Definition lateEnv : WaitEnv :=
  {| startTime := 1000;
     clock := fun i => (1003 + 61 * Z.of_nat i)%Z;
     handle := fun i => if (i <? 3)%nat then boxedModel MergedBoxRejects
                        else meshModel |}.

(** The house with the walls 1, 2 and 3 hidden, beside a model without the
    visibility methods; the house reports the twelve walls as its items. *)
Definition partlyHiddenScene : Viewer :=
  viewerWith defaultCameraSettings
    [mkLoaded (Fragments.setVisible houseModel [1; 2; 3]%Z false) "house.frag";
     mkLoaded (plainModel "a.frag" (cube 100)) "a.frag"].

Definition houseItems (id : string) : option (outcome (gset Z)) :=
  if String.eqb id "house.frag" then Some (Ok wallIds) else None.

(** The same, except that [getItemsByVisibility] throws on the model
    "broken.frag". *)
Definition brokenItems (id : string) : option (outcome (gset Z)) :=
  if String.eqb id "broken.frag" then Some Throws else houseItems id.

(** A model on which every ray hits item 7. *)
Definition garageModel : Model :=
  {| modelId := "garage.frag";
     object := Some (mkObject3D (cube 50) [mkMesh (Some 36%Z)]);
     boundingBoxes := None;
     getItemsOfCategories := None;
     getItemsData := Some (fun localId =>
       Ok (Some [("Name"%string, Some "Door"%string);
                 ("Tag"%string, None)]));
     getProperties := None;
     setVisible := true;
     isVisible := true;
     toggleVisible := true;
     raycast := Some (fun _ => Ok (Some (mkRayHit (Some 7%Z))));
     hiddenItems := ∅ |}.

(** Four models in load order: one that cannot raycast, one whose raycast
    throws, the garage and the house. *)
Definition streetScene : Viewer :=
  viewerWith defaultCameraSettings
    [mkLoaded (plainModel "a.frag" (cube 1)) "a.frag";
     mkLoaded brokenRaycastModel "broken.frag";
     mkLoaded garageModel "garage.frag";
     mkLoaded houseModel "house.frag"].

(** The street without a renderer. *)
Definition headlessScene : Viewer :=
  {| loadedModels := loadedModels streetScene;
     cameraSettings := defaultCameraSettings;
     camera := initialCamera defaultCameraSettings;
     fragmentsReady := true;
     rendererAvailable := false;
     propertiesContent := Some (PanelComponent 42 "house.frag" None);
     hiddenCategories := None;
     renders := 0;
     console := [] |}.

(** * Properties *)

(** Unfolds the field updates of a viewer and nothing else. *)
Ltac viewer_fields :=
  cbn [loadedModels cameraSettings camera fragmentsReady rendererAvailable
       propertiesContent hiddenCategories renders console
       withModels withSettings withCamera withPanel withHiddenCategories
       rendered logged fst snd] in *.

(** ** Numbers and boxes *)

Lemma Qgtb_true (a b : Q) : Qgtb a b = true <-> b < a.
Proof.
  unfold Qgtb. rewrite negb_true_iff, <- not_true_iff_false, Qle_bool_iff.
  split; [apply Qnot_le_lt | apply Qlt_not_le].
Qed.

Lemma Qgtb_false (a b : Q) : Qgtb a b = false <-> a <= b.
Proof.
  unfold Qgtb. rewrite negb_false_iff. apply Qle_bool_iff.
Qed.

Lemma Qgtb_mono (a b t : Q) : a <= b -> Qgtb a t = true -> Qgtb b t = true.
Proof.
  rewrite !Qgtb_true. intros Hab Ht. eapply Qlt_le_trans; eassumption.
Qed.

(** A box that is not empty has a non-negative extent in every direction. *)
Lemma maxDim_nonneg (b : Box3) : isEmpty b = false -> 0 <= maxDimOf (getSize b).
Proof.
  destruct b as [|lo hi]; [discriminate|].
  intros Hne. unfold getSize. rewrite Hne.
  simpl in Hne. rewrite !orb_false_iff in Hne. destruct Hne as [[Hx _] _].
  apply Qgtb_false in Hx.
  unfold maxDimOf; simpl.
  eapply Qle_trans; [|apply Q.le_max_l].
  eapply Qle_trans; [|apply Q.le_max_l].
  lra.
Qed.

(** ** Close and far fit *)

(** The scale is one of the four literals of the source. *)
Lemma modelScale_values (s : CameraSettings) (maxDim : Q) :
  modelScale s maxDim = 1.0 \/ modelScale s maxDim = 2.0 \/
  modelScale s maxDim = 3.0 \/ modelScale s maxDim = 4.0.
Proof.
  unfold modelScale.
  destruct (Qgtb maxDim (veryLargeModelThreshold s));
  destruct (Qgtb maxDim (largeModelThreshold s));
  destruct (Qgtb maxDim (mediumModelThreshold s)); auto.
Qed.

Lemma modelScale_ge_1 (s : CameraSettings) (maxDim : Q) : 1 <= modelScale s maxDim.
Proof.
  destruct (modelScale_values s maxDim) as [H|[H|[H|H]]]; rewrite H; lra.
Qed.

(** The scale as a cascade: the last threshold exceeded decides. *)
Lemma modelScale_cascade (s : CameraSettings) (maxDim : Q) :
  modelScale s maxDim =
  if Qgtb maxDim (veryLargeModelThreshold s) then 4.0
  else if Qgtb maxDim (largeModelThreshold s) then 3.0
  else if Qgtb maxDim (mediumModelThreshold s) then 2.0
  else 1.0.
Proof.
  unfold modelScale.
  destruct (Qgtb maxDim (veryLargeModelThreshold s));
  destruct (Qgtb maxDim (largeModelThreshold s));
  destruct (Qgtb maxDim (mediumModelThreshold s)); reflexivity.
Qed.

Lemma modelScale_mono (s : CameraSettings) (a b : Q) :
  a <= b -> modelScale s a <= modelScale s b.
Proof.
  intros Hab. rewrite !modelScale_cascade.
  pose proof (Qgtb_mono a b (veryLargeModelThreshold s) Hab) as H4.
  pose proof (Qgtb_mono a b (largeModelThreshold s) Hab) as H3.
  pose proof (Qgtb_mono a b (mediumModelThreshold s) Hab) as H2.
  destruct (Qgtb a (veryLargeModelThreshold s)).
  { rewrite H4 by reflexivity. lra. }
  destruct (Qgtb a (largeModelThreshold s)).
  { rewrite H3 by reflexivity.
    destruct (Qgtb b (veryLargeModelThreshold s)); lra. }
  destruct (Qgtb a (mediumModelThreshold s)).
  { rewrite H2 by reflexivity.
    destruct (Qgtb b (veryLargeModelThreshold s));
    destruct (Qgtb b (largeModelThreshold s)); lra. }
  destruct (Qgtb b (veryLargeModelThreshold s));
  destruct (Qgtb b (largeModelThreshold s));
  destruct (Qgtb b (mediumModelThreshold s)); lra.
Qed.

Lemma baseDistance_floor (s : CameraSettings) (wide : bool) (maxDim : Q) :
  minimumDistance s <= baseDistance s wide maxDim.
Proof. apply Q.le_max_r. Qed.

Lemma baseDistance_mono (s : CameraSettings) (wide : bool) (a b : Q) :
  0 <= distanceMultiplier s wide -> a <= b ->
  baseDistance s wide a <= baseDistance s wide b.
Proof.
  intros Hm Hab. unfold baseDistance.
  apply Q.max_le_compat_r.
  apply Qmult_le_compat_r; assumption.
Qed.

Lemma baseDistance_nonneg (s : CameraSettings) (wide : bool) (maxDim : Q) :
  0 <= distanceMultiplier s wide -> 0 <= maxDim ->
  0 <= baseDistance s wide maxDim.
Proof.
  intros Hm Hd. unfold baseDistance.
  eapply Qle_trans; [|apply Q.le_max_l].
  apply Qmult_le_0_compat; assumption.
Qed.

Lemma finalDistance_floor (s : CameraSettings) (wide : bool) (maxDim : Q) :
  0 <= minimumDistance s \/ 0 <= distanceMultiplier s wide ->
  0 <= maxDim ->
  minimumDistance s <= finalDistance s wide maxDim.
Proof.
  intros Hs Hd. unfold finalDistance.
  pose proof (baseDistance_floor s wide maxDim) as Hfloor.
  pose proof (modelScale_ge_1 s maxDim) as Hscale.
  assert (0 <= baseDistance s wide maxDim) as Hbase.
  { destruct Hs as [Hmin|Hmul]; [lra|].
    apply baseDistance_nonneg; assumption. }
  nra.
Qed.

Lemma union_nonempty (a b : Box3) : isEmpty b = false -> isEmpty (union a b) = false.
Proof.
  destruct b as [|lo' hi']; [discriminate|].
  destruct a as [|lo hi]; [trivial|].
  simpl. rewrite !orb_false_iff. unfold Qltb. rewrite !Qgtb_false.
  intros [[Hx Hy] Hz].
  repeat split.
  - eapply Qle_trans; [apply Q.le_min_r|]. eapply Qle_trans; [|apply Q.le_max_r]. exact Hx.
  - eapply Qle_trans; [apply Q.le_min_r|]. eapply Qle_trans; [|apply Q.le_max_r]. exact Hy.
  - eapply Qle_trans; [apply Q.le_min_r|]. eapply Qle_trans; [|apply Q.le_max_r]. exact Hz.
Qed.

(** Invariant of the [forEach] of [fitCameraToModels]: once [hasBox] is set
    the combined box is not empty. *)
Lemma combineBoxes_invariant (models : list LoadedModel) :
  snd (combineBoxes models) = true -> isEmpty (fst (combineBoxes models)) = false.
Proof.
  unfold combineBoxes.
  assert (forall (ms : list LoadedModel) (acc : Box3 * bool),
            (snd acc = true -> isEmpty (fst acc) = false) ->
            let r := fold_left
              (fun (acc : Box3 * bool) (lm : LoadedModel) =>
                 match object (model lm) with
                 | Some o =>
                     let b := bounds o in
                     if isEmpty b then acc else (union (fst acc) b, true)
                 | None => acc
                 end) ms acc in
            snd r = true -> isEmpty (fst r) = false) as Hgen.
  { induction ms as [|lm ms IH]; intros acc Hacc; simpl; [exact Hacc|].
    apply IH.
    destruct (object (model lm)) as [o|]; [|exact Hacc].
    simpl. destruct (isEmpty (bounds o)) eqn:He; [exact Hacc|].
    intros _. simpl. apply union_nonempty. exact He. }
  apply Hgen. simpl. discriminate.
Qed.

Lemma combineBoxes_nil_models (models : list LoadedModel) :
  snd (combineBoxes models) = true -> models <> [].
Proof. intros H ->. discriminate. Qed.

(** What [fitCameraToModels] does when it gets past its two early returns. *)
Lemma fitCameraToModels_fits (wide : bool) (v : Viewer) :
  snd (combineBoxes (loadedModels v)) = true ->
  let s := cameraSettings v in
  let combinedBox := fst (combineBoxes (loadedModels v)) in
  let center := getCenter combinedBox in
  let maxDim := maxDimOf (getSize combinedBox) in
  fitCameraToModels wide v =
  logged
    [LogCameraFit maxDim (finalDistance s wide maxDim) wide;
     LogUsedSettings (distanceMultiplier s wide) (cameraOffset s wide)
                     (modelScale s maxDim)]
    (renderOnce
       (withCamera (setLookAt (cameraPosition s wide center maxDim) center (camera v)) v)).
Proof.
  intros Hbox. unfold fitCameraToModels.
  destruct (loadedModels v) as [|lm ms] eqn:Hms; [discriminate|].
  destruct (combineBoxes (lm :: ms)) as [cb hb]. simpl in Hbox. subst hb.
  reflexivity.
Qed.

(** Its effect on the camera, the console and the render count. *)
Lemma fitCameraToModels_effect (wide : bool) (v : Viewer) :
  snd (combineBoxes (loadedModels v)) = true ->
  let s := cameraSettings v in
  let combinedBox := fst (combineBoxes (loadedModels v)) in
  let center := getCenter combinedBox in
  let maxDim := maxDimOf (getSize combinedBox) in
  let v' := fitCameraToModels wide v in
  camera v' = setLookAt (cameraPosition s wide center maxDim) center (camera v) /\
  console v' =
    console v ++
    [LogCameraFit maxDim (finalDistance s wide maxDim) wide;
     LogUsedSettings (distanceMultiplier s wide) (cameraOffset s wide)
                     (modelScale s maxDim)] /\
  renders v' = ((if rendererAvailable v then 1 else 0) + renders v)%nat.
Proof.
  intros Hbox s combinedBox center maxDim v'.
  subst v'. rewrite fitCameraToModels_fits by exact Hbox.
  unfold renderOnce. viewer_fields.
  destruct (rendererAvailable v); viewer_fields; auto.
Qed.

(** The close and far fit never touch the clipping planes. *)
Lemma fitCameraToModels_far_unchanged (wide : bool) (v : Viewer) :
  far (camera (fitCameraToModels wide v)) = far (camera v) /\
  projectionMatrixUpdates (camera (fitCameraToModels wide v)) =
  projectionMatrixUpdates (camera v).
Proof.
  unfold fitCameraToModels, renderOnce.
  destruct (loadedModels v); [auto|].
  destruct (combineBoxes _) as [cb hb].
  destruct hb; [|auto].
  viewer_fields. destruct (rendererAvailable v); auto.
Qed.

(** The far-plane block of [fitAllModelsToView] does establish the bound:
    on a perspective camera the far plane ends at or beyond
    [distance + maxDim], and the projection matrix is updated when it was
    raised. *)
Lemma ensureFarPlane_bound (s : CameraSettings) (distance maxDim : Q) (c : Camera) :
  isPerspective c = true ->
  0 <= distance + maxDim ->
  let c' := fst (ensureFarPlane s distance maxDim c) in
  distance + maxDim <= far c' /\
  (far c < distance + maxDim ->
   projectionMatrixUpdates c' = S (projectionMatrixUpdates c)).
Proof.
  intros Hp Hreq. unfold ensureFarPlane. rewrite Hp.
  destruct (Qltb (far c) (distance + maxDim)) eqn:Hlt; simpl.
  - split; [|reflexivity].
    eapply Qle_trans; [|apply Q.le_max_l]. lra.
  - apply Qgtb_false in Hlt. split; [exact Hlt|].
    intros Habs. exfalso. lra.
Qed.

(** [fitAllModelsToView] as a whole: when it gets to place a perspective
    camera whose field of view has a positive tangent, the far plane ends
    at or beyond [distance + maxDim]. *)
Lemma fitAllModelsToView_far_plane (tanHalf : Q -> Q) (v : Viewer)
    (first : Box3) (others : list Box3) (warnings : list LogEntry) :
  loadedModels v <> [] ->
  collectBoxes (loadedModels v) = (first :: others, warnings) ->
  isEmpty (fold_left union others first) = false ->
  isPerspective (camera v) = true ->
  0 < tanHalf (fov (camera v)) ->
  let maxDim := maxDimOf (getSize (fold_left union others first)) in
  let distance := fitAllDistance tanHalf (camera v) maxDim in
  distance + maxDim <= far (camera (fitAllModelsToView tanHalf v)).
Proof.
  intros Hmodels Hboxes Hne Hp Htan maxDim distance.
  pose proof (maxDim_nonneg _ Hne) as Hdim. fold maxDim in Hdim.
  assert (0 <= distance) as Hdist.
  { subst distance. unfold fitAllDistance. rewrite Hp. cbv zeta.
    apply Qmult_le_0_compat; [|lra].
    unfold Qdiv. apply Qmult_le_0_compat; [exact Hdim|].
    apply Qlt_le_weak, Qinv_lt_0_compat. lra. }
  destruct (ensureFarPlane_bound (cameraSettings v) distance maxDim (camera v) Hp)
    as [Hbound _]; [lra|].
  unfold fitAllModelsToView.
  destruct (loadedModels v) as [|lm rest] eqn:Hlm; [congruence|].
  rewrite Hboxes. viewer_fields. rewrite Hne.
  fold maxDim. fold distance.
  destruct (ensureFarPlane (cameraSettings v) distance maxDim (camera v))
    as [c farLog].
  cbn [fst] in Hbound. viewer_fields.
  destruct (hasControls c); exact Hbound.
Qed.

(** C1 (the code departs from the claim): close fit of one model of side
    10000 under the default settings, on the perspective camera of
    [setupScene].  The camera is placed at distance 200000 while the far
    plane stays at 50000, below [distance + maxDim = 210000], and the
    projection matrix is not updated; the far fit behaves the same way, and
    so does the close fit reached through [updateCameraSettings], its only
    caller. *)
Theorem fitCameraToModels_far_plane_not_raised :
  let v := cubeScene 10000 in
  (forall wide : bool,
     let v' := fitCameraToModels wide v in
     let maxDim := maxDimOf (getSize (fst (combineBoxes (loadedModels v)))) in
     let distance := finalDistance (cameraSettings v) wide maxDim in
     isPerspective (camera v') = true /\
     maxDim == 10000 /\
     distance == (if wide then 320000 else 200000) /\
     console v' =
       [LogCameraFit maxDim distance wide;
        LogUsedSettings (distanceMultiplier (cameraSettings v) wide)
          (cameraOffset (cameraSettings v) wide)
          (modelScale (cameraSettings v) maxDim)] /\
     veq (position (camera v'))
         (mkVector3 (5000 + distance * 0.9)
                    (5000 + distance * cameraOffset (cameraSettings v) wide)
                    (5000 + distance * 0.8)) /\
     far (camera v') == 50000 /\
     far (camera v') < distance + maxDim /\
     projectionMatrixUpdates (camera v') = projectionMatrixUpdates (camera v)) /\
  (let v' := updateCameraSettings defaultCameraSettings v in
   veq (position (camera v')) (mkVector3 185000 405000 165000) /\
   far (camera v') == 50000 /\
   far (camera v') < 200000 + 10000).
Proof.
  intros v. split.
  - intros wide. destruct wide; vm_compute; repeat split; congruence.
  - vm_compute. repeat split; congruence.
Qed.

(** C3: close fit of a single model whose bounds are the cube [[0,100]^3],
    under the default settings: [maxDim] is 100, the scale 1.0, the base
    distance [max(100 * 5.0, 200) = 500]; the camera is put at the centre
    plus (450, 1000, 400) and aimed at the centre (50, 50, 50). *)
Theorem close_fit_of_cube_100 (v : Viewer) (lm : LoadedModel) (o : Object3D) :
  loadedModels v = [lm] ->
  object (model lm) = Some o ->
  bounds o = cube 100 ->
  cameraSettings v = defaultCameraSettings ->
  let v' := fitCameraToModels false v in
  let combinedBox := fst (combineBoxes (loadedModels v)) in
  let maxDim := maxDimOf (getSize combinedBox) in
  maxDim == 100 /\
  modelScale (cameraSettings v) maxDim == 1.0 /\
  baseDistance (cameraSettings v) false maxDim == Qmax (100 * 5.0) 200 /\
  baseDistance (cameraSettings v) false maxDim == 500 /\
  finalDistance (cameraSettings v) false maxDim == 500 /\
  console v' =
    console v ++
    [LogCameraFit maxDim (finalDistance (cameraSettings v) false maxDim) false;
     LogUsedSettings 5.0 2.0 (modelScale (cameraSettings v) maxDim)] /\
  veq (getCenter combinedBox) (mkVector3 50 50 50) /\
  veq (position (camera v'))
      (mkVector3 (50 + 450) (50 + 1000) (50 + 400)) /\
  veq (target (camera v')) (mkVector3 50 50 50).
Proof.
  intros Hms Ho Hb Hs v' combinedBox maxDim.
  assert (combineBoxes (loadedModels v) = (cube 100, true)) as Hcb.
  { rewrite Hms. unfold combineBoxes. simpl. rewrite Ho. simpl. rewrite Hb.
    reflexivity. }
  destruct (fitCameraToModels_effect false v) as (Hcamera & Hconsole & _);
    [rewrite Hcb; reflexivity|].
  fold v' in Hcamera, Hconsole.
  subst combinedBox maxDim. rewrite Hcb, Hs in *. cbn [fst] in *.
  rewrite Hcamera, Hconsole.
  unfold veq, setLookAt. cbn [position target].
  repeat split; try reflexivity.
Qed.

Lemma close_fit_of_cube_100_witness :
  let v := cubeScene 100 in
  veq (position (camera (fitCameraToModels false v))) (mkVector3 500 1050 450) /\
  veq (target (camera (fitCameraToModels false v))) (mkVector3 50 50 50).
Proof.
  intros v.
  pose proof (close_fit_of_cube_100 v
                (mkLoaded (plainModel "cube.frag" (cube 100)) "cube.frag")
                (mkObject3D (cube 100) [])
                eq_refl eq_refl eq_refl eq_refl) as H.
  cbv zeta in H.
  destruct H as (_ & _ & _ & _ & _ & _ & _ & Hpos & Htgt).
  split; [|exact Htgt].
  destruct Hpos as (Hx & Hy & Hz).
  split; [|split]; [rewrite Hx | rewrite Hy | rewrite Hz]; reflexivity.
Defined.

Set Warnings "-inexact-float".

(** The numbers of the cube scenario are exact in binary64: the source
    computes the very values of the rational model. *)
Lemma close_fit_of_cube_100_binary64 :
  let maxDim := Binary64.maxDimOf (100 - 0) (100 - 0) (100 - 0) in
  let baseDistance := Binary64.baseDistance 5.0 200 maxDim in
  let modelScale := Binary64.modelScale 100 500 1000 maxDim in
  let finalDistance := (baseDistance * modelScale)%float in
  let center := Binary64.centerOf 0 100 in
  (maxDim = 100 /\ modelScale = 1.0 /\ baseDistance = 500 /\
   finalDistance = 500 /\ center = 50 /\
   Binary64.offset center finalDistance 0.9 = 500 /\
   Binary64.offset center finalDistance 2.0 = 1050 /\
   Binary64.offset center finalDistance 0.8 = 450)%float.
Proof. vm_compute. repeat split. Qed.

(** So are the numbers of the close fit of the cube of side 10000: distance
    200000 against a far plane of 50000. *)
Lemma close_fit_of_cube_10000_binary64 :
  let maxDim := Binary64.maxDimOf (10000 - 0) (10000 - 0) (10000 - 0) in
  let baseDistance := Binary64.baseDistance 5.0 200 maxDim in
  let modelScale := Binary64.modelScale 100 500 1000 maxDim in
  let finalDistance := (baseDistance * modelScale)%float in
  (maxDim = 10000 /\ modelScale = 4.0 /\ finalDistance = 200000)%float /\
  PrimFloat.ltb 50000 (finalDistance + maxDim) = true.
Proof. vm_compute. repeat split. Qed.

Set Warnings "inexact-float".



(** C5, as stated, fails for settings whose floor and multiplier are both
    negative, which [updateCameraSettings] accepts: with
    [closeFitMultiplier = -1] and [minimumDistance = -1000], one model of
    side 2000 yields a combined box, and the close fit computes the
    distance [max(2000 * -1, -1000) * 4 = -4000], below the floor, and
    places the camera with it. *)
Lemma fitCameraToModels_below_negative_minimum_distance :
  let v := updateCameraSettings negativeSettings (cubeScene 2000) in
  let v' := fitCameraToModels false v in
  let maxDim := maxDimOf (getSize (fst (combineBoxes (loadedModels v)))) in
  let distance := finalDistance (cameraSettings v) false maxDim in
  length (loadedModels v) = 1%nat /\
  snd (combineBoxes (loadedModels v)) = true /\
  maxDim == 2000 /\
  distance == -4000 /\
  minimumDistance (cameraSettings v) == -1000 /\
  v_x (position (camera v')) == v_x (target (camera v')) + distance * 0.9 /\
  ~ minimumDistance (cameraSettings v) <= distance.
Proof.
  repeat split; try (vm_compute; congruence).
Qed.

(** C5 (amended): whenever the loaded models yield a combined box
    ([hasBox]), the distance the close fit and the far fit compute, log and
    place the camera at is at least [minimumDistance], provided that floor
    is not negative (the default is 200) or the multiplier of the mode is
    not.  A single point ([maxDim = 0]) is included. *)
Theorem fitCameraToModels_minimum_distance (wide : bool) (v : Viewer) :
  0 <= minimumDistance (cameraSettings v) \/
  0 <= distanceMultiplier (cameraSettings v) wide ->
  snd (combineBoxes (loadedModels v)) = true ->
  let s := cameraSettings v in
  let v' := fitCameraToModels wide v in
  exists maxDim distance : Q,
    0 <= maxDim /\
    distance = finalDistance s wide maxDim /\
    console v' =
      console v ++
      [LogCameraFit maxDim distance wide;
       LogUsedSettings (distanceMultiplier s wide) (cameraOffset s wide)
                       (modelScale s maxDim)] /\
    v_x (position (camera v')) == v_x (target (camera v')) + distance * 0.9 /\
    v_y (position (camera v')) ==
      v_y (target (camera v')) + distance * cameraOffset s wide /\
    v_z (position (camera v')) == v_z (target (camera v')) + distance * 0.8 /\
    minimumDistance s <= distance.
Proof.
  intros Hs Hbox s v'.
  pose proof (combineBoxes_invariant _ Hbox) as Hne.
  pose proof (maxDim_nonneg _ Hne) as Hdim.
  destruct (fitCameraToModels_effect wide v Hbox) as (Hcamera & Hconsole & _).
  fold s v' in Hcamera, Hconsole.
  eexists. eexists.
  split; [exact Hdim|].
  split; [reflexivity|].
  split; [exact Hconsole|].
  rewrite Hcamera. unfold setLookAt, cameraPosition. cbn [position target v_x v_y v_z].
  repeat split; try reflexivity.
  apply finalDistance_floor; assumption.
Qed.

(** A model reduced to the single point (7, 7, 7). *)
Lemma fitCameraToModels_minimum_distance_witness :
  let v := pointScene in
  exists maxDim distance : Q,
    0 <= maxDim /\
    distance = finalDistance defaultCameraSettings false maxDim /\
    console (fitCameraToModels false v) =
      console v ++
      [LogCameraFit maxDim distance false;
       LogUsedSettings 5.0 2.0 (modelScale defaultCameraSettings maxDim)] /\
    v_x (position (camera (fitCameraToModels false v))) ==
      v_x (target (camera (fitCameraToModels false v))) + distance * 0.9 /\
    v_y (position (camera (fitCameraToModels false v))) ==
      v_y (target (camera (fitCameraToModels false v))) + distance * 2.0 /\
    v_z (position (camera (fitCameraToModels false v))) ==
      v_z (target (camera (fitCameraToModels false v))) + distance * 0.8 /\
    200 <= distance.
Proof.
  intros v.
  apply (fitCameraToModels_minimum_distance false v).
  - left. vm_compute. discriminate.
  - reflexivity.
Defined.

(** C10, as stated, fails for settings whose floor and multiplier are both
    negative: with [closeFitMultiplier = -1] and [minimumDistance = -1000]
    the close fit computes distance 0 for [maxDim = 0] and -50 for
    [maxDim = 50]. *)
Lemma finalDistance_not_monotone_for_negative_settings :
  0 <= 0 /\ 0 <= 50 /\
  finalDistance negativeSettings false 0 == 0 /\
  finalDistance negativeSettings false 50 == -50 /\
  ~ finalDistance negativeSettings false 0 <= finalDistance negativeSettings false 50.
Proof.
  repeat split; try (vm_compute; congruence).
Qed.

(** C10 (amended): for fixed settings whose floor or whose multiplier for
    the mode is not negative, and a fixed mode, the final distance of the
    close/far fit does not decrease when [maxDim] grows from any [a >= 0] to
    any [b >= a]. *)
Theorem finalDistance_monotone (s : CameraSettings) (wide : bool) (a b : Q) :
  0 <= minimumDistance s \/ 0 <= distanceMultiplier s wide ->
  0 <= a -> a <= b ->
  finalDistance s wide a <= finalDistance s wide b.
Proof.
  intros Hs Ha Hab. unfold finalDistance.
  pose proof (modelScale_mono s a b Hab) as Hscale.
  pose proof (modelScale_ge_1 s a) as H1.
  destruct (Qlt_le_dec (distanceMultiplier s wide) 0) as [Hneg|Hpos].
  - destruct Hs as [Hmin|Hmul]; [|exfalso; lra].
    assert (forall d, 0 <= d -> baseDistance s wide d == minimumDistance s) as Hconst.
    { intros d Hd. unfold baseDistance. apply Q.max_r. nra. }
    rewrite (Hconst a Ha), (Hconst b) by lra.
    nra.
  - pose proof (baseDistance_mono s wide a b Hpos Hab) as Hbase.
    pose proof (baseDistance_nonneg s wide a Hpos Ha) as H0.
    nra.
Qed.

Lemma finalDistance_monotone_witness :
  finalDistance defaultCameraSettings true 50 <=
  finalDistance defaultCameraSettings true 200.
Proof.
  apply finalDistance_monotone.
  - left. vm_compute. discriminate.
  - vm_compute. discriminate.
  - vm_compute. discriminate.
Defined.

(** ** Model readiness *)

Lemma mergedBoxCheck_not_present (m : Model) (e : Z) :
  geometryPresent m = false -> ~ In Resolve (mergedBoxCheck m e).
Proof.
  unfold geometryPresent, mergedBoxCheck.
  rewrite orb_false_iff. intros [_ Hbox].
  destruct (boundingBoxes m) as [[[b|]| |]|]; simpl; try tauto.
  - apply negb_false_iff in Hbox. rewrite Hbox. simpl. tauto.
  - intros [H|[]]. discriminate.
Qed.

(** One run of [checkReady]. *)
Lemma checkReady_step (env : WaitEnv) (maxWaitTime : Z) (fuel i : nat) :
  checkReady env maxWaitTime (S fuel) i =
  let elapsedTime := (clock env i - startTime env)%Z in
  if (elapsedTime >? maxWaitTime)%Z then
    ([Poll elapsedTime; WarnTimedOut maxWaitTime; Resolve], true)
  else if hasValidGeometry (handle env i) then
    ([Poll elapsedTime; LogGeometryReady elapsedTime; Resolve], true)
  else
    (Poll elapsedTime
       :: mergedBoxCheck (handle env i) elapsedTime
       ++ fst (checkReady env maxWaitTime fuel (S i)),
     snd (checkReady env maxWaitTime fuel (S i))).
Proof.
  cbn [checkReady]. cbv zeta.
  destruct (clock env i - startTime env >? maxWaitTime)%Z; [reflexivity|].
  destruct (hasValidGeometry (handle env i)); [reflexivity|].
  destruct (checkReady env maxWaitTime fuel (S i)); reflexivity.
Qed.

(** The timer chain ends once the fuel covers the polls that can still
    happen before the elapsed time passes [maxWaitTime]. *)
Lemma checkReady_ends (env : WaitEnv) (maxWaitTime : Z) :
  timersFireLate env ->
  forall (fuel i : nat),
    (maxWaitTime - (clock env i - startTime env)
       < checkInterval * Z.of_nat fuel)%Z ->
    snd (checkReady env maxWaitTime (S fuel) i) = true.
Proof.
  intros [_ Hstep]. unfold checkInterval in *.
  induction fuel as [|fuel IH]; intros i Hfuel.
  - simpl.
    destruct (Z.gtb_spec (clock env i - startTime env) maxWaitTime);
      [reflexivity | lia].
  - rewrite checkReady_step. cbv zeta.
    destruct (Z.gtb_spec (clock env i - startTime env) maxWaitTime) as [Hgt|Hle];
      [reflexivity|].
    destruct (hasValidGeometry (handle env i)); [reflexivity|].
    cbn [snd]. apply IH. specialize (Hstep i). lia.
Qed.

(** More fuel than needed changes nothing. *)
Lemma checkReady_fuel (env : WaitEnv) (maxWaitTime : Z) (fuel : nat) :
  forall (i fuel' : nat),
    snd (checkReady env maxWaitTime fuel i) = true ->
    (fuel <= fuel')%nat ->
    checkReady env maxWaitTime fuel' i = checkReady env maxWaitTime fuel i.
Proof.
  induction fuel as [|fuel IH]; intros i fuel' Hend Hle; [discriminate|].
  destruct fuel' as [|fuel']; [lia|].
  rewrite !checkReady_step in *. cbv zeta in *.
  destruct (clock env i - startTime env >? maxWaitTime)%Z; [reflexivity|].
  destruct (hasValidGeometry (handle env i)); [reflexivity|].
  cbn [snd] in Hend. rewrite (IH (S i) fuel') by (assumption || lia).
  reflexivity.
Qed.

(** A chain that ended did so on a call of [resolve]. *)
Lemma checkReady_resolves (env : WaitEnv) (maxWaitTime : Z) (fuel : nat) :
  forall i : nat,
    snd (checkReady env maxWaitTime fuel i) = true ->
    In Resolve (fst (checkReady env maxWaitTime fuel i)).
Proof.
  induction fuel as [|fuel IH]; intros i Hend; [discriminate|].
  rewrite checkReady_step in *. cbv zeta in *.
  destruct (clock env i - startTime env >? maxWaitTime)%Z; [simpl; auto|].
  destruct (hasValidGeometry (handle env i)); [simpl; auto|].
  cbn [fst snd] in *. right. apply in_or_app. right. auto.
Qed.

(** Each run of [checkReady] uses one unit of fuel. *)
Lemma checkReady_polls (env : WaitEnv) (maxWaitTime : Z) (fuel : nat) :
  forall i : nat,
    (length (List.filter isPoll (fst (checkReady env maxWaitTime fuel i))) <= fuel)%nat.
Proof.
  induction fuel as [|fuel IH]; intros i; [simpl; lia|].
  rewrite checkReady_step. cbv zeta.
  destruct (clock env i - startTime env >? maxWaitTime)%Z; [simpl; lia|].
  destruct (hasValidGeometry (handle env i)); [simpl; lia|].
  specialize (IH (S i)).
  cbn [fst List.filter isPoll] in *.
  rewrite List.filter_app, length_cons, length_app.
  assert (length (List.filter isPoll
            (mergedBoxCheck (handle env i) (clock env i - startTime env))) = 0)%nat
    as ->.
  { unfold mergedBoxCheck.
    destruct (boundingBoxes (handle env i)) as [[[b|]| |]|]; try reflexivity.
    destruct (isEmpty b); reflexivity. }
  lia.
Qed.

(** Without geometry the promise is settled by the time-out branch only:
    the trace ends with the first and only [Resolve], right after the
    warning, in a poll whose elapsed time exceeds [maxWaitTime], every
    earlier poll having found the elapsed time within it. *)
Lemma checkReady_never_ready (env : WaitEnv) (maxWaitTime : Z) (fuel : nat) :
  forall i : nat,
    (forall j, geometryPresent (handle env j) = false) ->
    snd (checkReady env maxWaitTime fuel i) = true ->
    exists (before : list ReadyEvent) (e : Z),
      fst (checkReady env maxWaitTime fuel i) =
        before ++ [Poll e; WarnTimedOut maxWaitTime; Resolve] /\
      ~ In Resolve before /\
      (maxWaitTime < e)%Z /\
      (forall e', In (Poll e') before -> (e' <= maxWaitTime)%Z) /\
      (forall w, ~ In (WarnTimedOut w) before).
Proof.
  induction fuel as [|fuel IH]; intros i Hnever Hend; [discriminate|].
  rewrite checkReady_step in *. cbv zeta in *.
  destruct (Z.gtb_spec (clock env i - startTime env) maxWaitTime) as [Hgt|Hle].
  - exists [], (clock env i - startTime env)%Z. simpl.
    repeat split; auto; try tauto; lia.
  - pose proof (Hnever i) as Hi.
    destruct (hasValidGeometry (handle env i)) eqn:Hgeo.
    { unfold geometryPresent in Hi. rewrite Hgeo in Hi. discriminate. }
    cbn [snd] in Hend.
    destruct (IH (S i) Hnever Hend)
      as (before & e & Hlater & Hres & He & Hpolls & Hwarn).
    rewrite Hlater.
    exists (Poll (clock env i - startTime env)
              :: mergedBoxCheck (handle env i) (clock env i - startTime env)
              ++ before), e.
    cbn [fst].
    assert (forall ev, In ev (mergedBoxCheck (handle env i)
                                (clock env i - startTime env)) ->
                       ev = WarnReadinessError) as Hmb.
    { pose proof (mergedBoxCheck_not_present _ (clock env i - startTime env) Hi)
        as Hno.
      unfold mergedBoxCheck in *.
      destruct (boundingBoxes (handle env i)) as [[[b|]| |]|]; simpl in *;
        try tauto.
      - destruct (isEmpty b); simpl in *; tauto.
      - intros ev [<-|[]]. reflexivity. }
    split; [cbn [app]; rewrite List.app_assoc; reflexivity|].
    split; [|split; [exact He|split]].
    + intros [Hin|Hin]; [discriminate|].
      apply in_app_or in Hin. destruct Hin as [Hin|Hin]; [|tauto].
      apply Hmb in Hin. discriminate.
    + intros e' [Hin|Hin]; [injection Hin as <-; lia|].
      apply in_app_or in Hin. destruct Hin as [Hin|Hin]; [|auto].
      apply Hmb in Hin. discriminate.
    + intros w [Hin|Hin]; [discriminate|].
      apply in_app_or in Hin. destruct Hin as [Hin|Hin]; [|eapply Hwarn; eauto].
      apply Hmb in Hin. discriminate.
Qed.

Lemma pollBound_covers (env : WaitEnv) (maxWaitTime : Z) :
  timersFireLate env ->
  snd (checkReady env maxWaitTime (pollBound maxWaitTime) 0) = true.
Proof.
  intros Htimers. unfold pollBound.
  replace (Z.to_nat (maxWaitTime / checkInterval) + 2)%nat
    with (S (Z.to_nat (maxWaitTime / checkInterval) + 1)) by lia.
  apply checkReady_ends; [exact Htimers|].
  destruct Htimers as [Hstart _]. unfold checkInterval.
  pose proof (Z.mul_succ_div_gt maxWaitTime 50 ltac:(lia)) as Hdiv.
  lia.
Qed.

(** What holds of the wait: with timers that fire no earlier than asked, it
    always ends on a call of [resolve] (the promise has no way to reject),
    after at most [maxWaitTime / 50 + 2] polls.  When geometry is there at the first
    poll, found by either check, and the wait has not already been
    overrun, the promise is settled in that first poll by the ready branch,
    no time-out warning having been logged.  When geometry never appears,
    the promise is settled by the time-out branch, with its warning, in the
    first poll whose elapsed time exceeds [maxWaitTime]. *)
Theorem waitForModelReady_always_resolves (env : WaitEnv) (maxWaitTime : Z) (fuel : nat) :
  timersFireLate env ->
  (pollBound maxWaitTime <= fuel)%nat ->
  let trace := fst (waitForModelReady env maxWaitTime fuel) in
  snd (waitForModelReady env maxWaitTime fuel) = true /\
  In Resolve trace /\
  (length (List.filter isPoll trace) <= pollBound maxWaitTime)%nat /\
  ((clock env 0 - startTime env <= maxWaitTime)%Z ->
   geometryPresent (handle env 0) = true ->
   let e := (clock env 0 - startTime env)%Z in
   settledBy trace = Some [Poll e; LogGeometryReady e]) /\
  ((forall i, geometryPresent (handle env i) = false) ->
   exists (before : list ReadyEvent) (e : Z),
     trace = before ++ [Poll e; WarnTimedOut maxWaitTime; Resolve] /\
     ~ In Resolve before /\
     (maxWaitTime < e)%Z /\
     (forall e', In (Poll e') before -> (e' <= maxWaitTime)%Z) /\
     (forall w, ~ In (WarnTimedOut w) before)).
Proof.
  intros Htimers Hfuel trace.
  pose proof (pollBound_covers env maxWaitTime Htimers) as Hend.
  assert (waitForModelReady env maxWaitTime fuel =
          checkReady env maxWaitTime (pollBound maxWaitTime) 0) as Heq.
  { unfold waitForModelReady. apply checkReady_fuel; assumption. }
  subst trace. rewrite Heq.
  split; [exact Hend|].
  split; [apply checkReady_resolves; exact Hend|].
  split; [apply checkReady_polls|].
  split.
  - intros Hnow Hgeo e. subst e.
    unfold pollBound.
    replace (Z.to_nat (maxWaitTime / checkInterval) + 2)%nat
      with (S (Z.to_nat (maxWaitTime / checkInterval) + 1)) by lia.
    rewrite checkReady_step. cbv zeta.
    destruct (Z.gtb_spec (clock env 0 - startTime env) maxWaitTime) as [Hgt|_];
      [lia|].
    unfold geometryPresent in Hgeo.
    destruct (hasValidGeometry (handle env 0)); [reflexivity|].
    simpl in Hgeo. unfold mergedBoxCheck.
    destruct (boundingBoxes (handle env 0)) as [[[b|]| |]|]; try discriminate.
    apply negb_true_iff in Hgeo. rewrite Hgeo. reflexivity.
  - intros Hnever. apply checkReady_never_ready; assumption.
Qed.

Lemma steadyEnv_timers (m : Model) : timersFireLate (steadyEnv m).
Proof.
  unfold timersFireLate, steadyEnv, checkInterval. simpl.
  split; [lia | intros i; lia].
Qed.

Lemma waitForModelReady_always_resolves_witness :
  settledBy (fst (waitForModelReady (steadyEnv meshModel) defaultMaxWaitTime 102))
    = Some [Poll 0; LogGeometryReady 0] /\
  exists (before : list ReadyEvent) (e : Z),
    fst (waitForModelReady (steadyEnv (boxedModel MergedBoxRejects))
           defaultMaxWaitTime 102)
      = before ++ [Poll e; WarnTimedOut defaultMaxWaitTime; Resolve] /\
    ~ In Resolve before /\ (defaultMaxWaitTime < e)%Z.
Proof.
  split.
  - destruct (waitForModelReady_always_resolves (steadyEnv meshModel)
                defaultMaxWaitTime 102 (steadyEnv_timers meshModel))
      as (_ & _ & _ & Hready & _).
    + vm_compute. lia.
    + apply Hready; [vm_compute; discriminate | reflexivity].
  - destruct (waitForModelReady_always_resolves
                (steadyEnv (boxedModel MergedBoxRejects))
                defaultMaxWaitTime 102
                (steadyEnv_timers (boxedModel MergedBoxRejects)))
      as (_ & _ & _ & _ & Hnever).
    + vm_compute. lia.
    + destruct (Hnever (fun _ => eq_refl)) as (before & e & Htrace & Hres & He & _).
      exists before, e. auto.
Defined.

(** On the merged-box path the promise is settled in the first poll, but
    the poll has armed the next timer before the box arrives: the polls go
    on until the elapsed time passes [maxWaitTime], and the time-out warning
    is logged then, long after the promise was settled. *)
Lemma merged_box_wait_keeps_polling :
  let trace :=
    fst (waitForModelReady
           (steadyEnv (boxedModel (MergedBoxResolves (Some (cube 1)))))
           defaultMaxWaitTime 102) in
  settledBy trace = Some [Poll 0; LogGeometryReady 0] /\
  length (List.filter isPoll trace) = 102%nat /\
  In (WarnTimedOut defaultMaxWaitTime) trace.
Proof.
  vm_compute. repeat split. do 304 right. left. reflexivity.
Qed.

(** C6 (the code departs from the claim): a model without meshes whose
    merged box is there at the first poll, waited for with the default
    [maxWaitTime] and timers that fire exactly on time.  Geometry is
    present at the first poll and the promise is settled in that poll by
    the ready line, but the wait does not end there: [checkReady] goes on
    for 102 polls, logs the ready line and calls [resolve] again in each of
    the 101 polls within the wait, and logs the time-out warning in the
    last one. *)
Theorem waitForModelReady_warns_after_merged_box_ready :
  let env := steadyEnv (boxedModel (MergedBoxResolves (Some (cube 1)))) in
  let trace := fst (waitForModelReady env defaultMaxWaitTime 102) in
  timersFireLate env /\
  geometryPresent (handle env 0) = true /\
  (clock env 0 - startTime env)%Z = 0%Z /\
  snd (waitForModelReady env defaultMaxWaitTime 102) = true /\
  settledBy trace = Some [Poll 0; LogGeometryReady 0] /\
  length (List.filter isPoll trace) = 102%nat /\
  length (List.filter isTimeoutWarning trace) = 1%nat /\
  In (WarnTimedOut defaultMaxWaitTime) trace /\
  exists before : list ReadyEvent,
    trace = before ++ [Poll 5050; WarnTimedOut defaultMaxWaitTime; Resolve] /\
    length (List.filter (fun e => match e with
                                  | LogGeometryReady _ => true
                                  | _ => false
                                  end) before) = 101%nat.
Proof.
  intros env trace.
  split; [apply steadyEnv_timers|].
  assert (exists before : list ReadyEvent,
            trace = before ++ [Poll 5050; WarnTimedOut defaultMaxWaitTime; Resolve] /\
            length (List.filter (fun e => match e with
                                          | LogGeometryReady _ => true
                                          | _ => false
                                          end) before) = 101%nat) as Hend.
  { exists (firstn (length trace - 3) trace).
    subst trace env. vm_compute. split; reflexivity. }
  destruct Hend as (before & Htrace & Hready).
  repeat split; try (subst trace env; vm_compute; reflexivity).
  - rewrite Htrace. apply in_or_app. right. right. left. reflexivity.
  - exists before. split; assumption.
Qed.

(** ** Category visibility *)

Lemma fallbackLoop_length (category : string) (models : list LoadedModel) :
  length (fst (fst (fallbackLoop category models))) = length models.
Proof.
  induction models as [|lm rest IH]; [reflexivity|].
  cbn [fallbackLoop].
  destruct (tryVariations (model lm) (variations category)).
  - reflexivity.
  - destruct (fallbackLoop category rest) as [[rest' lines] returned].
    cbn [fst length] in *. congruence.
  - destruct (fallbackLoop category rest) as [[rest' lines] returned].
    cbn [fst length] in *. congruence.
Qed.

(** The fallback leaves the registry alone and keeps the number of loaded
    models. *)
Lemma fallback_preserves (category : string) (v : Viewer) :
  hiddenCategories (toggleCategoryVisibilityFallback category v) = hiddenCategories v /\
  length (loadedModels (toggleCategoryVisibilityFallback category v)) =
  length (loadedModels v).
Proof.
  unfold toggleCategoryVisibilityFallback.
  pose proof (fallbackLoop_length category (loadedModels v)) as Hlen.
  destruct (fallbackLoop category (loadedModels v)) as [[models lines] returned].
  simpl in Hlen.
  unfold forceRenderUpdate.
  destruct returned; simpl; [destruct (rendererAvailable v); simpl|]; auto.
Qed.

Lemma hiderSet_length (visible : bool) (result : gmap string (gset Z))
    (models : list LoadedModel) :
  length (hiderSet visible result models) = length models.
Proof. unfold hiderSet. apply length_map. Qed.


(** The toggle when the classifier finds items and the hider does not throw. *)
Lemma toggle_primary (cmp : Components) (category : string) (v : Viewer)
    (result : gmap string (gset Z)) :
  loadedModels v <> [] ->
  classifierFind cmp category = Ok result ->
  (0 < totalItemsOf result)%nat ->
  hiderThrows cmp (categoryCurrentlyHidden v category) result = false ->
  let n := totalItemsOf result in
  let hidden := categoryCurrentlyHidden v category in
  toggleCategoryVisibility cmp category v =
  (undefined,
   forceRenderUpdate
     (logged [if hidden then LogShowed n category else LogHid n category]
        (withHiddenCategories
           (if hidden then delete category (readHiddenCategories v)
            else <[category := true]> (readHiddenCategories v))
           (withModels (hiderSet hidden result (loadedModels v))
              (logged [LogCurrentlyHidden category hidden]
                 (logged [LogFound n category]
                    (logged [LogToggling category] v))))))).
Proof.
  intros Hmodels Hfind Htotal Hhider n hidden. subst n hidden.
  unfold toggleCategoryVisibility.
  destruct (loadedModels v) as [|lm rest] eqn:Hlm; [congruence|].
  unfold toggleCategoryPrimary. rewrite Hfind.
  apply Nat.ltb_lt in Htotal. rewrite Htotal.
  change (categoryCurrentlyHidden
            (logged [LogFound (totalItemsOf result) category]
               (logged [LogToggling category] v)) category)
    with (categoryCurrentlyHidden v category).
  cbv zeta.
  destruct (categoryCurrentlyHidden v category); rewrite Hhider;
    cbv beta iota zeta; unfold readHiddenCategories; viewer_fields;
    rewrite Hlm; reflexivity.
Qed.

Lemma hidden_after_show (r : gmap string bool) (category : string) (v : Viewer) :
  categoryCurrentlyHidden (withHiddenCategories (delete category r) v) category = false.
Proof.
  unfold categoryCurrentlyHidden, readHiddenCategories. viewer_fields.
  cbn [default from_option id]. rewrite lookup_delete_eq. reflexivity.
Qed.

Lemma hidden_after_hide (r : gmap string bool) (category : string) (v : Viewer) :
  categoryCurrentlyHidden (withHiddenCategories (<[category := true]> r) v) category = true.
Proof.
  unfold categoryCurrentlyHidden, readHiddenCategories. viewer_fields.
  cbn [default from_option id]. rewrite lookup_insert_eq. reflexivity.
Qed.

Lemma forceRenderUpdate_fields (v : Viewer) :
  hiddenCategories (forceRenderUpdate v) = hiddenCategories v /\
  loadedModels (forceRenderUpdate v) = loadedModels v /\
  rendererAvailable (forceRenderUpdate v) = rendererAvailable v /\
  propertiesContent (forceRenderUpdate v) = propertiesContent v /\
  console (forceRenderUpdate v) =
    console v ++ (if rendererAvailable v then [LogForcedRender] else []).
Proof.
  unfold forceRenderUpdate.
  destruct (rendererAvailable v) eqn:Hr; simpl; rewrite ?app_nil_r; auto.
Qed.



(** C2, as stated, fails: toggling "IFCWALL" on a model with twelve walls
    finds the twelve items, but the call evaluates to [undefined], not to
    12. *)
Lemma toggle_returns_no_count :
  classifierFind wallComponents "IFCWALL" = Ok {[ "house.frag"%string := wallIds ]} /\
  totalItemsOf {[ "house.frag"%string := wallIds ]} = 12%nat /\
  fst (toggleCategoryVisibility wallComponents "IFCWALL" houseScene) = undefined /\
  fst (toggleCategoryVisibility wallComponents "IFCWALL" houseScene) <> number 12.
Proof.
  repeat split; try reflexivity. vm_compute. discriminate.
Qed.

(** C2 (amended): for a category with at least one matching element, on a
    viewer with models loaded and a hider that does not throw, the toggle
    evaluates to no value; it logs the number of affected elements, the same
    number on the first and on the second toggle, and the registry entry is
    flipped by the first toggle and flipped back by the second: hidden then
    shown again for a category that was shown. *)
Theorem toggle_logs_same_count (cmp : Components) (category : string)
    (v : Viewer) (result : gmap string (gset Z)) :
  loadedModels v <> [] ->
  classifierFind cmp category = Ok result ->
  (0 < totalItemsOf result)%nat ->
  (forall visible : bool, hiderThrows cmp visible result = false) ->
  let n := totalItemsOf result in
  let hidden := categoryCurrentlyHidden v category in
  let lines (hidden : bool) :=
    [LogToggling category; LogFound n category;
     LogCurrentlyHidden category hidden;
     if hidden then LogShowed n category else LogHid n category] ++
    (if rendererAvailable v then [LogForcedRender] else []) in
  let first := toggleCategoryVisibility cmp category v in
  let second := toggleCategoryVisibility cmp category (snd first) in
  fst first = undefined /\ fst second = undefined /\
  console (snd first) = console v ++ lines hidden /\
  console (snd second) = console (snd first) ++ lines (negb hidden) /\
  categoryCurrentlyHidden (snd first) category = negb hidden /\
  categoryCurrentlyHidden (snd second) category = hidden.
Proof.
  intros Hmodels Hfind Htotal Hhider n hidden lines first second.
  pose proof (toggle_primary cmp category v result Hmodels Hfind Htotal
                (Hhider _)) as Hfirst.
  cbv zeta in Hfirst. fold n hidden first in Hfirst.
  match type of Hfirst with _ = (_, forceRenderUpdate ?w) => set (w1 := w) in * end.
  destruct (forceRenderUpdate_fields w1) as (Hreg1 & Hmodels1 & Hrenderer1 & _ & Hlog1).
  set (v1 := snd first) in *.
  assert (v1 = forceRenderUpdate w1) as Hv1 by (subst v1; rewrite Hfirst; reflexivity).
  rewrite <- Hv1 in Hreg1, Hmodels1, Hrenderer1, Hlog1.
  subst w1. viewer_fields.
  assert (loadedModels v1 <> []) as Hne1.
  { rewrite Hmodels1. intros Hnil. apply Hmodels.
    apply length_zero_iff_nil. rewrite <- (hiderSet_length hidden result).
    rewrite Hnil. reflexivity. }
  assert (categoryCurrentlyHidden v1 category = negb hidden) as Hflip.
  { unfold categoryCurrentlyHidden at 1, readHiddenCategories at 1.
    rewrite Hreg1.
    destruct hidden; cbn [default from_option id negb];
      [rewrite lookup_delete_eq | rewrite lookup_insert_eq]; reflexivity. }
  pose proof (toggle_primary cmp category v1 result Hne1 Hfind Htotal
                (Hhider _)) as Hsecond.
  cbv zeta in Hsecond. fold n second in Hsecond. rewrite Hflip in Hsecond.
  match type of Hsecond with _ = (_, forceRenderUpdate ?w) => set (w2 := w) in * end.
  destruct (forceRenderUpdate_fields w2) as (Hreg2 & _ & _ & _ & Hlog2).
  assert (snd second = forceRenderUpdate w2) as Hv2 by (rewrite Hsecond; reflexivity).
  rewrite <- Hv2 in Hreg2, Hlog2.
  subst w2. viewer_fields.
  split; [rewrite Hfirst; reflexivity|].
  split; [rewrite Hsecond; reflexivity|].
  split; [|split; [|split]].
  - rewrite Hlog1. subst lines. cbv beta. rewrite <- !app_assoc. reflexivity.
  - rewrite Hlog2. subst lines. cbv beta. rewrite Hrenderer1, <- !app_assoc.
    reflexivity.
  - exact Hflip.
  - unfold categoryCurrentlyHidden at 1, readHiddenCategories at 1.
    rewrite Hreg2.
    destruct hidden; cbn [default from_option id negb];
      [rewrite lookup_insert_eq | rewrite lookup_delete_eq]; reflexivity.
Qed.

Lemma toggle_logs_same_count_witness :
  let first := toggleCategoryVisibility wallComponents "IFCWALL" houseScene in
  let second := toggleCategoryVisibility wallComponents "IFCWALL" (snd first) in
  console (snd first) =
    [LogToggling "IFCWALL"; LogFound 12 "IFCWALL";
     LogCurrentlyHidden "IFCWALL" false; LogHid 12 "IFCWALL"; LogForcedRender] /\
  console (snd second) =
    console (snd first) ++
    [LogToggling "IFCWALL"; LogFound 12 "IFCWALL";
     LogCurrentlyHidden "IFCWALL" true; LogShowed 12 "IFCWALL"; LogForcedRender] /\
  categoryCurrentlyHidden (snd first) "IFCWALL" = true /\
  categoryCurrentlyHidden (snd second) "IFCWALL" = false.
Proof.
  intros first second.
  destruct (toggle_logs_same_count wallComponents "IFCWALL" houseScene
              {[ "house.frag"%string := wallIds ]})
    as (_ & _ & Hlog1 & Hlog2 & Hh1 & Hh2).
  - discriminate.
  - reflexivity.
  - vm_compute. lia.
  - reflexivity.
  - fold first in Hlog1, Hlog2, Hh1, Hh2. fold second in Hlog2, Hh2.
    assert (totalItemsOf {[ "house.frag"%string := wallIds ]} = 12%nat) as Hn
      by (vm_compute; reflexivity).
    rewrite Hn in Hlog1, Hlog2.
    repeat split; assumption.
Defined.

(** *** The fallback *)

(** The inner loop stops at the first variation with items. *)
Lemma tryVariations_first (m : Model) (getItems : string -> outcome (list Z))
    (tried rest : list string) (variation : string) (first : Z) (others : list Z) :
  getItemsOfCategories m = Some getItems ->
  (forall t, In t tried -> getItems t = Ok []) ->
  getItems variation = Ok (first :: others) ->
  tryVariations m (tried ++ variation :: rest) =
  Matched variation (flipItems m (first :: others) first).
Proof.
  intros Hget Htried Hvar.
  induction tried as [|t tried IH]; cbn [app tryVariations]; rewrite Hget.
  - rewrite Hvar. reflexivity.
  - rewrite (Htried t) by (left; reflexivity).
    apply IH. intros t' Hin. apply Htried. right. exact Hin.
Qed.

(** The outer loop passes over the models without a match and stops at the
    first one that has one. *)
Lemma fallbackLoop_first (category : string) (before after : list LoadedModel)
    (lm : LoadedModel) (variation : string) (m' : Model) :
  (forall lm', In lm' before ->
     forall var m'', tryVariations (model lm') (variations category) <> Matched var m'') ->
  tryVariations (model lm) (variations category) = Matched variation m' ->
  exists warnings : list LogEntry,
    fallbackLoop category (before ++ lm :: after) =
    (before ++ mkLoaded m' (fileName lm) :: after,
     warnings ++ [LogFallbackSucceeded variation], true) /\
    (forall w, In w warnings -> w = WarnFallbackVariationFailed).
Proof.
  intros Hbefore Hmatch.
  induction before as [|lm0 before IH]; cbn [app fallbackLoop].
  - rewrite Hmatch. exists []. split; [reflexivity|]. intros w [].
  - destruct IH as (warnings & Hloop & Hwarn).
    { intros lm' Hin. apply Hbefore. right. exact Hin. }
    rewrite Hloop.
    destruct (tryVariations (model lm0) (variations category)) as [var m''| |] eqn:Htry.
    + exfalso. eapply (Hbefore lm0); [left; reflexivity | exact Htry].
    + exists warnings. split; [reflexivity | exact Hwarn].
    + exists (WarnFallbackVariationFailed :: warnings).
      split; [reflexivity|].
      intros w [<-|Hin]; [reflexivity | apply Hwarn; exact Hin].
Qed.

(** What flipping does to the hidden items of the model: with [setVisible]
    all the items get the opposite of the visibility of the first one
    (taken as visible when the model cannot tell); with [toggleVisible] only,
    each item is flipped; with neither, nothing changes. *)
Lemma flipItems_hidden (m : Model) (itemIds : list Z) (first : Z) :
  hiddenItems (flipItems m itemIds first) =
  let ids : gset Z := list_to_set itemIds in
  if setVisible m then
    if isVisible m && bool_decide (first ∈ hiddenItems m)
    then hiddenItems m ∖ ids
    else hiddenItems m ∪ ids
  else if toggleVisible m then (hiddenItems m ∖ ids) ∪ (ids ∖ hiddenItems m)
  else hiddenItems m.
Proof.
  unfold flipItems, Fragments.setVisible, Fragments.toggleVisible,
    Fragments.isVisible.
  cbv zeta.
  destruct (setVisible m); [|destruct (toggleVisible m); reflexivity].
  destruct (isVisible m); cbn [andb negb]; [|reflexivity].
  destruct (decide (first ∈ hiddenItems m)) as [Hin|Hout].
  - rewrite (bool_decide_eq_true_2 _ Hin).
    rewrite bool_decide_eq_false_2 by (intros Hn; apply Hn; exact Hin).
    reflexivity.
  - rewrite (bool_decide_eq_false_2 _ Hout).
    rewrite (bool_decide_eq_true_2 _ Hout).
    reflexivity.
Qed.

(** C8, as stated, fails: the first name the fallback tries is the
    unchanged one.  On a model whose own category query knows items 1 and 2
    as "IFCWALL" and item 3 as "ifcwall", with a classifier that finds
    nothing, the toggle of "IFCWALL" hides items 1 and 2; item 3, which the
    case-lowered name yields, is left as it was. *)
Lemma fallback_tries_unchanged_name_first :
  let m := namedModel "a.frag" in
  let v := viewerWith defaultCameraSettings [mkLoaded m "a.frag"] in
  let v' := snd (toggleCategoryVisibility silentComponents "IFCWALL" v) in
  classifierFind silentComponents "IFCWALL" = Ok ∅ /\
  totalItemsOf ∅ = 0%nat /\
  variations "IFCWALL" = ["IFCWALL"; "ifcwall"; "WALL"; "wall"]%string /\
  (exists getItems, getItemsOfCategories m = Some getItems /\
                    getItems "ifcwall"%string = Ok [3%Z]) /\
  map (fun lm => (Fragments.isVisible (model lm) 1, Fragments.isVisible (model lm) 2,
                  Fragments.isVisible (model lm) 3))
      (loadedModels v') = [(false, false, true)] /\
  In (LogFallbackSucceeded "IFCWALL") (console v') /\
  ~ In (LogFallbackSucceeded "ifcwall") (console v').
Proof.
  split; [reflexivity|]. split; [reflexivity|]. split; [reflexivity|].
  split; [eexists; split; reflexivity|].
  split; [vm_compute; reflexivity|].
  split; vm_compute; intuition discriminate.
Qed.

(** The fallback returns from inside its loop over the models: of two
    models that both know items 1 and 2 as "IFCWALL", only the first one
    has them hidden. *)
Lemma fallback_stops_at_first_model :
  let v := viewerWith defaultCameraSettings
             [mkLoaded (namedModel "a.frag") "a.frag";
              mkLoaded (namedModel "b.frag") "b.frag"] in
  let v' := snd (toggleCategoryVisibility silentComponents "IFCWALL" v) in
  map (fun lm => (modelId (model lm), Fragments.isVisible (model lm) 1,
                  Fragments.isVisible (model lm) 2))
      (loadedModels v') =
  [("a.frag"%string, false, false); ("b.frag"%string, true, true)].
Proof. vm_compute. reflexivity. Qed.

(** C8 (amended): when the classifier finds no element, the fallback goes
    through the loaded models in load order and asks each model's own
    category query for the unchanged name, the case-lowered name, the name
    without its first "IFC" and that one case-lowered, in this order.  In
    the first model with a match, the first of these names that yields
    elements wins, whatever the later names would give: its elements are
    flipped on that model (see [flipItems_hidden]), the models before it
    are left as they were, and the success is logged with that name. *)
Theorem fallback_first_variation_wins (cmp : Components) (category : string)
    (v : Viewer) (result : gmap string (gset Z))
    (before after : list LoadedModel) (lm : LoadedModel)
    (getItems : string -> outcome (list Z))
    (tried rest : list string) (variation : string)
    (first : Z) (others : list Z) :
  classifierFind cmp category = Ok result ->
  totalItemsOf result = 0%nat ->
  loadedModels v = before ++ lm :: after ->
  (forall lm', In lm' before ->
     forall var m'', tryVariations (model lm') (variations category) <> Matched var m'') ->
  getItemsOfCategories (model lm) = Some getItems ->
  variations category = tried ++ variation :: rest ->
  (forall t, In t tried -> getItems t = Ok []) ->
  getItems variation = Ok (first :: others) ->
  let v' := snd (toggleCategoryVisibility cmp category v) in
  let m' := flipItems (model lm) (first :: others) first in
  variations category =
    [category; toLowerCase category; replace "IFC" "" category;
     toLowerCase (replace "IFC" "" category)] /\
  (exists after' : list LoadedModel,
     loadedModels v' = before ++ mkLoaded m' (fileName lm) :: after') /\
  In (LogFallbackSucceeded variation) (console v') /\
  hiddenItems m' =
    (let ids : gset Z := list_to_set (first :: others) in
     let hidden := hiddenItems (model lm) in
     if setVisible (model lm) then
       if isVisible (model lm) && bool_decide (first ∈ hidden)
       then hidden ∖ ids else hidden ∪ ids
     else if toggleVisible (model lm) then (hidden ∖ ids) ∪ (ids ∖ hidden)
     else hidden).
Proof.
  intros Hfind Htotal Hmodels Hbefore Hget Hvars Htried Hvar v' m'.
  split; [reflexivity|].
  assert (tryVariations (model lm) (variations category) = Matched variation m')
    as Hmatch.
  { rewrite Hvars. eapply tryVariations_first; eassumption. }
  destruct (fallbackLoop_first category before after lm variation m' Hbefore Hmatch)
    as (warnings & Hloop & _).
  assert (v' = forceRenderUpdate
                 (logged (warnings ++ [LogFallbackSucceeded variation])
                    (withModels (before ++ mkLoaded m' (fileName lm) :: after)
                       (logged [WarnNoItems category]
                          (logged [LogFound 0 category]
                             (logged [LogToggling category] v)))))) as Hv'.
  { subst v'. unfold toggleCategoryVisibility.
    destruct (loadedModels v) as [|lm0 ms] eqn:Hlm.
    { destruct before; discriminate. }
    unfold toggleCategoryPrimary. rewrite Hfind, Htotal.
    cbv beta iota zeta. cbn [Nat.ltb Nat.leb].
    unfold toggleCategoryVisibilityFallback. viewer_fields.
    rewrite Hlm, Hmodels, Hloop. reflexivity. }
  destruct (forceRenderUpdate_fields
              (logged (warnings ++ [LogFallbackSucceeded variation])
                 (withModels (before ++ mkLoaded m' (fileName lm) :: after)
                    (logged [WarnNoItems category]
                       (logged [LogFound 0 category]
                          (logged [LogToggling category] v))))))
    as (_ & Hm & _ & _ & Hc).
  rewrite <- Hv' in Hm, Hc. viewer_fields.
  split; [exists after; exact Hm|].
  split.
  - rewrite Hc. apply in_or_app. left. apply in_or_app. right.
    apply in_or_app. right. left. reflexivity.
  - subst m'. apply flipItems_hidden.
Qed.

Lemma fallback_first_variation_wins_witness :
  let m := namedModel "b.frag" in
  let v := viewerWith defaultCameraSettings
             [mkLoaded (plainModel "a.frag" (cube 1)) "a.frag"; mkLoaded m "b.frag"] in
  let v' := snd (toggleCategoryVisibility silentComponents "IfcWall" v) in
  (exists after' : list LoadedModel,
     loadedModels v' =
     [mkLoaded (plainModel "a.frag" (cube 1)) "a.frag"] ++
     mkLoaded (flipItems m [3%Z] 3) "b.frag" :: after') /\
  In (LogFallbackSucceeded "ifcwall") (console v') /\
  hiddenItems (flipItems m [3%Z] 3) = ∅ ∪ list_to_set [3%Z].
Proof.
  intros m v v'.
  destruct (fallback_first_variation_wins silentComponents "IfcWall" v ∅
              [mkLoaded (plainModel "a.frag" (cube 1)) "a.frag"] []
              (mkLoaded m "b.frag")
              (fun variation =>
                 if String.eqb variation "IFCWALL" then Ok [1; 2]%Z
                 else if String.eqb variation "ifcwall" then Ok [3]%Z
                 else Ok [])
              ["IfcWall"]%string ["IfcWall"; "ifcwall"]%string "ifcwall" 3 [])
    as (_ & Hmodels & Hlog & Hhidden).
  - reflexivity.
  - reflexivity.
  - reflexivity.
  - intros lm' [<-|[]] var m''. discriminate.
  - reflexivity.
  - reflexivity.
  - intros t [<-|[]]. reflexivity.
  - reflexivity.
  - auto.
Defined.

(** ** Picking *)

(** When no model reports a hit the loop runs to its end, and what follows
    it resets an existing panel. *)
Lemma pickLoop_no_hit (mouse : Q * Q) (models : list LoadedModel) :
  forall v : Viewer,
    propertiesContent v <> None ->
    (forall lm, In lm models -> reportsHit mouse (model lm) = false) ->
    propertiesContent (pickLoop mouse models v) = Some PanelEmptySelection.
Proof.
  induction models as [|lm rest IH]; intros v Hpanel Hmiss; cbn [pickLoop].
  - destruct (propertiesContent v); [reflexivity | congruence].
  - assert (forall lm', In lm' rest -> reportsHit mouse (model lm') = false)
      as Hrest by (intros lm' Hin; apply Hmiss; right; exact Hin).
    pose proof (Hmiss lm (or_introl eq_refl)) as Hlm.
    unfold reportsHit in Hlm.
    destruct (raycast (model lm)) as [cast|]; [|apply IH; assumption].
    destruct (rendererAvailable v); cbn [negb].
    + destruct (cast mouse) as [[[[localId|]]|]|];
        try discriminate; apply IH; assumption.
    + apply IH; assumption.
Qed.

(** C9, as stated, fails once the last model is gone: a click on a hit
    shows the component, [clearAllFragments] leaves the panel as it is, and
    the next click returns at the guard on the empty model list, so the
    panel still shows the component of the earlier pick although no loaded
    model reports a hit. *)
Lemma click_with_no_models_keeps_stale_panel :
  let mouse := (120, 80) in
  let picked := onClick mouse houseScene in
  let cleared := clearAllFragments picked in
  propertiesContent picked = Some (PanelComponent 42 "house.frag" None) /\
  loadedModels cleared = [] /\
  (forall lm, In lm (loadedModels cleared) -> reportsHit mouse (model lm) = false) /\
  propertiesContent (onClick mouse cleared) =
    Some (PanelComponent 42 "house.frag" None) /\
  propertiesContent (onClick mouse cleared) <> Some PanelEmptySelection.
Proof.
  split; [reflexivity|]. split; [reflexivity|].
  split; [intros lm []|].
  split; [reflexivity | discriminate].
Qed.

(** C9 (amended): on an initialised viewer with at least one model loaded
    and a properties panel, a click for which no loaded model reports a hit
    (its raycast is missing, throws, or yields no item) resets the panel to
    the empty-selection placeholder, whatever it showed before. *)
Theorem click_without_hit_resets_panel (mouse : Q * Q) (v : Viewer) :
  fragmentsReady v = true ->
  loadedModels v <> [] ->
  propertiesContent v <> None ->
  (forall lm, In lm (loadedModels v) -> reportsHit mouse (model lm) = false) ->
  propertiesContent (onClick mouse v) = Some PanelEmptySelection.
Proof.
  intros Hready Hmodels Hpanel Hmiss.
  unfold onClick. rewrite Hready. cbn [negb].
  destruct (loadedModels v) as [|lm rest] eqn:Hlm; [congruence|].
  apply pickLoop_no_hit; assumption.
Qed.

Lemma click_without_hit_resets_panel_witness :
  let v := withPanel (PanelComponent 42 "house.frag" None)
             (viewerWith defaultCameraSettings
                [mkLoaded (plainModel "a.frag" (cube 1)) "a.frag";
                 mkLoaded brokenRaycastModel "broken.frag"]) in
  propertiesContent v = Some (PanelComponent 42 "house.frag" None) /\
  propertiesContent (onClick (120, 80) v) = Some PanelEmptySelection.
Proof.
  intros v. split; [reflexivity|].
  apply click_without_hit_resets_panel.
  - reflexivity.
  - discriminate.
  - discriminate.
  - intros lm [<-|[<-|[]]]; reflexivity.
Defined.

(** * Further properties of the viewer *)

(** ** Bounds *)

Lemma containsBox_refl (b : Box3) : containsBox b b.
Proof.
  destruct b as [|lo hi]; simpl; [trivial|].
  repeat split; apply Qle_refl.
Qed.

Lemma containsBox_trans (a b c : Box3) :
  b <> emptyBox -> containsBox a b -> containsBox b c -> containsBox a c.
Proof.
  destruct a as [|la ha], b as [|lb hb], c as [|lc hc]; simpl; try tauto.
  intros _ ((H1 & H2 & H3) & (H4 & H5 & H6)) ((K1 & K2 & K3) & (K4 & K5 & K6)).
  repeat split; eapply Qle_trans; eassumption.
Qed.

Lemma union_contains_l (a b : Box3) : containsBox (union a b) a.
Proof.
  destruct a as [|la ha], b as [|lb hb]; simpl; try tauto.
  - repeat split; apply Qle_refl.
  - repeat split; (apply Q.le_min_l || apply Q.le_max_l).
Qed.

Lemma union_contains_r (a b : Box3) : containsBox (union a b) b.
Proof.
  destruct a as [|la ha], b as [|lb hb]; simpl; try tauto.
  - repeat split; apply Qle_refl.
  - repeat split; (apply Q.le_min_r || apply Q.le_max_r).
Qed.

Lemma union_least (outer a b : Box3) :
  containsBox outer a -> containsBox outer b -> containsBox outer (union a b).
Proof.
  destruct outer as [|lo ho], a as [|la ha], b as [|lb hb]; simpl; try tauto.
  intros ((H1 & H2 & H3) & (H4 & H5 & H6)) ((K1 & K2 & K3) & (K4 & K5 & K6)).
  repeat split; (apply Q.min_glb || apply Q.max_lub); assumption.
Qed.

Lemma union_not_emptyBox (a b : Box3) : b <> emptyBox -> union a b <> emptyBox.
Proof. destruct a, b; simpl; congruence. Qed.

Lemma combineFrom_contains (models : list LoadedModel) :
  forall acc : Box3 * bool,
    containsBox (fst (combineFrom acc models)) (fst acc) /\
    (forall lm b, In lm models -> contributes lm b ->
                  containsBox (fst (combineFrom acc models)) b).
Proof.
  induction models as [|lm0 rest IH]; intros acc.
  - split; [apply containsBox_refl | intros lm b []].
  - unfold combineFrom in *. cbn [fold_left].
    destruct (object (model lm0)) as [o|] eqn:Ho.
    + cbv zeta. destruct (isEmpty (bounds o)) eqn:He.
      * destruct (IH acc) as [Hacc Hall]. split; [exact Hacc|].
        intros lm b [<-|Hin] Hc; [|eauto].
        destruct Hc as (o' & Ho' & <- & Hne). congruence.
      * destruct (IH (union (fst acc) (bounds o), true)) as [Hacc Hall].
        cbn [fst] in Hacc.
        assert (union (fst acc) (bounds o) <> emptyBox) as Hu.
        { apply union_not_emptyBox. intros E. rewrite E in He. discriminate. }
        split.
        -- eapply containsBox_trans; [exact Hu | exact Hacc | apply union_contains_l].
        -- intros lm b [<-|Hin] Hc; [|eauto].
           destruct Hc as (o' & Ho' & <- & Hne).
           assert (o' = o) as -> by congruence.
           eapply containsBox_trans; [exact Hu | exact Hacc | apply union_contains_r].
    + destruct (IH acc) as [Hacc Hall]. split; [exact Hacc|].
      intros lm b [<-|Hin] Hc; [|eauto].
      destruct Hc as (o' & Ho' & _). congruence.
Qed.

Lemma combineFrom_least (outer : Box3) (models : list LoadedModel) :
  forall acc : Box3 * bool,
    containsBox outer (fst acc) ->
    (forall lm b, In lm models -> contributes lm b -> containsBox outer b) ->
    containsBox outer (fst (combineFrom acc models)).
Proof.
  induction models as [|lm0 rest IH]; intros acc Hacc Hall; [exact Hacc|].
  unfold combineFrom in *. cbn [fold_left].
  assert (forall lm b, In lm rest -> contributes lm b -> containsBox outer b)
    as Hrest by (intros lm b Hin; apply Hall; right; exact Hin).
  destruct (object (model lm0)) as [o|] eqn:Ho; [|apply IH; assumption].
  cbv zeta. destruct (isEmpty (bounds o)) eqn:He; [apply IH; assumption|].
  apply IH; [|exact Hrest]. cbn [fst].
  apply union_least; [exact Hacc|].
  apply (Hall lm0); [left; reflexivity|].
  exists o. auto.
Qed.

(** The combined box of [fitCameraToModels] is the smallest box around the
    models: it contains the bounds of every model that has an object with
    bounds that are not empty, and every box that contains all of these
    contains it; [hasBox] tells whether there is such a model. *)
Theorem combineBoxes_smallest_enclosing_box (models : list LoadedModel) :
  let combinedBox := fst (combineBoxes models) in
  let hasBox := snd (combineBoxes models) in
  (forall lm b, In lm models -> contributes lm b -> containsBox combinedBox b) /\
  (forall outer : Box3,
     (forall lm b, In lm models -> contributes lm b -> containsBox outer b) ->
     containsBox outer combinedBox) /\
  (hasBox = true <-> exists lm b, In lm models /\ contributes lm b).
Proof.
  intros combinedBox hasBox. subst combinedBox hasBox.
  change (combineBoxes models) with (combineFrom (emptyBox, false) models).
  split; [apply combineFrom_contains|].
  split.
  - intros outer Hall. apply combineFrom_least; [|exact Hall].
    destruct outer; exact I.
  - assert (forall ms acc,
              snd (combineFrom acc ms) = true <->
              snd acc = true \/ exists lm b, In lm ms /\ contributes lm b) as Hgen.
    { induction ms as [|lm0 rest IH]; intros acc.
      - simpl. split; [auto|]. intros [H|(lm & b & [] & _)]. exact H.
      - unfold combineFrom in *. cbn [fold_left].
        destruct (object (model lm0)) as [o|] eqn:Ho.
        + cbv zeta. destruct (isEmpty (bounds o)) eqn:He.
          * rewrite IH. split.
            -- intros [H|(lm & b & Hin & Hc)]; [auto|].
               right. exists lm, b. split; [right; exact Hin | exact Hc].
            -- intros [H|(lm & b & [<-|Hin] & Hc)]; [auto| |].
               ++ destruct Hc as (o' & Ho' & <- & Hne). congruence.
               ++ right. exists lm, b. auto.
          * rewrite IH. cbn [snd]. split; [|auto].
            intros _. right. exists lm0, (bounds o).
            split; [left; reflexivity|]. exists o. auto.
        + rewrite IH. split.
          * intros [H|(lm & b & Hin & Hc)]; [auto|].
            right. exists lm, b. split; [right; exact Hin | exact Hc].
          * intros [H|(lm & b & [<-|Hin] & Hc)]; [auto| |].
            -- destruct Hc as (o' & Ho' & _). congruence.
            -- right. exists lm, b. auto. }
    rewrite Hgen. cbn [snd]. split.
    + intros [H|H]; [discriminate | exact H].
    + auto.
Qed.

Lemma combineBoxes_smallest_enclosing_box_witness :
  containsBox (fst (combineBoxes twoBoxModels)) (cube 100) /\
  containsBox (box (mkVector3 (-1) (-1) (-1)) (mkVector3 1000 1000 1000))
              (fst (combineBoxes twoBoxModels)) /\
  snd (combineBoxes twoBoxModels) = true.
Proof.
  destruct (combineBoxes_smallest_enclosing_box twoBoxModels)
    as (Hinside & Hleast & Hhas).
  split; [|split].
  - apply (Hinside (mkLoaded (plainModel "a.frag" (cube 100)) "a.frag"));
      [left; reflexivity|].
    exists (mkObject3D (cube 100) []). repeat split.
  - apply Hleast. intros lm b Hin (o & Ho & <- & _).
    destruct Hin as [<-|[<-|[]]]; injection Ho as <-;
      simpl; repeat split; discriminate.
  - apply Hhas.
    exists (mkLoaded (plainModel "a.frag" (cube 100)) "a.frag"), (cube 100).
    split; [left; reflexivity|].
    exists (mkObject3D (cube 100) []). repeat split.
Defined.

(** ** Framing *)

Lemma fitAllModelsToView_far_plane_witness :
  let v := cubeScene 100000 in
  let v' := fitAllModelsToView (fun _ => 0.5) v in
  far (camera v) == 50000 /\
  fitAllDistance (fun _ => 0.5) (camera v) 100000 + 100000 <= far (camera v').
Proof.
  intros v v'.
  split; [reflexivity|].
  apply (fitAllModelsToView_far_plane (fun _ => 0.5) v (cube 100000) [] []).
  - discriminate.
  - reflexivity.
  - reflexivity.
  - reflexivity.
  - reflexivity.
Defined.

Lemma ensureFarPlane_clipping (s : CameraSettings) (distance maxDim : Q) (c : Camera) :
  0 <= far c ->
  let c' := fst (ensureFarPlane s distance maxDim c) in
  far c <= far c' /\ near c' = near c /\
  position c' = position c /\ target c' = target c /\
  (far c' = far c \/ farPlane s <= far c').
Proof.
  intros Hfar. unfold ensureFarPlane.
  destruct (isPerspective c); [|cbn [fst]; repeat split; auto; apply Qle_refl].
  destruct (Qltb (far c) (distance + maxDim)) eqn:Hlt;
    cbn [fst]; [|repeat split; auto; apply Qle_refl].
  apply Qgtb_true in Hlt.
  unfold setClipping. cbn [far near position target].
  repeat split.
  - eapply Qle_trans; [|apply Q.le_max_l]. lra.
  - right. apply Q.le_max_r.
Qed.

(** [fitAllModelsToView] never brings the far plane closer and never
    touches the near plane, whatever the models and the field of view: the
    far plane either stays as it was or ends at or beyond the [farPlane]
    setting.  The only assumption is a far plane that is not negative. *)
Theorem fitAllModelsToView_keeps_clipping (tanHalf : Q -> Q) (v : Viewer) :
  0 <= far (camera v) ->
  let v' := fitAllModelsToView tanHalf v in
  far (camera v) <= far (camera v') /\
  near (camera v') = near (camera v) /\
  (far (camera v') = far (camera v) \/
   farPlane (cameraSettings v) <= far (camera v')) /\
  loadedModels v' = loadedModels v /\
  cameraSettings v' = cameraSettings v.
Proof.
  intros Hfar v'. subst v'. unfold fitAllModelsToView.
  destruct (loadedModels v) as [|lm rest] eqn:Hlm.
  { viewer_fields. rewrite Hlm. repeat split; auto; apply Qle_refl. }
  destruct (collectBoxes (lm :: rest)) as [boxes warnings].
  destruct boxes as [|first others].
  { viewer_fields. rewrite Hlm. repeat split; auto; apply Qle_refl. }
  destruct (isEmpty (fold_left union others first)).
  { viewer_fields. rewrite Hlm. repeat split; auto; apply Qle_refl. }
  viewer_fields.
  set (maxDim := maxDimOf (getSize (fold_left union others first))).
  set (distance := fitAllDistance tanHalf (camera v) maxDim).
  destruct (ensureFarPlane_clipping (cameraSettings v) distance maxDim (camera v) Hfar)
    as (Hle & Hnear & _ & _ & Hor).
  destruct (ensureFarPlane (cameraSettings v) distance maxDim (camera v))
    as [c farLog].
  cbn [fst] in *. viewer_fields. rewrite Hlm.
  destruct (hasControls c); unfold setLookAt; cbn [far near]; auto.
Qed.

Lemma fitAllModelsToView_keeps_clipping_witness :
  let v := cubeScene 100 in
  let v' := fitAllModelsToView (fun _ => 0.5) v in
  far (camera v') = far (camera v) /\ near (camera v') = near (camera v).
Proof.
  intros v v'.
  destruct (fitAllModelsToView_keeps_clipping (fun _ => 0.5) v)
    as (_ & Hnear & _).
  - vm_compute. discriminate.
  - split; [reflexivity | exact Hnear].
Defined.

(** The inequalities between the camera and its target are not strict: on
    doubles the offset of the camera can be absorbed by a large coordinate,
    the camera coordinate then being the target coordinate itself. *)
Lemma camera_offset_absorbed_binary64 :
  (Binary64.offset 1e19 200 0.9 = 1e19)%float /\
  (Binary64.centerOf 1e19 (1e19 + 2048) = 1e19)%float.
Proof. vm_compute. split; reflexivity. Qed.

(** After a close or far fit, under settings whose floor or whose
    multiplier for the mode is not negative, the camera looks at the centre
    of the combined box, a point of that box, and is never placed on the
    side of smaller x or smaller z of that point, nor below it when the
    height offset of the mode is not negative. *)
Theorem fitCameraToModels_camera_side (wide : bool) (v : Viewer)
    (lo hi : Vector3) :
  0 <= minimumDistance (cameraSettings v) \/
  0 <= distanceMultiplier (cameraSettings v) wide ->
  combineBoxes (loadedModels v) = (box lo hi, true) ->
  let v' := fitCameraToModels wide v in
  let eye := position (camera v') in
  let aim := target (camera v') in
  aim = getCenter (box lo hi) /\
  (v_x lo <= v_x aim <= v_x hi /\ v_y lo <= v_y aim <= v_y hi /\
   v_z lo <= v_z aim <= v_z hi) /\
  v_x aim <= v_x eye /\ v_z aim <= v_z eye /\
  (0 <= cameraOffset (cameraSettings v) wide -> v_y aim <= v_y eye).
Proof.
  intros Hs Hcb v' eye aim.
  assert (snd (combineBoxes (loadedModels v)) = true) as Hbox
    by (rewrite Hcb; reflexivity).
  pose proof (combineBoxes_invariant _ Hbox) as Hne.
  destruct (fitCameraToModels_effect wide v Hbox) as (Hcamera & _ & _).
  fold v' in Hcamera. subst eye aim. rewrite Hcamera.
  rewrite Hcb in *. cbn [fst] in *.
  unfold setLookAt, cameraPosition. cbn [position target v_x v_y v_z].
  split; [reflexivity|].
  set (s := cameraSettings v) in *.
  pose proof (maxDim_nonneg _ Hne) as Hdim.
  set (maxDim := maxDimOf (getSize (box lo hi))) in *.
  assert (0 <= finalDistance s wide maxDim) as Hpos.
  { unfold finalDistance.
    pose proof (modelScale_ge_1 s maxDim) as Hscale.
    pose proof (baseDistance_floor s wide maxDim) as Hfloor.
    assert (0 <= baseDistance s wide maxDim) as Hbase.
    { destruct Hs as [Hmin|Hmul]; [lra|].
      apply baseDistance_nonneg; assumption. }
    apply Qmult_le_0_compat; lra. }
  simpl in Hne. rewrite !orb_false_iff in Hne. destruct Hne as [[Hx Hy] Hz].
  apply Qgtb_false in Hx, Hy, Hz.
  unfold getCenter. cbn [isEmpty].
  assert (Qltb (v_x hi) (v_x lo) || Qltb (v_y hi) (v_y lo) || Qltb (v_z hi) (v_z lo)
          = false) as ->.
  { rewrite !orb_false_iff. unfold Qltb. rewrite !Qgtb_false. auto. }
  cbn [v_x v_y v_z].
  split; [repeat split; lra|].
  split; [nra|]. split; [nra|].
  intros Hoffset. nra.
Qed.

Lemma fitCameraToModels_camera_side_witness :
  let v' := fitCameraToModels true (cubeScene 100) in
  target (camera v') = getCenter (cube 100) /\
  v_x (target (camera v')) <= v_x (position (camera v')) /\
  v_y (target (camera v')) <= v_y (position (camera v')) /\
  v_z (target (camera v')) <= v_z (position (camera v')).
Proof.
  intros v'.
  destruct (fitCameraToModels_camera_side true (cubeScene 100)
              (mkVector3 0 0 0) (mkVector3 100 100 100))
    as (Haim & _ & Hx & Hz & Hy).
  - left. vm_compute. discriminate.
  - reflexivity.
  - split; [exact Haim|]. split; [exact Hx|]. split; [|exact Hz].
    apply Hy. vm_compute. discriminate.
Defined.

(** The camera after a close or far fit, in all cases. *)
Lemma fitCameraToModels_camera (wide : bool) (v : Viewer) :
  camera (fitCameraToModels wide v) =
  if snd (combineBoxes (loadedModels v)) then
    let combinedBox := fst (combineBoxes (loadedModels v)) in
    setLookAt
      (cameraPosition (cameraSettings v) wide (getCenter combinedBox)
         (maxDimOf (getSize combinedBox)))
      (getCenter combinedBox) (camera v)
  else camera v.
Proof.
  destruct (snd (combineBoxes (loadedModels v))) eqn:Hbox.
  - destruct (fitCameraToModels_effect wide v Hbox) as (Hcamera & _).
    exact Hcamera.
  - unfold fitCameraToModels.
    destruct (loadedModels v) as [|lm rest]; [reflexivity|].
    destruct (combineBoxes (lm :: rest)) as [cb hb].
    cbn [snd] in Hbox. subst hb. reflexivity.
Qed.

Lemma fitAllModelsToView_perspective (tanHalf : Q -> Q) (v : Viewer) :
  isPerspective (camera (fitAllModelsToView tanHalf v)) = isPerspective (camera v).
Proof.
  unfold fitAllModelsToView.
  destruct (loadedModels v) as [|lm rest]; [reflexivity|].
  destruct (collectBoxes (lm :: rest)) as [boxes warnings].
  destruct boxes as [|first others]; [reflexivity|].
  destruct (isEmpty (fold_left union others first)); [reflexivity|].
  viewer_fields. unfold ensureFarPlane.
  destruct (isPerspective (camera v)) eqn:Hp; viewer_fields.
  - destruct (Qltb _ _); viewer_fields; unfold setClipping;
      cbn [hasControls]; destruct (hasControls (camera v)); cbn [isPerspective];
      auto.
  - destruct (hasControls (camera v)); cbn [isPerspective]; auto.
Qed.

(** A settings update stores the settings, overwrites the clipping planes
    of a perspective camera with them (one update of the projection matrix)
    and re-fits with the close fit, never the far one.  In particular it
    puts the far plane back to the [farPlane] setting after
    [fitAllModelsToView] had raised it. *)
Theorem updateCameraSettings_applies (merged : CameraSettings) (v : Viewer) :
  isPerspective (camera v) = true ->
  let v' := updateCameraSettings merged v in
  cameraSettings v' = merged /\
  near (camera v') = nearPlane merged /\
  far (camera v') = farPlane merged /\
  projectionMatrixUpdates (camera v') = S (projectionMatrixUpdates (camera v)) /\
  position (camera v') =
    position (camera (fitCameraToModels false (withSettings merged v))) /\
  target (camera v') =
    target (camera (fitCameraToModels false (withSettings merged v))) /\
  (forall tanHalf : Q -> Q,
     far (camera (updateCameraSettings merged (fitAllModelsToView tanHalf v)))
     = farPlane merged).
Proof.
  intros Hp v'.
  assert (forall w : Viewer,
            isPerspective (camera w) = true ->
            updateCameraSettings merged w =
            fitCameraToModels false
              (logged [LogClippingPlanes (nearPlane merged) (farPlane merged)]
                 (withCamera
                    (setClipping (nearPlane merged) (farPlane merged) (camera w))
                    (withSettings merged w)))) as Hupdate.
  { intros w Hw. unfold updateCameraSettings. viewer_fields. rewrite Hw.
    reflexivity. }
  assert (forall w : Viewer,
            isPerspective (camera w) = true ->
            far (camera (updateCameraSettings merged w)) = farPlane merged) as Hfar.
  { intros w Hw. rewrite (Hupdate w Hw).
    destruct (fitCameraToModels_far_unchanged false
                (logged [LogClippingPlanes (nearPlane merged) (farPlane merged)]
                   (withCamera
                      (setClipping (nearPlane merged) (farPlane merged) (camera w))
                      (withSettings merged w)))) as [-> _].
    reflexivity. }
  subst v'.
  split.
  { rewrite (Hupdate v Hp). unfold fitCameraToModels. viewer_fields.
    destruct (loadedModels v); [reflexivity|].
    destruct (combineBoxes _) as [cb hb].
    destruct hb; cbn [negb]; unfold renderOnce; viewer_fields;
      [destruct (rendererAvailable v)|]; reflexivity. }
  split; [|split; [apply Hfar; exact Hp|]].
  { rewrite (Hupdate v Hp), fitCameraToModels_camera. viewer_fields.
    destruct (snd (combineBoxes (loadedModels v))); reflexivity. }
  split; [|split; [|split]].
  - rewrite (Hupdate v Hp), fitCameraToModels_camera. viewer_fields.
    destruct (snd (combineBoxes (loadedModels v))); reflexivity.
  - rewrite (Hupdate v Hp), !fitCameraToModels_camera. viewer_fields.
    destruct (snd (combineBoxes (loadedModels v))); reflexivity.
  - rewrite (Hupdate v Hp), !fitCameraToModels_camera. viewer_fields.
    destruct (snd (combineBoxes (loadedModels v))); reflexivity.
  - intros tanHalf. apply Hfar.
    rewrite fitAllModelsToView_perspective. exact Hp.
Qed.

Lemma updateCameraSettings_applies_witness :
  let v := cubeScene 1000000 in
  let fitted := fitAllModelsToView (fun _ => 0.5) v in
  50000 < far (camera fitted) /\
  far (camera (updateCameraSettings defaultCameraSettings fitted)) = 50000.
Proof.
  intros v fitted.
  destruct (updateCameraSettings_applies defaultCameraSettings v eq_refl)
    as (_ & _ & _ & _ & _ & _ & Hreset).
  split; [vm_compute; reflexivity|].
  apply Hreset.
Defined.

(** ** Preset views *)

(** When every model has an object, the preset loop collects the very boxes
    the close fit combines. *)
Lemma presetBoxes_combine (models : list LoadedModel) (boxes : list Box3) :
  presetBoxes models = Ok boxes ->
  forall acc : Box3 * bool,
    combineFrom acc models =
    (fold_left union boxes (fst acc),
     match boxes with [] => snd acc | _ => true end).
Proof.
  revert boxes. induction models as [|lm rest IH]; intros boxes Hb acc.
  - injection Hb as <-. destruct acc; reflexivity.
  - cbn [presetBoxes] in Hb.
    destruct (object (model lm)) as [o|] eqn:Ho; [|discriminate].
    destruct (presetBoxes rest) as [bs|]; [|discriminate].
    injection Hb as <-.
    unfold combineFrom in *. cbn [fold_left]. rewrite Ho. cbv zeta.
    destruct (isEmpty (bounds o)).
    + apply IH. reflexivity.
    + rewrite (IH bs eq_refl). cbn [fst snd fold_left].
      destruct bs; reflexivity.
Qed.

Lemma presetBoxes_throws (models : list LoadedModel) :
  presetBoxes models = Throws <->
  exists lm, In lm models /\ object (model lm) = None.
Proof.
  induction models as [|lm rest IH]; cbn [presetBoxes].
  - split; [discriminate | intros (lm & [] & _)].
  - destruct (object (model lm)) as [o|] eqn:Ho.
    + destruct (presetBoxes rest) as [bs|].
      * split; [discriminate|].
        intros (lm' & [<-|Hin] & Hnone); [congruence|].
        assert (@Ok (list Box3) bs = Throws) as Habs
          by (apply IH; exists lm'; auto).
        discriminate.
      * split; [|reflexivity]. intros _.
        destruct (proj1 IH eq_refl) as (lm' & Hin & Hnone).
        exists lm'. split; [right; exact Hin | exact Hnone].
    + split; [|reflexivity]. intros _. exists lm. split; [left; reflexivity | exact Ho].
Qed.

(** A preset view, when every loaded model has an object and some model has
    bounds that are not empty: the camera (when it has controls) looks at
    the centre of the combined box, the point the close and far fit aim at,
    from [2 * maxDim] away along the axis of the view (y for the top view, z
    for the front view, x for the side view) or from [1.4 * maxDim] away
    along all three axes for the isometric view; clipping planes, settings
    and models are left alone. *)
Theorem setCameraPreset_places_camera (view : View) (v : Viewer) :
  hasControls (camera v) = true ->
  (forall lm, In lm (loadedModels v) -> object (model lm) <> None) ->
  snd (combineBoxes (loadedModels v)) = true ->
  let v' := fst (setCameraPreset view v) in
  let combinedBox := fst (combineBoxes (loadedModels v)) in
  let center := getCenter combinedBox in
  let maxDim := maxDimOf (getSize combinedBox) in
  snd (setCameraPreset view v) = PresetSet /\
  target (camera v') = center /\
  target (camera v') = target (camera (fitCameraToModels false v)) /\
  position (camera v') =
    match view with
    | top => mkVector3 (v_x center) (v_y center + maxDim * 2) (v_z center)
    | front => mkVector3 (v_x center) (v_y center) (v_z center + maxDim * 2)
    | side => mkVector3 (v_x center + maxDim * 2) (v_y center) (v_z center)
    | isometric =>
        mkVector3 (v_x center + maxDim * 2 * 0.7) (v_y center + maxDim * 2 * 0.7)
                  (v_z center + maxDim * 2 * 0.7)
    end /\
  near (camera v') = near (camera v) /\ far (camera v') = far (camera v) /\
  loadedModels v' = loadedModels v /\ cameraSettings v' = cameraSettings v.
Proof.
  intros Hcontrols Hobjects Hbox v' combinedBox center maxDim.
  destruct (presetBoxes (loadedModels v)) as [boxes|] eqn:Hboxes.
  2:{ apply presetBoxes_throws in Hboxes. destruct Hboxes as (lm & Hin & Hnone).
      exfalso. eapply Hobjects; eassumption. }
  pose proof (presetBoxes_combine _ _ Hboxes (emptyBox, false)) as Hcombine.
  change (combineFrom (emptyBox, false) (loadedModels v))
    with (combineBoxes (loadedModels v)) in Hcombine.
  cbn [fst snd] in Hcombine.
  destruct boxes as [|first others].
  { rewrite Hcombine in Hbox. discriminate. }
  assert (fst (combineBoxes (loadedModels v)) = fold_left union others first)
    as Hcb by (rewrite Hcombine; reflexivity).
  subst v' combinedBox center maxDim.
  rewrite fitCameraToModels_camera, Hbox. cbv zeta. rewrite Hcb.
  unfold setCameraPreset. rewrite Hboxes.
  destruct (loadedModels v) as [|lm rest] eqn:Hlm; [discriminate|].
  cbv zeta. rewrite Hcontrols. cbn [fst snd]. viewer_fields.
  unfold setLookAt. cbn [target position near far].
  rewrite Hlm.
  repeat split.
Qed.

Lemma setCameraPreset_places_camera_witness :
  let v' := fst (setCameraPreset top (cubeScene 100)) in
  veq (position (camera v')) (mkVector3 50 250 50) /\
  veq (target (camera v')) (mkVector3 50 50 50).
Proof.
  intros v'.
  destruct (setCameraPreset_places_camera top (cubeScene 100))
    as (_ & Htarget & _ & Hposition & _).
  - reflexivity.
  - intros lm [<-|[]]. discriminate.
  - reflexivity.
  - fold v' in Htarget, Hposition. rewrite Htarget, Hposition.
    split; repeat split.
Defined.

(** A single loaded model without object makes every preset view fail in
    its [catch], the camera staying where it was even when other models
    have bounds; the close and far fit skip such a model and frame the
    others. *)
Theorem setCameraPreset_fails_on_missing_object (view : View) (v : Viewer)
    (lm : LoadedModel) :
  In lm (loadedModels v) ->
  object (model lm) = None ->
  setCameraPreset view v = (v, PresetFailed) /\
  (forall wide : bool,
     snd (combineBoxes (loadedModels v)) = true ->
     target (camera (fitCameraToModels wide v)) =
     getCenter (fst (combineBoxes (loadedModels v)))).
Proof.
  intros Hin Hnone. split.
  - unfold setCameraPreset.
    destruct (loadedModels v) as [|lm0 rest] eqn:Hlm; [destruct Hin|].
    assert (presetBoxes (lm0 :: rest) = Throws) as ->; [|reflexivity].
    apply presetBoxes_throws. exists lm. auto.
  - intros wide Hbox. rewrite fitCameraToModels_camera, Hbox. reflexivity.
Qed.

Lemma setCameraPreset_fails_on_missing_object_witness :
  let v := viewerWith defaultCameraSettings
             [mkLoaded (plainModel "a.frag" (cube 100)) "a.frag";
              mkLoaded (bareModel "b.frag") "b.frag"] in
  setCameraPreset side v = (v, PresetFailed) /\
  target (camera (fitCameraToModels false v)) = getCenter (cube 100).
Proof.
  intros v.
  destruct (setCameraPreset_fails_on_missing_object side v
              (mkLoaded (bareModel "b.frag") "b.frag")) as [Hfail Hfit].
  - right. left. reflexivity.
  - reflexivity.
  - split; [exact Hfail|]. apply (Hfit false). reflexivity.
Defined.

(** ** Model readiness, at any poll *)

Lemma mergedBoxCheck_quiet (m : Model) (e : Z) :
  geometryPresent m = false ->
  forall ev, In ev (mergedBoxCheck m e) -> ev = WarnReadinessError.
Proof.
  intros Hgeo. pose proof (mergedBoxCheck_not_present m e Hgeo) as Hno.
  unfold mergedBoxCheck in *.
  destruct (boundingBoxes m) as [[[b|]| |]|]; cbn [In] in *; try tauto.
  - destruct (isEmpty b); cbn [In] in *; tauto.
  - intros ev [<-|[]]. reflexivity.
Qed.

Lemma checkReady_first_ready (env : WaitEnv) (maxWaitTime : Z) (k : nat) :
  forall (i fuel : nat),
    (forall j, (i <= j < i + k)%nat -> geometryPresent (handle env j) = false) ->
    hasValidGeometry (handle env (i + k)) = true ->
    (forall j, (i <= j <= i + k)%nat ->
               (clock env j - startTime env <= maxWaitTime)%Z) ->
    (k < fuel)%nat ->
    snd (checkReady env maxWaitTime fuel i) = true /\
    exists before : list ReadyEvent,
      fst (checkReady env maxWaitTime fuel i) =
        before ++
        [Poll (clock env (i + k) - startTime env);
         LogGeometryReady (clock env (i + k) - startTime env); Resolve] /\
      ~ In Resolve before /\
      (forall w, ~ In (WarnTimedOut w) before) /\
      length (List.filter isPoll before) = k.
Proof.
  induction k as [|k IH]; intros i fuel Hquiet Hready Hclock Hfuel;
    (destruct fuel as [|fuel]; [lia|]);
    rewrite checkReady_step; cbv zeta.
  - rewrite Nat.add_0_r in *.
    pose proof (Hclock i ltac:(lia)) as Hi.
    destruct (Z.gtb_spec (clock env i - startTime env) maxWaitTime); [lia|].
    rewrite Hready. split; [reflexivity|].
    exists []. cbn [app In List.filter length]. repeat split; tauto.
  - pose proof (Hclock i ltac:(lia)) as Hi.
    destruct (Z.gtb_spec (clock env i - startTime env) maxWaitTime); [lia|].
    pose proof (Hquiet i ltac:(lia)) as Hgeo.
    assert (hasValidGeometry (handle env i) = false) as ->.
    { unfold geometryPresent in Hgeo. apply orb_false_iff in Hgeo. tauto. }
    destruct (IH (S i) fuel) as (Hend & before & Htrace & Hres & Hwarn & Hpolls).
    + intros j Hj. apply Hquiet. lia.
    + replace (S i + k)%nat with (i + S k)%nat by lia. exact Hready.
    + intros j Hj. apply Hclock. lia.
    + lia.
    + cbn [fst snd]. split; [exact Hend|].
      replace (S i + k)%nat with (i + S k)%nat in Htrace by lia.
      rewrite Htrace.
      pose proof (mergedBoxCheck_quiet _ (clock env i - startTime env) Hgeo) as Hmb.
      exists (Poll (clock env i - startTime env)
                :: mergedBoxCheck (handle env i) (clock env i - startTime env)
                ++ before).
      split; [cbn [app]; rewrite List.app_assoc; reflexivity|].
      split; [|split].
      * intros [Hin|Hin]; [discriminate|].
        apply in_app_or in Hin. destruct Hin as [Hin|Hin]; [|tauto].
        apply Hmb in Hin. discriminate.
      * intros w [Hin|Hin]; [discriminate|].
        apply in_app_or in Hin. destruct Hin as [Hin|Hin]; [|eapply Hwarn; eauto].
        apply Hmb in Hin. discriminate.
      * cbn [List.filter isPoll]. rewrite List.filter_app, length_cons, length_app.
        assert (length (List.filter isPoll
                  (mergedBoxCheck (handle env i) (clock env i - startTime env)))
                = 0%nat) as ->.
        { assert (forall l, (forall ev, In ev l -> ev = WarnReadinessError) ->
                            length (List.filter isPoll l) = 0%nat) as Hzero.
          { induction l as [|ev l IHl]; intros Hl; [reflexivity|].
            rewrite (Hl ev (or_introl eq_refl)). cbn [List.filter isPoll].
            apply IHl. intros ev' Hin'. apply Hl. right. exact Hin'. }
          apply Hzero. exact Hmb. }
        lia.
Qed.

(** The first successful check ends the wait.  If the polls before the
    [k]-th find no geometry, the [k]-th finds a mesh with positions, and the
    elapsed time stays within [maxWaitTime] up to that poll, then the
    promise is settled in the [k]-th poll, after exactly [k + 1] polls, with
    the ready line carrying the elapsed time of that poll and without any
    time-out warning; no timer is left armed.  This holds whatever the pace
    of the timers. *)
Theorem waitForModelReady_first_ready (env : WaitEnv) (maxWaitTime : Z)
    (k fuel : nat) :
  (forall j, (j < k)%nat -> geometryPresent (handle env j) = false) ->
  hasValidGeometry (handle env k) = true ->
  (forall j, (j <= k)%nat -> (clock env j - startTime env <= maxWaitTime)%Z) ->
  (k < fuel)%nat ->
  let trace := fst (waitForModelReady env maxWaitTime fuel) in
  let e := (clock env k - startTime env)%Z in
  snd (waitForModelReady env maxWaitTime fuel) = true /\
  (exists before : list ReadyEvent,
     trace = before ++ [Poll e; LogGeometryReady e; Resolve] /\
     ~ In Resolve before /\
     (forall w, ~ In (WarnTimedOut w) before)) /\
  length (List.filter isPoll trace) = S k.
Proof.
  intros Hquiet Hready Hclock Hfuel trace e.
  destruct (checkReady_first_ready env maxWaitTime k 0 fuel)
    as (Hend & before & Htrace & Hres & Hwarn & Hpolls); auto.
  - intros j Hj. apply Hquiet. lia.
  - intros j Hj. apply Hclock. lia.
  - split; [exact Hend|].
    subst trace e. unfold waitForModelReady. cbn [Nat.add] in Htrace.
    split.
    + exists before. auto.
    + rewrite Htrace, List.filter_app, length_app, Hpolls.
      cbn [List.filter isPoll length]. lia.
Qed.

Lemma waitForModelReady_first_ready_witness :
  let trace := fst (waitForModelReady lateEnv defaultMaxWaitTime 10) in
  length (List.filter isPoll trace) = 4%nat /\
  exists before : list ReadyEvent,
    trace = before ++ [Poll 186; LogGeometryReady 186; Resolve] /\
    ~ In Resolve before.
Proof.
  intros trace.
  destruct (waitForModelReady_first_ready lateEnv defaultMaxWaitTime 3 10)
    as (_ & (before & Htrace & Hres & _) & Hpolls).
  - intros j Hj. destruct j as [|[|[|j]]]; try reflexivity. lia.
  - reflexivity.
  - intros j Hj. destruct j as [|[|[|[|j]]]]; try (vm_compute; discriminate). lia.
  - lia.
  - split; [exact Hpolls|]. exists before. auto.
Defined.

(** ** Show all and hide all *)

Lemma setVisible_fields (m : Model) (itemIds : list Z) (visible : bool) :
  modelId (Fragments.setVisible m itemIds visible) = modelId m /\
  setVisible (Fragments.setVisible m itemIds visible) = setVisible m /\
  hiddenItems (Fragments.setVisible m itemIds visible) =
    if visible then hiddenItems m ∖ list_to_set itemIds
    else hiddenItems m ∪ list_to_set itemIds.
Proof. unfold Fragments.setVisible. destruct visible; auto. Qed.

Lemma Forall2_In_r {A B : Type} (R : A -> B -> Prop) (l : list A) (l' : list B)
    (y : B) :
  Forall2 R l l' -> In y l' -> exists x, In x l /\ R x y.
Proof.
  induction 1 as [|x y' l l' HR _ IH]; intros Hin; [destruct Hin|].
  destruct Hin as [<-|Hin].
  - exists x. split; [left; reflexivity | exact HR].
  - destruct (IH Hin) as (x' & Hx' & HR'). exists x'. split; [right|]; assumption.
Qed.

(** One round of the loop of [showAllElements] on a model whose
    [getItemsByVisibility] does not throw. *)
Lemma showAllLoop_step (itemsOf : string -> option (outcome (gset Z)))
    (lm : LoadedModel) (rest : list LoadedModel) :
  itemsOf (modelId (model lm)) <> Some Throws ->
  exists lm' line,
    shownBy itemsOf lm lm' /\
    showAllLoop itemsOf (lm :: rest) =
      (lm' :: fst (fst (showAllLoop itemsOf rest)),
       line :: snd (fst (showAllLoop itemsOf rest)),
       snd (showAllLoop itemsOf rest)).
Proof.
  intros Hlm. cbn [showAllLoop]. unfold shownBy.
  destruct (showAllLoop itemsOf rest) as [[rest' lines] threw]. cbn [fst snd].
  destruct (itemsOf (modelId (model lm))) as [[items|]|] eqn:Hitems;
    [|congruence|].
  - destruct (setVisible (model lm)) eqn:Hset.
    + cbv zeta. unfold getItemsByVisibility.
      destruct (elements (items ∩ hiddenItems (model lm))) as [|id ids] eqn:Hel.
      * exists lm, BulkNoHiddenItems. repeat split; try exact Hset.
        apply elements_empty_inv in Hel. apply leibniz_equiv in Hel.
        clear - Hel. set_solver.
      * eexists _, _. split; [|reflexivity]. cbn [model fileName].
        destruct (setVisible_fields (model lm) (id :: ids) true) as (-> & -> & ->).
        repeat split; try exact Hset.
        rewrite <- Hel, list_to_set_elements_L. clear. set_solver.
    + exists lm, BulkUnsupported. auto.
  - exists lm, BulkUnsupported. auto.
Qed.

(** One round of the loop of [hideAllElements]. *)
Lemma hideAllLoop_step (itemsOf : string -> option (outcome (gset Z)))
    (lm : LoadedModel) (rest : list LoadedModel) :
  itemsOf (modelId (model lm)) <> Some Throws ->
  exists lm' line,
    hiddenBy itemsOf lm lm' /\
    hideAllLoop itemsOf (lm :: rest) =
      (lm' :: fst (fst (hideAllLoop itemsOf rest)),
       line ++ snd (fst (hideAllLoop itemsOf rest)),
       snd (hideAllLoop itemsOf rest)).
Proof.
  intros Hlm. cbn [hideAllLoop]. unfold hiddenBy.
  destruct (hideAllLoop itemsOf rest) as [[rest' lines] threw]. cbn [fst snd].
  destruct (itemsOf (modelId (model lm))) as [[items|]|] eqn:Hitems;
    [|congruence|].
  - destruct (setVisible (model lm)) eqn:Hset.
    + cbv zeta. unfold getItemsByVisibility.
      destruct (elements (items ∖ hiddenItems (model lm))) as [|id ids] eqn:Hel.
      * exists lm, []. repeat split; try exact Hset.
        apply elements_empty_inv in Hel. apply leibniz_equiv in Hel.
        clear - Hel. apply set_eq. intros x.
        destruct (decide (x ∈ hiddenItems (model lm))); set_solver.
      * eexists _, _. split; [|reflexivity]. cbn [model fileName].
        destruct (setVisible_fields (model lm) (id :: ids) false) as (-> & -> & ->).
        repeat split; try exact Hset.
        rewrite <- Hel, list_to_set_elements_L.
        clear. apply set_eq. intros x.
        destruct (decide (x ∈ hiddenItems (model lm))); set_solver.
    + exists lm, [BulkUnsupported]. auto.
  - exists lm, [BulkUnsupported]. auto.
Qed.

Lemma showAllLoop_spec (itemsOf : string -> option (outcome (gset Z)))
    (models : list LoadedModel) :
  (forall lm, In lm models -> itemsOf (modelId (model lm)) <> Some Throws) ->
  snd (showAllLoop itemsOf models) = false /\
  Forall2 (shownBy itemsOf) models (fst (fst (showAllLoop itemsOf models))).
Proof.
  induction models as [|lm rest IH]; intros Hok.
  - split; [reflexivity | constructor].
  - destruct IH as [Hthrew Hall];
      [intros lm' Hin; apply Hok; right; exact Hin|].
    destruct (showAllLoop_step itemsOf lm rest (Hok lm (or_introl eq_refl)))
      as (lm' & line & Hshown & ->).
    cbn [fst snd]. split; [exact Hthrew|]. constructor; assumption.
Qed.

Lemma hideAllLoop_spec (itemsOf : string -> option (outcome (gset Z)))
    (models : list LoadedModel) :
  (forall lm, In lm models -> itemsOf (modelId (model lm)) <> Some Throws) ->
  snd (hideAllLoop itemsOf models) = false /\
  Forall2 (hiddenBy itemsOf) models (fst (fst (hideAllLoop itemsOf models))).
Proof.
  induction models as [|lm rest IH]; intros Hok.
  - split; [reflexivity | constructor].
  - destruct IH as [Hthrew Hall];
      [intros lm' Hin; apply Hok; right; exact Hin|].
    destruct (hideAllLoop_step itemsOf lm rest (Hok lm (or_introl eq_refl)))
      as (lm' & line & Hhidden & ->).
    cbn [fst snd]. split; [exact Hthrew|]. constructor; assumption.
Qed.

(** The state after a loop that went through. *)
Lemma afterBulk_through (v : Viewer) (models : list LoadedModel)
    (lines : list BulkLine) :
  loadedModels (fst (afterBulk v (models, lines, false))) = models /\
  hiddenCategories (fst (afterBulk v (models, lines, false))) = hiddenCategories v.
Proof.
  cbn [afterBulk fst].
  destruct (forceRenderUpdate_fields (withModels models v)) as (-> & -> & _).
  split; reflexivity.
Qed.

Lemma showAllElements_models (itemsOf : string -> option (outcome (gset Z)))
    (v : Viewer) :
  (forall lm, In lm (loadedModels v) -> itemsOf (modelId (model lm)) <> Some Throws) ->
  Forall2 (shownBy itemsOf) (loadedModels v)
    (loadedModels (fst (showAllElements itemsOf v))) /\
  hiddenCategories (fst (showAllElements itemsOf v)) = hiddenCategories v.
Proof.
  intros Hok. unfold showAllElements.
  destruct (showAllLoop_spec itemsOf (loadedModels v) Hok) as [Hthrew Hall].
  destruct (loadedModels v) as [|lm rest] eqn:Hmodels.
  - cbn [fst]. rewrite Hmodels. split; [constructor | reflexivity].
  - destruct (showAllLoop itemsOf (lm :: rest)) as [[models lines] threw].
    cbn [fst snd] in Hthrew, Hall. subst threw.
    destruct (afterBulk_through v models lines) as [-> ->]. auto.
Qed.

Lemma hideAllElements_models (itemsOf : string -> option (outcome (gset Z)))
    (v : Viewer) :
  (forall lm, In lm (loadedModels v) -> itemsOf (modelId (model lm)) <> Some Throws) ->
  Forall2 (hiddenBy itemsOf) (loadedModels v)
    (loadedModels (fst (hideAllElements itemsOf v))) /\
  hiddenCategories (fst (hideAllElements itemsOf v)) = hiddenCategories v.
Proof.
  intros Hok. unfold hideAllElements.
  destruct (hideAllLoop_spec itemsOf (loadedModels v) Hok) as [Hthrew Hall].
  destruct (loadedModels v) as [|lm rest] eqn:Hmodels.
  - cbn [fst]. rewrite Hmodels. split; [constructor | reflexivity].
  - destruct (hideAllLoop itemsOf (lm :: rest)) as [[models lines] threw].
    cbn [fst snd] in Hthrew, Hall. subst threw.
    destruct (afterBulk_through v models lines) as [-> ->]. auto.
Qed.

(** When no model's [getItemsByVisibility] throws, [showAllElements] takes
    the items each capable model reports out of its hidden ones and leaves
    the other models as they are; afterwards every reported item of every
    capable model is visible.  The registry of hidden categories is not
    touched. *)
Theorem showAllElements_reveals_all
    (itemsOf : string -> option (outcome (gset Z))) (v : Viewer) :
  (forall lm, In lm (loadedModels v) -> itemsOf (modelId (model lm)) <> Some Throws) ->
  let v' := fst (showAllElements itemsOf v) in
  Forall2 (shownBy itemsOf) (loadedModels v) (loadedModels v') /\
  hiddenCategories v' = hiddenCategories v /\
  (forall (lm' : LoadedModel) (items : gset Z) (id : Z),
     In lm' (loadedModels v') ->
     itemsOf (modelId (model lm')) = Some (Ok items) ->
     setVisible (model lm') = true ->
     id ∈ items ->
     Fragments.isVisible (model lm') id = true).
Proof.
  intros Hok v'. subst v'.
  destruct (showAllElements_models itemsOf v Hok) as [Hall Hreg].
  split; [exact Hall|]. split; [exact Hreg|].
  intros lm' items id Hin Hitems Hset Hid.
  destruct (Forall2_In_r _ _ _ _ Hall Hin) as (lm & _ & _ & Hmid & Hsv & Hhidden).
  rewrite <- Hmid, Hitems, <- Hsv, Hset in Hhidden.
  unfold Fragments.isVisible. apply bool_decide_eq_true.
  rewrite Hhidden. clear - Hid. set_solver.
Qed.

Lemma showAllElements_reveals_all_witness :
  let v' := fst (showAllElements houseItems partlyHiddenScene) in
  Forall2 (shownBy houseItems) (loadedModels partlyHiddenScene) (loadedModels v') /\
  hiddenCategories v' = hiddenCategories partlyHiddenScene /\
  (forall (lm' : LoadedModel) (items : gset Z) (id : Z),
     In lm' (loadedModels v') ->
     houseItems (modelId (model lm')) = Some (Ok items) ->
     setVisible (model lm') = true ->
     id ∈ items ->
     Fragments.isVisible (model lm') id = true).
Proof.
  apply (showAllElements_reveals_all houseItems partlyHiddenScene).
  intros lm [<-|[<-|[]]]; discriminate.
Defined.

(** When no model's [getItemsByVisibility] throws, [hideAllElements] adds
    the items each capable model reports to its hidden ones and leaves the
    other models as they are; afterwards every reported item of every
    capable model is hidden.  The registry of hidden categories is not
    touched. *)
Theorem hideAllElements_hides_all
    (itemsOf : string -> option (outcome (gset Z))) (v : Viewer) :
  (forall lm, In lm (loadedModels v) -> itemsOf (modelId (model lm)) <> Some Throws) ->
  let v' := fst (hideAllElements itemsOf v) in
  Forall2 (hiddenBy itemsOf) (loadedModels v) (loadedModels v') /\
  hiddenCategories v' = hiddenCategories v /\
  (forall (lm' : LoadedModel) (items : gset Z) (id : Z),
     In lm' (loadedModels v') ->
     itemsOf (modelId (model lm')) = Some (Ok items) ->
     setVisible (model lm') = true ->
     id ∈ items ->
     Fragments.isVisible (model lm') id = false).
Proof.
  intros Hok v'. subst v'.
  destruct (hideAllElements_models itemsOf v Hok) as [Hall Hreg].
  split; [exact Hall|]. split; [exact Hreg|].
  intros lm' items id Hin Hitems Hset Hid.
  destruct (Forall2_In_r _ _ _ _ Hall Hin) as (lm & _ & _ & Hmid & Hsv & Hhidden).
  rewrite <- Hmid, Hitems, <- Hsv, Hset in Hhidden.
  unfold Fragments.isVisible. apply bool_decide_eq_false.
  rewrite Hhidden. clear - Hid. set_solver.
Qed.

Lemma hideAllElements_hides_all_witness :
  let v' := fst (hideAllElements houseItems partlyHiddenScene) in
  Forall2 (hiddenBy houseItems) (loadedModels partlyHiddenScene) (loadedModels v') /\
  hiddenCategories v' = hiddenCategories partlyHiddenScene /\
  (forall (lm' : LoadedModel) (items : gset Z) (id : Z),
     In lm' (loadedModels v') ->
     houseItems (modelId (model lm')) = Some (Ok items) ->
     setVisible (model lm') = true ->
     id ∈ items ->
     Fragments.isVisible (model lm') id = false).
Proof.
  apply (hideAllElements_hides_all houseItems partlyHiddenScene).
  intros lm [<-|[<-|[]]]; discriminate.
Defined.

(** A loop that meets a throwing [getItemsByVisibility]: the models before
    it are done, the rest stays. *)
Lemma showAllLoop_throw (itemsOf : string -> option (outcome (gset Z)))
    (pre : list LoadedModel) (lm : LoadedModel) (post : list LoadedModel) :
  (forall p, In p pre -> itemsOf (modelId (model p)) <> Some Throws) ->
  itemsOf (modelId (model lm)) = Some Throws ->
  setVisible (model lm) = true ->
  exists pre' lines,
    showAllLoop itemsOf (pre ++ lm :: post) = (pre' ++ lm :: post, lines, true) /\
    Forall2 (shownBy itemsOf) pre pre'.
Proof.
  intros Hok Hthrows Hset. induction pre as [|p pre IH].
  - exists [], []. cbn [app showAllLoop]. rewrite Hthrows, Hset.
    split; [reflexivity | constructor].
  - destruct IH as (pre' & lines & Hloop & Hall);
      [intros q Hq; apply Hok; right; exact Hq|].
    destruct (showAllLoop_step itemsOf p (pre ++ lm :: post)
                (Hok p (or_introl eq_refl))) as (p' & line & Hshown & Hstep).
    exists (p' :: pre'), (line :: lines).
    rewrite <- app_comm_cons, Hstep, Hloop. cbn [fst snd].
    split; [reflexivity | constructor; assumption].
Qed.

Lemma hideAllLoop_throw (itemsOf : string -> option (outcome (gset Z)))
    (pre : list LoadedModel) (lm : LoadedModel) (post : list LoadedModel) :
  (forall p, In p pre -> itemsOf (modelId (model p)) <> Some Throws) ->
  itemsOf (modelId (model lm)) = Some Throws ->
  setVisible (model lm) = true ->
  exists pre' lines,
    hideAllLoop itemsOf (pre ++ lm :: post) = (pre' ++ lm :: post, lines, true) /\
    Forall2 (hiddenBy itemsOf) pre pre'.
Proof.
  intros Hok Hthrows Hset. induction pre as [|p pre IH].
  - exists [], []. cbn [app hideAllLoop]. rewrite Hthrows, Hset.
    split; [reflexivity | constructor].
  - destruct IH as (pre' & lines & Hloop & Hall);
      [intros q Hq; apply Hok; right; exact Hq|].
    destruct (hideAllLoop_step itemsOf p (pre ++ lm :: post)
                (Hok p (or_introl eq_refl))) as (p' & line & Hhidden & Hstep).
    exists (p' :: pre'), (line ++ lines).
    rewrite <- app_comm_cons, Hstep, Hloop. cbn [fst snd].
    split; [reflexivity | constructor; assumption].
Qed.

(** The state and the lines after a loop that threw. *)
Lemma afterBulk_threw (v : Viewer) (models : list LoadedModel)
    (lines : list BulkLine) :
  loadedModels (fst (afterBulk v (models, lines, true))) = models /\
  renders (fst (afterBulk v (models, lines, true))) = renders v /\
  console (fst (afterBulk v (models, lines, true))) = console v /\
  last (snd (afterBulk v (models, lines, true))) = Some BulkFailed.
Proof.
  cbn [afterBulk fst snd]. repeat split.
  rewrite app_comm_cons. apply last_snoc.
Qed.

(** When the [getItemsByVisibility] of a model with [setVisible] throws,
    show all and hide all stop there: the models before it have been shown
    (hidden), that model and the ones after it are as they were, no render
    is forced, and the last line is the error. *)
Theorem bulk_visibility_stops_at_throw
    (itemsOf : string -> option (outcome (gset Z))) (v : Viewer)
    (pre : list LoadedModel) (lm : LoadedModel) (post : list LoadedModel) :
  loadedModels v = pre ++ lm :: post ->
  (forall p, In p pre -> itemsOf (modelId (model p)) <> Some Throws) ->
  itemsOf (modelId (model lm)) = Some Throws ->
  setVisible (model lm) = true ->
  let shown := showAllElements itemsOf v in
  let hidden := hideAllElements itemsOf v in
  (exists pre', loadedModels (fst shown) = pre' ++ lm :: post /\
                Forall2 (shownBy itemsOf) pre pre') /\
  renders (fst shown) = renders v /\
  last (snd shown) = Some BulkFailed /\
  (exists pre', loadedModels (fst hidden) = pre' ++ lm :: post /\
                Forall2 (hiddenBy itemsOf) pre pre') /\
  renders (fst hidden) = renders v /\
  last (snd hidden) = Some BulkFailed.
Proof.
  intros Hmodels Hok Hthrows Hset shown hidden. subst shown hidden.
  destruct (showAllLoop_throw itemsOf pre lm post Hok Hthrows Hset)
    as (pre1 & lines1 & Hshow & Hall1).
  destruct (hideAllLoop_throw itemsOf pre lm post Hok Hthrows Hset)
    as (pre2 & lines2 & Hhide & Hall2).
  assert (showAllElements itemsOf v =
          afterBulk v (pre1 ++ lm :: post, lines1, true)) as ->.
  { unfold showAllElements. rewrite Hmodels, <- Hshow.
    destruct (pre ++ lm :: post) eqn:Hl; [|reflexivity].
    destruct pre; discriminate. }
  assert (hideAllElements itemsOf v =
          afterBulk v (pre2 ++ lm :: post, lines2, true)) as ->.
  { unfold hideAllElements. rewrite Hmodels, <- Hhide.
    destruct (pre ++ lm :: post) eqn:Hl; [|reflexivity].
    destruct pre; discriminate. }
  destruct (afterBulk_threw v (pre1 ++ lm :: post) lines1) as (-> & -> & _ & ->).
  destruct (afterBulk_threw v (pre2 ++ lm :: post) lines2) as (-> & -> & _ & ->).
  repeat split; eauto.
Qed.

Lemma bulk_visibility_stops_at_throw_witness :
  let broken := mkLoaded (namedModel "broken.frag") "broken.frag" in
  let v := withModels (loadedModels partlyHiddenScene ++ [broken; broken])
             partlyHiddenScene in
  (exists pre', loadedModels (fst (showAllElements brokenItems v)) =
                  pre' ++ [broken; broken] /\
                Forall2 (shownBy brokenItems) (loadedModels partlyHiddenScene) pre') /\
  renders (fst (showAllElements brokenItems v)) = 0%nat /\
  last (snd (showAllElements brokenItems v)) = Some BulkFailed.
Proof.
  intros broken v.
  destruct (bulk_visibility_stops_at_throw brokenItems v
              (loadedModels partlyHiddenScene) broken [broken])
    as (Hmodels & Hrenders & Hlast & _).
  - reflexivity.
  - intros p [<-|[<-|[]]]; discriminate.
  - reflexivity.
  - reflexivity.
  - split; [exact Hmodels|]. split; [exact Hrenders | exact Hlast].
Defined.

(** ** What a toggle does to the items *)

Lemma hiderSet_spec (visible : bool) (result : gmap string (gset Z))
    (models : list LoadedModel) :
  Forall2 (setBy visible result) models (hiderSet visible result models).
Proof.
  induction models as [|lm rest IH]; [constructor|].
  cbn [hiderSet map]. constructor; [|exact IH].
  unfold setBy. cbv zeta.
  destruct (result !! modelId (model lm)) as [itemIds|];
    cbn [default from_option id model fileName].
  - destruct (setVisible_fields (model lm) (elements itemIds) visible)
      as (-> & _ & ->).
    rewrite list_to_set_elements_L. auto.
  - repeat split. destruct visible; clear; set_solver.
Qed.

(** A toggle that finds items (and whose hider does not throw) sets the
    items found for each loaded model to the state the registry dictates,
    whatever their visibility was: all hidden when the category was recorded
    as shown, all shown when it was recorded as hidden.  Items not found and
    models not in the result are left as they are. *)
Theorem toggleCategoryVisibility_sets_found_items (cmp : Components)
    (category : string) (v : Viewer) (result : gmap string (gset Z)) :
  loadedModels v <> [] ->
  classifierFind cmp category = Ok result ->
  (0 < totalItemsOf result)%nat ->
  hiderThrows cmp (categoryCurrentlyHidden v category) result = false ->
  Forall2 (setBy (categoryCurrentlyHidden v category) result)
    (loadedModels v)
    (loadedModels (snd (toggleCategoryVisibility cmp category v))).
Proof.
  intros Hmodels Hfind Htotal Hhider.
  rewrite (toggle_primary cmp category v result Hmodels Hfind Htotal Hhider).
  cbn [snd].
  match goal with
  | |- context [forceRenderUpdate ?w] =>
      destruct (forceRenderUpdate_fields w) as (_ & -> & _)
  end.
  viewer_fields. apply hiderSet_spec.
Qed.

Lemma toggleCategoryVisibility_sets_found_items_witness :
  Forall2 (setBy false {[ "house.frag"%string := wallIds ]})
    (loadedModels partlyHiddenScene)
    (loadedModels (snd (toggleCategoryVisibility wallComponents "IFCWALL"
                          partlyHiddenScene))).
Proof.
  apply (toggleCategoryVisibility_sets_found_items wallComponents "IFCWALL"
           partlyHiddenScene {[ "house.frag"%string := wallIds ]}).
  - discriminate.
  - reflexivity.
  - vm_compute. lia.
  - reflexivity.
Defined.



(** ** Fit all: where the camera ends up *)

(** The camera after a fit-all that gets to place it. *)
Lemma fitAllModelsToView_camera (tanHalf : Q -> Q) (v : Viewer)
    (first : Box3) (others : list Box3) (warnings : list LogEntry) :
  loadedModels v <> [] ->
  collectBoxes (loadedModels v) = (first :: others, warnings) ->
  isEmpty (fold_left union others first) = false ->
  hasControls (camera v) = true ->
  let combinedBox := fold_left union others first in
  let center := getCenter combinedBox in
  let maxDim := maxDimOf (getSize combinedBox) in
  let distance := fitAllDistance tanHalf (camera v) maxDim in
  let offsetMultiplier := Qmax 1.0 (distance / maxDim) in
  target (camera (fitAllModelsToView tanHalf v)) = center /\
  position (camera (fitAllModelsToView tanHalf v)) =
    mkVector3 (v_x center + distance * 0.7 * offsetMultiplier)
              (v_y center + distance * 0.8 * offsetMultiplier)
              (v_z center + distance * 0.7 * offsetMultiplier).
Proof.
  intros Hmodels Hboxes Hne Hctl combinedBox center maxDim distance offsetMultiplier.
  unfold fitAllModelsToView.
  destruct (loadedModels v) as [|lm rest] eqn:Hlm; [congruence|].
  rewrite Hboxes. viewer_fields. rewrite Hne.
  fold combinedBox. fold center. fold maxDim. fold distance. fold offsetMultiplier.
  assert (hasControls (fst (ensureFarPlane (cameraSettings v) distance maxDim (camera v)))
          = true) as Hctl'.
  { unfold ensureFarPlane.
    destruct (isPerspective (camera v)); [|exact Hctl].
    destruct (Qltb _ _); [|exact Hctl]. exact Hctl. }
  destruct (ensureFarPlane (cameraSettings v) distance maxDim (camera v))
    as [c farLog].
  cbn [fst] in Hctl'. viewer_fields. rewrite Hctl'.
  split; reflexivity.
Qed.

(** With a field of view whose half has a positive tangent and a box that
    is not a single point, fit-all makes the camera look at the centre of
    the combined box, a point of that box, and never places it on the side
    of smaller x, y or z of that point: the view is from the side and from
    above, never from below. *)
Theorem fitAllModelsToView_camera_side (tanHalf : Q -> Q) (v : Viewer)
    (first : Box3) (others : list Box3) (warnings : list LogEntry)
    (lo hi : Vector3) :
  loadedModels v <> [] ->
  collectBoxes (loadedModels v) = (first :: others, warnings) ->
  fold_left union others first = box lo hi ->
  isEmpty (box lo hi) = false ->
  hasControls (camera v) = true ->
  0 < maxDimOf (getSize (box lo hi)) ->
  0 < tanHalf (if isPerspective (camera v) then fov (camera v) else 60) ->
  let v' := fitAllModelsToView tanHalf v in
  let eye := position (camera v') in
  let aim := target (camera v') in
  aim = getCenter (box lo hi) /\
  (v_x lo <= v_x aim <= v_x hi /\ v_y lo <= v_y aim <= v_y hi /\
   v_z lo <= v_z aim <= v_z hi) /\
  v_x aim <= v_x eye /\ v_y aim <= v_y eye /\ v_z aim <= v_z eye.
Proof.
  intros Hmodels Hboxes Hfold Hne Hctl Hdim Htan v' eye aim.
  rewrite <- Hfold in Hne.
  destruct (fitAllModelsToView_camera tanHalf v first others warnings
              Hmodels Hboxes Hne Hctl) as [Htarget Hposition].
  subst eye aim v'. rewrite Htarget, Hposition. rewrite Hfold in *.
  split; [reflexivity|]. cbn [v_x v_y v_z].
  set (maxDim := maxDimOf (getSize (box lo hi))) in *.
  set (distance := fitAllDistance tanHalf (camera v) maxDim).
  assert (0 <= distance) as Hdist.
  { subst distance. unfold fitAllDistance. cbv zeta.
    set (t := tanHalf (if isPerspective (camera v) then fov (camera v) else 60)) in *.
    unfold Qdiv.
    assert (0 < / (2 * t)) as Hq by (apply Qinv_lt_0_compat; lra).
    set (q := / (2 * t)) in *. nra. }
  assert (1.0 <= Qmax 1.0 (distance / maxDim)) as Hom by apply Q.le_max_l.
  set (offsetMultiplier := Qmax 1.0 (distance / maxDim)) in *.
  simpl in Hne. rewrite !orb_false_iff in Hne. destruct Hne as [[Hx Hy] Hz].
  apply Qgtb_false in Hx, Hy, Hz.
  unfold getCenter. cbn [isEmpty].
  assert (Qltb (v_x hi) (v_x lo) || Qltb (v_y hi) (v_y lo) || Qltb (v_z hi) (v_z lo)
          = false) as ->.
  { rewrite !orb_false_iff. unfold Qltb. rewrite !Qgtb_false. auto. }
  cbn [v_x v_y v_z].
  split; [repeat split; lra|].
  repeat split; nra.
Qed.

Lemma fitAllModelsToView_camera_side_witness :
  let v' := fitAllModelsToView (fun _ => 0.5) (cubeScene 100) in
  target (camera v') = getCenter (cube 100) /\
  v_x (target (camera v')) <= v_x (position (camera v')) /\
  v_y (target (camera v')) <= v_y (position (camera v')) /\
  v_z (target (camera v')) <= v_z (position (camera v')).
Proof.
  intros v'.
  destruct (fitAllModelsToView_camera_side (fun _ => 0.5) (cubeScene 100)
              (cube 100) [] [] (mkVector3 0 0 0) (mkVector3 100 100 100))
    as (Haim & _ & Hx & Hy & Hz).
  - discriminate.
  - reflexivity.
  - reflexivity.
  - reflexivity.
  - reflexivity.
  - vm_compute. reflexivity.
  - reflexivity.
  - repeat split; assumption.
Defined.

(** ** Picking: which model answers a click *)

Lemma pickLoop_first_hit (mouse : Q * Q) (pre : list LoadedModel)
    (lm : LoadedModel) (post : list LoadedModel)
    (cast : Q * Q -> outcome (option RayHit)) (localId : Z) :
  (forall p, In p pre -> reportsHit mouse (model p) = false) ->
  raycast (model lm) = Some cast ->
  cast mouse = Ok (Some (mkRayHit (Some localId))) ->
  forall v : Viewer,
    rendererAvailable v = true ->
    propertiesContent v <> None ->
    propertiesContent (pickLoop mouse (pre ++ lm :: post) v) =
      Some (PanelComponent localId (fileName lm)
              (option_map propertyRows (componentDataOf (model lm) localId))) /\
    loadedModels (pickLoop mouse (pre ++ lm :: post) v) = loadedModels v.
Proof.
  intros Hmiss Hcast Hhit.
  induction pre as [|p pre IH]; intros v Hrenderer Hpanel.
  - cbn [app pickLoop]. rewrite Hcast, Hrenderer, Hhit. cbn [negb].
    unfold displayComponentProperties.
    destruct (propertiesContent v); [|congruence]. split; reflexivity.
  - assert (forall q, In q pre -> reportsHit mouse (model q) = false) as Hpre
      by (intros q Hq; apply Hmiss; right; exact Hq).
    pose proof (Hmiss p (or_introl eq_refl)) as Hp. unfold reportsHit in Hp.
    rewrite <- app_comm_cons. cbn [pickLoop].
    destruct (raycast (model p)) as [castp|]; [|apply IH; assumption].
    rewrite Hrenderer. cbn [negb].
    destruct (castp mouse) as [[[[hit|]]|]|];
      try discriminate; try (apply IH; assumption).
    destruct (IH Hpre (logged [LogRaycastFailed (fileName p)] v)) as [-> ->];
      [exact Hrenderer | exact Hpanel|]. split; reflexivity.
Qed.

(** A click is answered by the first model in load order that reports a
    hit, not by the nearest one: the panel shows the item that model
    reports, with the model's file name and its property rows.  Models
    before it that cannot raycast, whose raycast throws or that report no
    item are passed over; models after it are not asked. *)
Theorem click_shows_first_hit (mouse : Q * Q) (v : Viewer)
    (pre : list LoadedModel) (lm : LoadedModel) (post : list LoadedModel)
    (cast : Q * Q -> outcome (option RayHit)) (localId : Z) :
  fragmentsReady v = true ->
  rendererAvailable v = true ->
  propertiesContent v <> None ->
  loadedModels v = pre ++ lm :: post ->
  (forall p, In p pre -> reportsHit mouse (model p) = false) ->
  raycast (model lm) = Some cast ->
  cast mouse = Ok (Some (mkRayHit (Some localId))) ->
  propertiesContent (onClick mouse v) =
    Some (PanelComponent localId (fileName lm)
            (option_map propertyRows (componentDataOf (model lm) localId))) /\
  loadedModels (onClick mouse v) = loadedModels v.
Proof.
  intros Hready Hrenderer Hpanel Hmodels Hmiss Hcast Hhit.
  destruct (pickLoop_first_hit mouse pre lm post cast localId Hmiss Hcast Hhit
              v Hrenderer Hpanel) as [Hshown Hkept].
  rewrite <- Hmodels in Hshown, Hkept.
  unfold onClick. rewrite Hready. cbn [negb].
  destruct (loadedModels v) as [|lm0 rest] eqn:Hlm;
    [destruct pre; discriminate|].
  split; assumption.
Qed.

Lemma click_shows_first_hit_witness :
  propertiesContent (onClick (120, 80) streetScene) =
    Some (PanelComponent 7 "garage.frag" (Some [("Name"%string, "Door"%string)])) /\
  loadedModels (onClick (120, 80) streetScene) = loadedModels streetScene.
Proof.
  apply (click_shows_first_hit (120, 80) streetScene
           [mkLoaded (plainModel "a.frag" (cube 1)) "a.frag";
            mkLoaded brokenRaycastModel "broken.frag"]
           (mkLoaded garageModel "garage.frag")
           [mkLoaded houseModel "house.frag"]
           (fun _ => Ok (Some (mkRayHit (Some 7%Z)))) 7).
  - reflexivity.
  - reflexivity.
  - discriminate.
  - reflexivity.
  - intros p [<-|[<-|[]]]; reflexivity.
  - reflexivity.
  - reflexivity.
Defined.

(** Without a renderer the loop warns for each model that can raycast and
    asks none. *)
Lemma pickLoop_without_renderer (mouse : Q * Q) (models : list LoadedModel) :
  forall v : Viewer,
    rendererAvailable v = false ->
    propertiesContent v <> None ->
    propertiesContent (pickLoop mouse models v) = Some PanelEmptySelection /\
    console (pickLoop mouse models v) =
      console v ++
      List.repeat WarnRendererUnavailable
        (length (List.filter
                   (fun lm => match raycast (model lm) with
                              | Some _ => true
                              | None => false
                              end)
                   models)).
Proof.
  induction models as [|lm rest IH]; intros v Hrenderer Hpanel; cbn [pickLoop].
  - destruct (propertiesContent v) eqn:Hp; [|congruence].
    cbn [List.filter length List.repeat]. rewrite app_nil_r. split; reflexivity.
  - cbn [List.filter].
    destruct (raycast (model lm)) as [cast|]; [|apply IH; assumption].
    rewrite Hrenderer. cbn [negb length List.repeat].
    destruct (IH (logged [WarnRendererUnavailable] v)) as [-> ->];
      [exact Hrenderer | exact Hpanel|].
    viewer_fields. rewrite <- List.app_assoc. split; reflexivity.
Qed.

(** Without a renderer no model is asked: every click on a viewer with
    models and a panel ends with the empty-selection placeholder, whatever
    the models would report, and warns once for each model that can
    raycast. *)
Theorem click_without_renderer (mouse : Q * Q) (v : Viewer) :
  fragmentsReady v = true ->
  rendererAvailable v = false ->
  loadedModels v <> [] ->
  propertiesContent v <> None ->
  propertiesContent (onClick mouse v) = Some PanelEmptySelection /\
  console (onClick mouse v) =
    console v ++
    List.repeat WarnRendererUnavailable
      (length (List.filter
                 (fun lm => match raycast (model lm) with
                            | Some _ => true
                            | None => false
                            end)
                 (loadedModels v))).
Proof.
  intros Hready Hrenderer Hmodels Hpanel.
  unfold onClick. rewrite Hready. cbn [negb].
  destruct (loadedModels v) as [|lm rest] eqn:Hlm; [congruence|].
  apply pickLoop_without_renderer; assumption.
Qed.

Lemma click_without_renderer_witness :
  propertiesContent (onClick (120, 80) headlessScene) = Some PanelEmptySelection /\
  console (onClick (120, 80) headlessScene) =
    [WarnRendererUnavailable; WarnRendererUnavailable; WarnRendererUnavailable].
Proof.
  apply (click_without_renderer (120, 80) headlessScene).
  - reflexivity.
  - reflexivity.
  - discriminate.
  - discriminate.
Defined.

(** ** The cut of long property values *)

Lemma string_length_append (s1 s2 : string) :
  String.length (String.append s1 s2) = (String.length s1 + String.length s2)%nat.
Proof.
  induction s1 as [|c s1 IH]; [reflexivity|].
  change (S (String.length (String.append s1 s2)) =
          S (String.length s1 + String.length s2)).
  f_equal. exact IH.
Qed.

Lemma substring_0_length (n : nat) :
  forall s : string,
    (n <= String.length s)%nat -> String.length (substring 0 n s) = n.
Proof.
  induction n as [|n IH]; intros [|c s] Hn; cbn [String.length substring] in *;
    try reflexivity; try lia.
  f_equal. apply IH. lia.
Qed.

Lemma substring_0_append (s1 s2 : string) :
  forall n : nat,
    String.length s1 = n -> substring 0 n (String.append s1 s2) = s1.
Proof.
  induction s1 as [|c s1 IH]; intros n Hn; cbn [String.length] in Hn; subst n.
  - destruct s2; reflexivity.
  - change (String c (substring 0 (String.length s1) (String.append s1 s2)) =
            String c s1).
    f_equal. apply IH. reflexivity.
Qed.

(** The value shown for a property is never longer than 103 characters and
    always starts with the first hundred characters of the value; cutting a
    value that has been cut changes nothing. *)
Theorem displayValue_truncates (value : string) :
  (String.length (displayValue value) <= 103)%nat /\
  substring 0 100 (displayValue value) = substring 0 100 value /\
  displayValue (displayValue value) = displayValue value.
Proof.
  unfold displayValue.
  destruct (Nat.ltb_spec 100 (String.length value)) as [Hlong|Hshort].
  - assert (String.length (substring 0 100 value) = 100%nat) as Hcut
      by (apply substring_0_length; lia).
    assert (String.length (String.append (substring 0 100 value) "...") = 103%nat)
      as Hlen by (rewrite string_length_append, Hcut; reflexivity).
    rewrite Hlen.
    rewrite (substring_0_append (substring 0 100 value) "..." 100 Hcut).
    split; [lia|]. split; reflexivity.
  - split; [lia|]. split; [reflexivity|].
    destruct (Nat.ltb_spec 100 (String.length value)); [lia | reflexivity].
Qed.

(** ** Clear all *)

(** [clearAllFragments] empties the model list and, with camera controls,
    moves the camera to (10, 10, 10) looking at the origin; it keeps the
    camera settings, the properties panel and the registry of hidden
    categories as they are.  Afterwards the close and far fit, the category
    toggle, the preset views, show all, hide all and a click leave the
    viewer untouched, and fit-all only writes its warning. *)
Theorem clearAllFragments_leaves_controls_idle (tanHalf : Q -> Q)
    (cmp : Components) (itemsOf : string -> option (outcome (gset Z)))
    (v : Viewer) :
  let cleared := clearAllFragments v in
  loadedModels cleared = [] /\
  cameraSettings cleared = cameraSettings v /\
  propertiesContent cleared = propertiesContent v /\
  hiddenCategories cleared = hiddenCategories v /\
  position (camera cleared) =
    (if hasControls (camera v) then mkVector3 10 10 10 else position (camera v)) /\
  target (camera cleared) =
    (if hasControls (camera v) then mkVector3 0 0 0 else target (camera v)) /\
  (forall wide : bool, fitCameraToModels wide cleared = cleared) /\
  (forall category : string,
     toggleCategoryVisibility cmp category cleared = (undefined, cleared)) /\
  (forall view : View, setCameraPreset view cleared = (cleared, PresetSkipped)) /\
  showAllElements itemsOf cleared = (cleared, [BulkNoModels]) /\
  hideAllElements itemsOf cleared = (cleared, [BulkNoModels]) /\
  (forall mouse : Q * Q, onClick mouse cleared = cleared) /\
  fitAllModelsToView tanHalf cleared = logged [WarnNoCameraOrModels] cleared.
Proof.
  intros cleared.
  assert (loadedModels cleared = []) as Hmodels.
  { subst cleared. unfold clearAllFragments. viewer_fields.
    destruct (hasControls (camera v)); reflexivity. }
  split; [exact Hmodels|].
  repeat split.
  - subst cleared. unfold clearAllFragments. viewer_fields.
    destruct (hasControls (camera v)); reflexivity.
  - subst cleared. unfold clearAllFragments. viewer_fields.
    destruct (hasControls (camera v)); reflexivity.
  - subst cleared. unfold clearAllFragments. viewer_fields.
    destruct (hasControls (camera v)); reflexivity.
  - subst cleared. unfold clearAllFragments. viewer_fields.
    destruct (hasControls (camera v)); reflexivity.
  - subst cleared. unfold clearAllFragments. viewer_fields.
    destruct (hasControls (camera v)); reflexivity.
  - intros wide. unfold fitCameraToModels. rewrite Hmodels. reflexivity.
  - intros category. unfold toggleCategoryVisibility. rewrite Hmodels. reflexivity.
  - intros view. unfold setCameraPreset. rewrite Hmodels. reflexivity.
  - unfold showAllElements. rewrite Hmodels. reflexivity.
  - unfold hideAllElements. rewrite Hmodels. reflexivity.
  - intros mouse. unfold onClick. rewrite Hmodels.
    destruct (fragmentsReady cleared); reflexivity.
  - unfold fitAllModelsToView. rewrite Hmodels. reflexivity.
Qed.

(** ** Waiting on a model without meshes *)

Lemma mergedBoxCheck_events (m : Model) (e : Z) :
  forall ev, In ev (mergedBoxCheck m e) ->
             ev = LogGeometryReady e \/ ev = Resolve \/ ev = WarnReadinessError.
Proof.
  unfold mergedBoxCheck.
  destruct (boundingBoxes m) as [[[b|]| |]|]; cbn [In]; try tauto.
  - destruct (isEmpty b); cbn [In]; [tauto|].
    intros ev [<-|[<-|[]]]; auto.
  - intros ev [<-|[]]; auto.
Qed.

(** As long as no poll finds a mesh with positions, only the time-out
    branch ends the chain of timers. *)
Lemma checkReady_no_mesh (env : WaitEnv) (maxWaitTime : Z) (fuel : nat) :
  forall i : nat,
    (forall j, hasValidGeometry (handle env j) = false) ->
    snd (checkReady env maxWaitTime fuel i) = true ->
    exists (before : list ReadyEvent) (e : Z),
      fst (checkReady env maxWaitTime fuel i) =
        before ++ [Poll e; WarnTimedOut maxWaitTime; Resolve] /\
      (maxWaitTime < e)%Z /\
      (forall e', In (Poll e') before -> (e' <= maxWaitTime)%Z) /\
      (forall w, ~ In (WarnTimedOut w) before).
Proof.
  induction fuel as [|fuel IH]; intros i Hnever Hend; [discriminate|].
  rewrite checkReady_step in *. cbv zeta in *.
  destruct (Z.gtb_spec (clock env i - startTime env) maxWaitTime) as [Hgt|Hle].
  - exists [], (clock env i - startTime env)%Z. cbn [app In].
    repeat split; auto; try tauto; lia.
  - rewrite (Hnever i) in *. cbn [fst snd] in *.
    destruct (IH (S i) Hnever Hend) as (before & e & Hlater & He & Hpolls & Hwarn).
    rewrite Hlater.
    exists (Poll (clock env i - startTime env)
              :: mergedBoxCheck (handle env i) (clock env i - startTime env)
              ++ before), e.
    pose proof (mergedBoxCheck_events (handle env i) (clock env i - startTime env))
      as Hmb.
    split; [cbn [app]; rewrite List.app_assoc; reflexivity|].
    split; [exact He|]. split.
    + intros e' [Hin|Hin]; [injection Hin as <-; lia|].
      apply in_app_or in Hin. destruct Hin as [Hin|Hin]; [|auto].
      apply Hmb in Hin. destruct Hin as [?|[?|?]]; discriminate.
    + intros w [Hin|Hin]; [discriminate|].
      apply in_app_or in Hin. destruct Hin as [Hin|Hin]; [|eapply Hwarn; eauto].
      apply Hmb in Hin. destruct Hin as [?|[?|?]]; discriminate.
Qed.

(** A model that never shows a mesh with positions is polled until the
    elapsed time passes [maxWaitTime], and the time-out warning is logged
    then, even when its merged box was there at the first poll and settled
    the promise at once: the box check resolves the promise but does not
    stop the timers. *)
Theorem waitForModelReady_without_meshes_times_out (env : WaitEnv)
    (maxWaitTime : Z) (fuel : nat) :
  timersFireLate env ->
  (pollBound maxWaitTime <= fuel)%nat ->
  (forall i, hasValidGeometry (handle env i) = false) ->
  let trace := fst (waitForModelReady env maxWaitTime fuel) in
  (exists (before : list ReadyEvent) (e : Z),
     trace = before ++ [Poll e; WarnTimedOut maxWaitTime; Resolve] /\
     (maxWaitTime < e)%Z /\
     (forall e', In (Poll e') before -> (e' <= maxWaitTime)%Z) /\
     (forall w, ~ In (WarnTimedOut w) before)) /\
  (forall b : Box3,
     boundingBoxes (handle env 0) = Some (MergedBoxResolves (Some b)) ->
     isEmpty b = false ->
     (clock env 0 - startTime env <= maxWaitTime)%Z ->
     settledBy trace =
       Some [Poll (clock env 0 - startTime env);
             LogGeometryReady (clock env 0 - startTime env)]).
Proof.
  intros Htimers Hfuel Hnever trace.
  pose proof (pollBound_covers env maxWaitTime Htimers) as Hend.
  assert (waitForModelReady env maxWaitTime fuel =
          checkReady env maxWaitTime (pollBound maxWaitTime) 0) as Heq.
  { unfold waitForModelReady. apply checkReady_fuel; assumption. }
  subst trace. rewrite Heq. split.
  - apply checkReady_no_mesh; assumption.
  - intros b Hbox Hne Hnow.
    unfold pollBound.
    replace (Z.to_nat (maxWaitTime / checkInterval) + 2)%nat
      with (S (Z.to_nat (maxWaitTime / checkInterval) + 1)) by lia.
    rewrite checkReady_step. cbv zeta.
    destruct (Z.gtb_spec (clock env 0 - startTime env) maxWaitTime); [lia|].
    rewrite (Hnever 0%nat). cbn [fst].
    unfold mergedBoxCheck. rewrite Hbox, Hne. reflexivity.
Qed.

Lemma waitForModelReady_without_meshes_times_out_witness :
  let trace :=
    fst (waitForModelReady
           (steadyEnv (boxedModel (MergedBoxResolves (Some (cube 1)))))
           defaultMaxWaitTime 102) in
  (exists (before : list ReadyEvent) (e : Z),
     trace = before ++ [Poll e; WarnTimedOut defaultMaxWaitTime; Resolve] /\
     (defaultMaxWaitTime < e)%Z) /\
  settledBy trace = Some [Poll 0; LogGeometryReady 0].
Proof.
  intros trace.
  destruct (waitForModelReady_without_meshes_times_out
              (steadyEnv (boxedModel (MergedBoxResolves (Some (cube 1)))))
              defaultMaxWaitTime 102)
    as [(before & e & Htrace & He & _) Hsettled].
  - apply steadyEnv_timers.
  - vm_compute. lia.
  - intros i. reflexivity.
  - split; [exists before, e; auto|].
    apply (Hsettled (cube 1)); [reflexivity | reflexivity | vm_compute; discriminate].
Defined.

(** ** The fallback and the registry *)

Lemma fallbackLoop_no_match (category : string) (models : list LoadedModel) :
  (forall lm, In lm models ->
     forall var m', tryVariations (model lm) (variations category) <> Matched var m') ->
  fst (fst (fallbackLoop category models)) = models /\
  snd (fallbackLoop category models) = false.
Proof.
  induction models as [|lm rest IH]; intros Hnone; [split; reflexivity|].
  destruct IH as [Hmodels Hreturned];
    [intros lm' Hin; apply Hnone; right; exact Hin|].
  cbn [fallbackLoop].
  pose proof (Hnone lm (or_introl eq_refl)) as Hlm.
  destruct (tryVariations (model lm) (variations category)) as [var m'| |].
  - exfalso. apply (Hlm var m'). reflexivity.
  - destruct (fallbackLoop category rest) as [[rest' lines] returned].
    cbn [fst snd] in *. subst. split; reflexivity.
  - destruct (fallbackLoop category rest) as [[rest' lines] returned].
    cbn [fst snd] in *. subst. split; reflexivity.
Qed.

Lemma fallback_no_match (category : string) (v : Viewer) :
  (forall lm, In lm (loadedModels v) ->
     forall var m', tryVariations (model lm) (variations category) <> Matched var m') ->
  loadedModels (toggleCategoryVisibilityFallback category v) = loadedModels v /\
  renders (toggleCategoryVisibilityFallback category v) = renders v.
Proof.
  intros Hnone. unfold toggleCategoryVisibilityFallback.
  destruct (fallbackLoop_no_match category (loadedModels v) Hnone) as [Hmodels Hret].
  destruct (fallbackLoop category (loadedModels v)) as [[models lines] returned].
  cbn [fst snd] in *. subst. split; reflexivity.
Qed.

(** The state a toggle hands to the fallback, when the classifier throws or
    finds nothing. *)
Lemma toggle_through_fallback (cmp : Components) (category : string) (v : Viewer) :
  loadedModels v <> [] ->
  match classifierFind cmp category with
  | Ok result => totalItemsOf result = 0%nat
  | Throws => True
  end ->
  exists lines : list LogEntry,
    snd (toggleCategoryVisibility cmp category v) =
    toggleCategoryVisibilityFallback category (logged lines v).
Proof.
  intros Hmodels Hfind. unfold toggleCategoryVisibility.
  destruct (loadedModels v) as [|lm rest] eqn:Hlm; [congruence|].
  unfold toggleCategoryPrimary.
  destruct (classifierFind cmp category) as [result|].
  - rewrite Hfind. cbn [Nat.ltb Nat.leb snd].
    eexists ([_; _] ++ [_]).
    unfold logged at 1 2 3. viewer_fields.
    unfold logged. viewer_fields. rewrite <- !List.app_assoc. reflexivity.
  - cbn [snd]. eexists ([_] ++ [_; _]).
    unfold logged at 1 2. viewer_fields.
    unfold logged. viewer_fields. rewrite <- !List.app_assoc. reflexivity.
Qed.

(** A toggle that goes through the fallback, because the classifier throws
    or finds nothing, never writes the registry of hidden categories,
    whether or not the fallback flips items; it keeps the number of loaded
    models.  When no loaded model knows the category under any of the four
    names, the models are left as they were and no render is forced. *)
Theorem toggle_through_fallback_keeps_registry (cmp : Components)
    (category : string) (v : Viewer) :
  loadedModels v <> [] ->
  match classifierFind cmp category with
  | Ok result => totalItemsOf result = 0%nat
  | Throws => True
  end ->
  let v' := snd (toggleCategoryVisibility cmp category v) in
  hiddenCategories v' = hiddenCategories v /\
  length (loadedModels v') = length (loadedModels v) /\
  ((forall lm, In lm (loadedModels v) ->
      forall var m', tryVariations (model lm) (variations category) <> Matched var m') ->
   loadedModels v' = loadedModels v /\ renders v' = renders v).
Proof.
  intros Hmodels Hfind v'. subst v'.
  destruct (toggle_through_fallback cmp category v Hmodels Hfind) as [lines ->].
  destruct (fallback_preserves category (logged lines v)) as [-> ->].
  split; [reflexivity|]. split; [reflexivity|].
  intros Hnone. apply (fallback_no_match category (logged lines v) Hnone).
Qed.

Lemma toggle_through_fallback_keeps_registry_witness :
  let v' := snd (toggleCategoryVisibility silentComponents "IFCWALL"
                   (viewerWith defaultCameraSettings
                      [mkLoaded (namedModel "a.frag") "a.frag"])) in
  hiddenCategories v' = None /\
  Fragments.isVisible (model (hd (mkLoaded houseModel "") (loadedModels v'))) 1 = false.
Proof.
  intros v'.
  destruct (toggle_through_fallback_keeps_registry silentComponents "IFCWALL"
              (viewerWith defaultCameraSettings
                 [mkLoaded (namedModel "a.frag") "a.frag"]))
    as (Hregistry & _).
  - discriminate.
  - vm_compute. reflexivity.
  - split; [exact Hregistry|]. vm_compute. reflexivity.
Defined.

(** ** Fit all: which boxes are framed *)

Lemma containsBox_transitive (a b c : Box3) :
  containsBox a b -> containsBox b c -> containsBox a c.
Proof.
  destruct a as [|la ha], b as [|lb hb], c as [|lc hc]; simpl; try tauto.
  intros ((H1 & H2 & H3) & (H4 & H5 & H6)) ((K1 & K2 & K3) & (K4 & K5 & K6)).
  repeat split; eapply Qle_trans; eassumption.
Qed.

Lemma fold_union_contains (others : list Box3) :
  forall first : Box3,
    containsBox (fold_left union others first) first /\
    (forall b, In b others -> containsBox (fold_left union others first) b).
Proof.
  induction others as [|o rest IH]; intros first; cbn [fold_left].
  - split; [apply containsBox_refl | intros b []].
  - destruct (IH (union first o)) as [Hacc Hrest]. split.
    + eapply containsBox_transitive; [exact Hacc | apply union_contains_l].
    + intros b [<-|Hin]; [|apply Hrest; exact Hin].
      eapply containsBox_transitive; [exact Hacc | apply union_contains_r].
Qed.

Lemma collectBoxes_spec (models : list LoadedModel) :
  (forall lm b, In lm models -> modelBounds (model lm) = Ok (Some b) ->
                In b (fst (collectBoxes models))) /\
  (forall b, In b (fst (collectBoxes models)) ->
             exists lm, In lm models /\ modelBounds (model lm) = Ok (Some b)) /\
  snd (collectBoxes models) =
    List.repeat WarnBoundsFailed
      (length (List.filter
                 (fun lm => match modelBounds (model lm) with
                            | Throws => true
                            | Ok _ => false
                            end)
                 models)).
Proof.
  induction models as [|lm rest (IHin & IHfrom & IHwarn)].
  - repeat split; [intros lm b [] | intros b []].
  - cbn [collectBoxes List.filter].
    destruct (collectBoxes rest) as [boxes warnings]. cbn [fst snd] in *.
    destruct (modelBounds (model lm)) as [[b0|]|] eqn:Hb; cbn [fst snd].
    + repeat split.
      * intros lm' b [<-|Hin] Hm; [left; congruence | right; eauto].
      * intros b [<-|Hin]; [exists lm; split; [left; reflexivity | exact Hb]|].
        destruct (IHfrom b Hin) as (lm' & Hin' & Hm). exists lm'. split; [right|]; assumption.
      * exact IHwarn.
    + repeat split.
      * intros lm' b [<-|Hin] Hm; [congruence | eauto].
      * intros b Hin.
        destruct (IHfrom b Hin) as (lm' & Hin' & Hm). exists lm'. split; [right|]; assumption.
      * exact IHwarn.
    + repeat split.
      * intros lm' b [<-|Hin] Hm; [congruence | eauto].
      * intros b Hin.
        destruct (IHfrom b Hin) as (lm' & Hin' & Hm). exists lm'. split; [right|]; assumption.
      * cbn [length List.repeat]. f_equal. exact IHwarn.
Qed.

(** Fit-all takes one box from every model whose bounds can be had (the
    merged box of its [boundingBoxes] facility when it has one, the bounds
    of its object otherwise) and nothing else, warns once for each model
    whose bounds fail, and the box it aims at the centre of contains every
    box taken. *)
Theorem fitAllModelsToView_frames_every_model (tanHalf : Q -> Q) (v : Viewer)
    (first : Box3) (others : list Box3) (warnings : list LogEntry) :
  loadedModels v <> [] ->
  collectBoxes (loadedModels v) = (first :: others, warnings) ->
  isEmpty (fold_left union others first) = false ->
  hasControls (camera v) = true ->
  let combinedBox := fold_left union others first in
  target (camera (fitAllModelsToView tanHalf v)) = getCenter combinedBox /\
  (forall lm b, In lm (loadedModels v) -> modelBounds (model lm) = Ok (Some b) ->
                containsBox combinedBox b) /\
  (forall b, In b (first :: others) ->
             exists lm, In lm (loadedModels v) /\ modelBounds (model lm) = Ok (Some b)) /\
  warnings =
    List.repeat WarnBoundsFailed
      (length (List.filter
                 (fun lm => match modelBounds (model lm) with
                            | Throws => true
                            | Ok _ => false
                            end)
                 (loadedModels v))).
Proof.
  intros Hmodels Hboxes Hne Hctl combinedBox.
  destruct (fitAllModelsToView_camera tanHalf v first others warnings
              Hmodels Hboxes Hne Hctl) as [Htarget _].
  destruct (collectBoxes_spec (loadedModels v)) as (Hin & Hfrom & Hwarn).
  rewrite Hboxes in Hin, Hfrom, Hwarn. cbn [fst snd] in Hin, Hfrom, Hwarn.
  destruct (fold_union_contains others first) as [Hfirst Hothers].
  split; [exact Htarget|]. split; [|split; assumption].
  intros lm b Hlm Hb.
  destruct (Hin lm b Hlm Hb) as [<-|Hrest]; [exact Hfirst | apply Hothers; exact Hrest].
Qed.

Lemma fitAllModelsToView_frames_every_model_witness :
  let v := viewerWith defaultCameraSettings
             (twoBoxModels ++ [mkLoaded (bareModel "c.frag") "c.frag"]) in
  let combinedBox := box (mkVector3 0 0 0) (mkVector3 200 120 300) in
  target (camera (fitAllModelsToView (fun _ => 0.5) v)) = getCenter combinedBox /\
  (forall lm b, In lm (loadedModels v) -> modelBounds (model lm) = Ok (Some b) ->
                containsBox combinedBox b).
Proof.
  intros v combinedBox.
  destruct (fitAllModelsToView_frames_every_model (fun _ => 0.5) v
              (cube 100) [box (mkVector3 50 50 50) (mkVector3 200 120 300)]
              [WarnBoundsFailed])
    as (Htarget & Hcontains & _).
  - discriminate.
  - reflexivity.
  - reflexivity.
  - reflexivity.
  - split; [exact Htarget | exact Hcontains].
Defined.
